(** * CSP plastic-pyrolysis plant: the simulation engine of [src/App.jsx]

    A shallow embedding of the time-stepped engine that lives inside the
    [CSPPyrolysisSimulation] component: the three catalogs, the solar model
    [calculateSunParameters], [calculateThermalPower], [processPyrolysis],
    [updateWeather], the body of the [setInterval] callback ([tick]) and the
    RESET handler ([reset]).

    Conventions of the embedding.
    - JavaScript numbers are idealised as real numbers ([R]); [Math.sin] is
      [sin], [Math.PI] is [PI], [Math.min]/[Math.max] are [Rmin]/[Rmax].
      Rounding of IEEE doubles is not modelled.
    - Quantities that only ever hold integers (tick counter, hour, minute,
      speed multiplier, operational / faulty / maintenance counts) are [Z];
      [Math.floor (a / b)] is [Z.div] and [a % b] is [Z.rem].
    - Each [Math.random ()] call site is an input of the tick ([Draws]).
    - A tick reads the values captured by the closure of the effect (the
      state before the tick) and queues updates; functional updates
      [prev => ...] are applied in the order they were queued.
    - Catalogs are association lists in the order of the object literals;
      [lookup] is the own-property lookup and yields [None] for any other
      key.  For a key that is not an own property, [obj[key]] is
      [undefined] unless the key names a property of [Object.prototype]
      ([entryOf] tells the three cases apart).  The engine functions are
      embedded for own and undefined entries; the tick and the controls
      refuse an inherited feedstock key, and the controls an inherited
      speed key, as [NotModelled], since JavaScript then goes on with NaN
      or string values.
    - After a control fires the component renders again; the two reads of
      the dashboard that throw on an [undefined] catalog entry
      ([locationData.dni], [plasticData.description]) are part of [step]. *)

From Stdlib Require Import Reals Lra Lia ZArith String List Bool.
Import ListNotations.

Open Scope string_scope.
Open Scope Z_scope.
Open Scope R_scope.

(** ** Catalogs *)

Record Location := mkLocation {
  dni : R;
  lat : R;
  lon : R;
  tz  : R
}.

Definition SOLAR_DATA : list (string * Location) :=
  [ ("Riyadh, Saudi Arabia",     mkLocation 6.8 24.7 46.7 3);
    ("Phoenix, USA",             mkLocation 7.2 33.4 (-112.1) (-7));
    ("Seville, Spain",           mkLocation 5.9 37.4 (-5.9) 1);
    ("Dubai, UAE",               mkLocation 6.5 25.3 55.3 4);
    ("Las Vegas, USA",           mkLocation 7.5 36.2 (-115.1) (-8));
    ("Alice Springs, Australia", mkLocation 7.3 (-23.7) 133.9 9.5);
    ("Almeria, Spain",           mkLocation 6.4 36.8 (-2.4) 1);
    ("Cairo, Egypt",             mkLocation 6.2 30.0 31.2 2);
    ("Atacama, Chile",           mkLocation 8.5 (-23.6) (-70.4) (-4));
    ("Ouarzazate, Morocco",      mkLocation 6.7 30.9 (-6.9) 0);
    ("Tucson, USA",              mkLocation 7.0 32.2 (-110.9) (-7));
    ("Jodhpur, India",           mkLocation 6.3 26.3 73.0 5.5) ].

Record Plastic := mkPlastic {
  name         : string;
  h2_yield     : R;
  carbon_yield : R;
  oil_yield    : R;
  gas_yield    : R;
  optimal_temp : R;
  color        : string;
  description  : string
}.

Definition PLASTIC_TYPES : list (string * Plastic) :=
  [ ("HDPE",  mkPlastic "High-Density Polyethylene" 168 0.25 0.15 0.10 850
                        "#3b82f6" "Bottles, containers");
    ("LDPE",  mkPlastic "Low-Density Polyethylene" 175 0.22 0.18 0.12 850
                        "#06b6d4" "Bags, films");
    ("PP",    mkPlastic "Polypropylene" 165 0.26 0.16 0.11 850
                        "#8b5cf6" "Containers, textiles");
    ("PS",    mkPlastic "Polystyrene" 95 0.48 0.20 0.08 900
                        "#ec4899" "Foam, packaging");
    ("Mixed", mkPlastic "Mixed Plastics" 150 0.30 0.17 0.10 850
                        "#f59e0b" "Municipal waste") ].

Module CONSTANTS.
Definition HELIOSTAT_AREA : R := 115.
Definition HELIOSTAT_EFFICIENCY : R := 0.68.
Definition RECEIVER_EFFICIENCY : R := 0.88.
Definition SALT_TEMP_HOT : R := 565.
Definition SALT_TEMP_COLD : R := 290.
Definition SALT_HEAT_CAPACITY : R := 1.55.
Definition SALT_DENSITY : R := 1800.
Definition HEAT_LOSS_PER_HOUR : R := 0.02.
Definition PYROLYSIS_ENERGY : R := 450.
Definition HELIOSTAT_COUNT : Z := 2127.
Definition REACTOR_CAPACITY : R := 500.
Definition STORAGE_TANK_VOLUME : R := 12000.
End CONSTANTS.

Definition SPEED_OPTIONS : list (string * Z) :=
  [ ("Real-time (1 day = 24 hours)", 1%Z);
    ("Fast (1 day = 2 hours)",       12%Z);
    ("Very Fast (1 day = 30 min)",   48%Z);
    ("Ultra Fast (1 day = 20 min)",  72%Z);
    ("Extreme (1 day = 10 min)",     144%Z) ].

(** [obj[key]]: the value stored under [key], [None] for [undefined]. *)
Fixpoint lookup {A : Type} (key : string) (obj : list (string * A)) : option A :=
  match obj with
  | [] => None
  | (k, v) :: rest => if String.eqb key k then Some v else lookup key rest
  end.

(** Property names every object literal inherits from [Object.prototype]:
    [obj[key]] is a function (or the prototype itself) for these keys. *)
Definition OBJECT_PROTOTYPE_KEYS : list string :=
  [ "constructor"; "hasOwnProperty"; "isPrototypeOf"; "propertyIsEnumerable";
    "toLocaleString"; "toString"; "valueOf"; "__proto__";
    "__defineGetter__"; "__defineSetter__"; "__lookupGetter__"; "__lookupSetter__" ].

Definition inherited (key : string) : bool :=
  existsb (String.eqb key) OBJECT_PROTOTYPE_KEYS.

(** What [obj[key]] is: a catalog entry, an inherited member without any
    of the catalog's fields, or [undefined]. *)
Inductive Entry := Own | Inherited | Missing.

Definition entryOf {A : Type} (key : string) (obj : list (string * A)) : Entry :=
  match lookup key obj with
  | Some _ => Own
  | None => if inherited key then Inherited else Missing
  end.

(** [a > b] and [a < b] as JavaScript booleans. *)
Definition gt (a b : R) : bool := if Rlt_dec b a then true else false.
Definition lt (a b : R) : bool := if Rlt_dec a b then true else false.

(** [x || d] on numbers: [0] is falsy. *)
Definition orElse (x d : R) : R := if Req_dec_T x 0 then d else x.

Definition orElseZ (x d : Z) : Z := if (x =? 0)%Z then d else x.

(** [locationData?.lat || 0] and [locationData?.dni || 6.0]. *)
Definition latOr (locationData : option Location) (d : R) : R :=
  match locationData with
  | Some l => orElse (lat l) d
  | None => d
  end.

Definition dniOr (locationData : option Location) (d : R) : R :=
  match locationData with
  | Some l => orElse (dni l) d
  | None => d
  end.

(** [SPEED_OPTIONS[selectedSpeed] || 72]. *)
Definition speedOf (selectedSpeed : string) : Z :=
  match lookup selectedSpeed SPEED_OPTIONS with
  | Some m => orElseZ m 72
  | None => 72%Z
  end.

(** ** Dates

    The engine builds every date from [new Date(2026, 0, 15)] by adding
    86400000 ms, so a date is kept as its year and its day within the year;
    [dayOfYear] is the quotient computed at the top of the tick. *)

Record JsDate := mkDate { year : Z; yday : Z }.

Definition isLeap (y : Z) : bool :=
  (((Z.rem y 4 =? 0) && negb (Z.rem y 100 =? 0)) || (Z.rem y 400 =? 0))%Z.

Definition daysIn (y : Z) : Z := if isLeap y then 366%Z else 365%Z.

Definition addDay (d : JsDate) : JsDate :=
  if (yday d <? daysIn (year d))%Z
  then mkDate (year d) (yday d + 1)
  else mkDate (year d + 1) 1.

Definition dayOfYear (d : JsDate) : Z := yday d.

(** ** State *)

Record Heliostats := mkHeliostats {
  operational     : Z;
  maintenance     : Z;
  cleaning_needed : R;
  faulty          : Z
}.

Record Production := mkProduction {
  hydrogen : R;
  carbon   : R;
  wax      : R;
  waste    : R;
  totalPlasticProcessed : R
}.

Record DailyStats := mkDailyStats {
  energyCollected  : R;
  plasticProcessed : R;
  hydrogenProduced : R;
  carbonProduced   : R;
  heatLoss         : R
}.

Record State := mkState {
  selectedLocation : string;
  selectedPlastic  : string;
  selectedSpeed    : string;
  currentDate      : JsDate;
  time             : Z;
  isRunning        : bool;
  currentHour      : Z;
  currentMinute    : Z;
  cloudCover       : R;
  windSpeed        : R;
  heliostats       : Heliostats;
  reactorTemp      : R;
  saltHotTemp      : R;
  saltColdTemp     : R;
  pyrolysisActive  : bool;
  production       : Production;
  dailyStats       : DailyStats
}.

Definition zeroProduction : Production := mkProduction 0 0 0 0 0.
Definition zeroDailyStats : DailyStats := mkDailyStats 0 0 0 0 0.

(** The [useState] initial values. *)
Definition initialState : State :=
  {| selectedLocation := "Riyadh, Saudi Arabia";
     selectedPlastic  := "HDPE";
     selectedSpeed    := "Ultra Fast (1 day = 20 min)";
     currentDate      := mkDate 2026 15;
     time             := 0;
     isRunning        := false;
     currentHour      := 6;
     currentMinute    := 0;
     cloudCover       := 0;
     windSpeed        := 0;
     heliostats       := mkHeliostats CONSTANTS.HELIOSTAT_COUNT 0 0 0;
     reactorTemp      := 290;
     saltHotTemp      := 420;
     saltColdTemp     := 290;
     pyrolysisActive  := false;
     production       := zeroProduction;
     dailyStats       := zeroDailyStats |}.

(** ** Solar model *)

Record SunParameters := mkSun {
  elevation   : R;
  sun_dni     : R;
  isDaytime   : bool;
  sunrise     : option R;
  sunset      : option R
}.

Definition seasonalOffset (dayOfYear : R) : R :=
  sin ((orElse dayOfYear 1 - 81) / 365 * 2 * PI) * 1.5.

Definition latitudeFactor (locationData : option Location) : R :=
  Rabs (latOr locationData 0) / 90.

Definition sunriseAt (locationData : option Location) (dayOfYear : R) : R :=
  6 - seasonalOffset dayOfYear * latitudeFactor locationData.

Definition sunsetAt (locationData : option Location) (dayOfYear : R) : R :=
  18 + seasonalOffset dayOfYear * latitudeFactor locationData.

Definition calculateSunParameters
    (locationData : option Location) (cloudCover : R)
    (hour minute dayOfYear : R) : SunParameters :=
  let hourDecimal := orElse hour 0 + orElse minute 0 / 60 in
  let sunrise := sunriseAt locationData dayOfYear in
  let sunset := sunsetAt locationData dayOfYear in
  if lt hourDecimal sunrise || gt hourDecimal sunset
  then mkSun 0 0 false None None
  else
    let dayLength := sunset - sunrise in
    let normalizedHour := (hourDecimal - sunrise) / dayLength in
    let baseElevation := sin (normalizedHour * PI) * 70 in
    let latitudeCorrection := 1 - (Rabs (latOr locationData 0) / 90) * 0.3 in
    let elevation := baseElevation * latitudeCorrection in
    let baseDNI := dniOr locationData 6.0 * 1000 / 8 in
    let timeOfDayFactor := sin (normalizedHour * PI) in
    let seasonalFactor := 1 + sin ((dayOfYear - 81) / 365 * 2 * PI) * 0.3 in
    let cloudFactor := 1 - (cloudCover / 100) * 0.7 in
    let dni := baseDNI * timeOfDayFactor * seasonalFactor * cloudFactor * 1.4 in
    mkSun elevation (Rmax 0 dni) true (Some sunrise) (Some sunset).

(** ** Thermal power *)

Definition calculateThermalPower (heliostats : Heliostats) (windSpeed dni : R) : R :=
  let activeHeliostats := IZR (operational heliostats) in
  let windEffect := if gt windSpeed 10 then 0.95 else 1.0 in
  let totalArea := activeHeliostats * CONSTANTS.HELIOSTAT_AREA in
  let opticalPower := totalArea * dni * CONSTANTS.HELIOSTAT_EFFICIENCY * windEffect in
  let thermalPower := opticalPower * CONSTANTS.RECEIVER_EFFICIENCY in
  thermalPower / 1e6.

(** ** Pyrolysis *)

Record Products := mkProducts {
  p_plastic  : R;
  p_hydrogen : R;
  p_carbon   : R;
  p_wax      : R;
  p_waste    : R;
  p_rate     : R
}.

Definition processPyrolysis (plasticData : Plastic) (thermalPowerMW deltaTime : R)
    : Products :=
  let requiredPowerPerKg := CONSTANTS.PYROLYSIS_ENERGY / 3600 in
  let maxPlasticRate := (thermalPowerMW * 1000) / requiredPowerPerKg in
  let actualRate := Rmin maxPlasticRate CONSTANTS.REACTOR_CAPACITY in
  let plasticProcessed := actualRate * (deltaTime / 3600) in
  let h2_mmol := plasticProcessed * 1000 * h2_yield plasticData in
  let h2_kg := (h2_mmol * 2.016) / 1e6 in
  let carbon_kg := plasticProcessed * carbon_yield plasticData in
  let wax_kg := plasticProcessed * oil_yield plasticData in
  let waste_kg := plasticProcessed * gas_yield plasticData in
  mkProducts plasticProcessed h2_kg carbon_kg wax_kg waste_kg actualRate.

(** ** Random draws

    One field per [Math.random ()] call site, in source order.  A site that
    is not reached on a given tick simply leaves its field unused. *)

Record Draws := mkDraws {
  cloudEvent : R;   (* updateWeather: Math.random() < 0.05 *)
  cloudGain  : R;   (* updateWeather: prev + Math.random() * 30 *)
  cloudDecay : R;   (* updateWeather: prev - Math.random() * 15 *)
  windEvent  : R;   (* updateWeather: Math.random() < 0.1 *)
  windGust   : R;   (* updateWeather: Math.random() * 15 *)
  faultEvent : R;   (* tick: Math.random() < 0.0001 * speedMultiplier *)
  cleanEvent : R    (* tick: Math.random() < 0.001 * speedMultiplier *)
}.

(** [Math.random ()] returns a number in [0, 1). *)
Definition unitDraw (x : R) : Prop := 0 <= x < 1.

Definition validDraws (r : Draws) : Prop :=
  unitDraw (cloudEvent r) /\ unitDraw (cloudGain r) /\ unitDraw (cloudDecay r) /\
  unitDraw (windEvent r) /\ unitDraw (windGust r) /\
  unitDraw (faultEvent r) /\ unitDraw (cleanEvent r).

(** ** Weather *)

Definition updateWeather (r : Draws) (cloudCover windSpeed : R) : R * R :=
  let cloud' :=
    if lt (cloudEvent r) 0.05
    then Rmin 100 (cloudCover + cloudGain r * 30)
    else if gt cloudCover 0
         then Rmax 0 (cloudCover - cloudDecay r * 15)
         else cloudCover in
  let wind' :=
    if lt (windEvent r) 0.1
    then windGust r * 15
    else Rmax 0 (windSpeed * 0.9) in
  (cloud', wind').

(** ** The tick: body of the [setInterval] callback *)

Inductive JsError := TypeError (reading : string).

Inductive Result (A : Type) :=
| Ok (a : A)
| Throw (e : JsError)
| NotModelled (why : string).   (* goes on with NaN or string values *)
Arguments Ok {A} a.
Arguments Throw {A} e.
Arguments NotModelled {A} why.

(** Clock arithmetic at the top of the callback: the new hour before the
    day-rollover test, and the final minute. *)
Definition advanceClock (currentHour currentMinute speedMultiplier : Z) : Z * Z :=
  let newMinute := (orElseZ currentMinute 0 + speedMultiplier)%Z in
  if (newMinute >=? 60)%Z
  then ((currentHour + newMinute / 60)%Z, Z.rem newMinute 60)
  else (currentHour, newMinute).

Definition dayRollover (hourBeforeWrap : Z) : bool := (hourBeforeWrap >=? 24)%Z.

(** [setReactorTemp (prev => ...)]. *)
Definition reactorUpdate (plasticData : Plastic) (speedMultiplier : Z)
    (thermalPower : R) (isDaytime : bool) (prev : R) : R :=
  if gt thermalPower 5 && isDaytime then
    let heating := Rmin (2 * IZR speedMultiplier / 10) (thermalPower / 10) in
    Rmin (prev + heating) (optimal_temp plasticData)
  else Rmax (prev - 0.5 * IZR speedMultiplier / 10) CONSTANTS.SALT_TEMP_COLD.

(** [setSaltHotTemp (prev => ...)]. *)
Definition saltHotUpdate (speedMultiplier : Z) (thermalPower : R)
    (isDaytime : bool) (prev : R) : R :=
  if gt thermalPower 3 && isDaytime then
    Rmin (prev + 0.8 * IZR speedMultiplier / 10) CONSTANTS.SALT_TEMP_HOT
  else Rmax (prev - CONSTANTS.HEAT_LOSS_PER_HOUR * IZR speedMultiplier / 60)
            CONSTANTS.SALT_TEMP_COLD.

(** [pyrolysisReady]: evaluated on the [reactorTemp] captured by the closure. *)
Definition pyrolysisReady (plasticData : Plastic) (reactorTemp : R) : bool :=
  let minTemp := optimal_temp plasticData - 200 in
  gt reactorTemp minTemp.

Definition pyrolysisRuns (plasticData : Plastic) (reactorTemp thermalPower : R) : bool :=
  pyrolysisReady plasticData reactorTemp && gt thermalPower 2.

(** The two updaters queued inside [if (pyrolysisReady && thermalPower > 2)]. *)
Definition addProducts (products : Products) (prev : Production) : Production :=
  {| hydrogen := hydrogen prev + p_hydrogen products;
     carbon   := carbon prev + p_carbon products;
     wax      := wax prev + p_wax products;
     waste    := waste prev + p_waste products;
     totalPlasticProcessed := totalPlasticProcessed prev + p_plastic products |}.

Definition addDailyProducts (products : Products) (speedMultiplier : Z)
    (thermalPower : R) (prev : DailyStats) : DailyStats :=
  {| energyCollected  := energyCollected prev + (thermalPower * IZR speedMultiplier / 60);
     plasticProcessed := plasticProcessed prev + p_plastic products;
     hydrogenProduced := hydrogenProduced prev + p_hydrogen products;
     carbonProduced   := carbonProduced prev + p_carbon products;
     heatLoss         := heatLoss prev |}.

(** The heat-loss updater, queued on every tick. *)
Definition heatLossIncrement (speedMultiplier : Z) (saltHotTemp : R) : R :=
  CONSTANTS.HEAT_LOSS_PER_HOUR * (saltHotTemp - 20) * 0.01 * IZR speedMultiplier / 60.

Definition addHeatLoss (speedMultiplier : Z) (saltHotTemp : R)
    (prev : DailyStats) : DailyStats :=
  {| energyCollected  := energyCollected prev;
     plasticProcessed := plasticProcessed prev;
     hydrogenProduced := hydrogenProduced prev;
     carbonProduced   := carbonProduced prev;
     heatLoss         := heatLoss prev + heatLossIncrement speedMultiplier saltHotTemp |}.

(** The two [setHeliostats] updaters under "Random heliostat issues". *)
Definition heliostatFault (prev : Heliostats) : Heliostats :=
  {| operational     := operational prev - 1;
     maintenance     := maintenance prev;
     cleaning_needed := cleaning_needed prev;
     faulty          := faulty prev + 1 |}.

Definition heliostatSoil (prev : Heliostats) : Heliostats :=
  {| operational     := operational prev;
     maintenance     := maintenance prev;
     cleaning_needed := Rmin (cleaning_needed prev + 1) (IZR (operational prev) * 0.1);
     faulty          := faulty prev |}.

Definition equipmentUpdate (r : Draws) (speedMultiplier : Z) (h : Heliostats)
    : Heliostats :=
  let h1 := if lt (faultEvent r) (0.0001 * IZR speedMultiplier)
            then heliostatFault h else h in
  if lt (cleanEvent r) (0.001 * IZR speedMultiplier)
  then heliostatSoil h1 else h1.

(** Thermal power seen by a tick: the sun at the new clock time, with the
    date, cloud cover, wind speed and heliostat field of the closure.
    [locationData] is the catalog entry captured by the callback. *)
Definition tickSun (locationData : option Location) (s : State) : SunParameters :=
  let speedMultiplier := speedOf (selectedSpeed s) in
  let '(hourBeforeWrap, finalMinute) :=
    advanceClock (currentHour s) (currentMinute s) speedMultiplier in
  let newHour := if dayRollover hourBeforeWrap then Z.rem hourBeforeWrap 24
                 else hourBeforeWrap in
  calculateSunParameters locationData (cloudCover s)
    (IZR newHour) (IZR finalMinute) (IZR (dayOfYear (currentDate s))).

Definition tickThermalPower (locationData : option Location) (s : State) : R :=
  calculateThermalPower (heliostats s) (windSpeed s)
    (sun_dni (tickSun locationData s)).

(** Everything the callback does once the thermal power and the daytime
    flag are known; [plasticData] is the catalog entry of the feedstock. *)
Definition tickWith (plasticData : Plastic) (thermalPower : R) (isDaytime : bool)
    (s : State) (r : Draws) : State :=
  let speedMultiplier := speedOf (selectedSpeed s) in
  let '(hourBeforeWrap, finalMinute) :=
    advanceClock (currentHour s) (currentMinute s) speedMultiplier in
  let rollover := dayRollover hourBeforeWrap in
  let newHour := if rollover then Z.rem hourBeforeWrap 24 else hourBeforeWrap in
  let date' := if rollover then addDay (currentDate s) else currentDate s in
  let daily0 := if rollover then zeroDailyStats else dailyStats s in
  let '(cloud', wind') :=
    if (Z.rem (time s) 6 =? 0)%Z
    then updateWeather r (cloudCover s) (windSpeed s)
    else (cloudCover s, windSpeed s) in
  let ready := pyrolysisReady plasticData (reactorTemp s) in
  let runs := pyrolysisRuns plasticData (reactorTemp s) thermalPower in
  let products := processPyrolysis plasticData thermalPower (60 * IZR speedMultiplier) in
  let production' := if runs then addProducts products (production s)
                     else production s in
  let daily1 := if runs then addDailyProducts products speedMultiplier thermalPower daily0
                else daily0 in
  let daily2 := addHeatLoss speedMultiplier (saltHotTemp s) daily1 in
  {| selectedLocation := selectedLocation s;
     selectedPlastic  := selectedPlastic s;
     selectedSpeed    := selectedSpeed s;
     currentDate      := date';
     time             := time s + 1;
     isRunning        := isRunning s;
     currentHour      := newHour;
     currentMinute    := finalMinute;
     cloudCover       := cloud';
     windSpeed        := wind';
     heliostats       := equipmentUpdate r speedMultiplier (heliostats s);
     reactorTemp      := reactorUpdate plasticData speedMultiplier thermalPower
                           isDaytime (reactorTemp s);
     saltHotTemp      := saltHotUpdate speedMultiplier thermalPower isDaytime
                           (saltHotTemp s);
     saltColdTemp     := saltColdTemp s;
     pyrolysisActive  := ready;
     production       := production';
     dailyStats       := daily2 |}.

(** The callback.  [plasticData.optimal_temp] is read on every tick, so an
    [undefined] catalog entry throws; on an inherited member the read
    yields [undefined] and the temperatures become NaN. *)
Definition tick (locationData : option Location) (s : State) (r : Draws)
    : Result State :=
  match lookup (selectedPlastic s) PLASTIC_TYPES with
  | None =>
      if inherited (selectedPlastic s)
      then NotModelled "plasticData.optimal_temp is undefined"
      else Throw (TypeError "plasticData.optimal_temp")
  | Some plasticData =>
      Ok (tickWith plasticData (tickThermalPower locationData s)
            (isDaytime (tickSun locationData s)) s r)
  end.

(** ** The RESET handler *)

Definition reset (s : State) : State :=
  {| selectedLocation := selectedLocation s;
     selectedPlastic  := selectedPlastic s;
     selectedSpeed    := selectedSpeed s;
     currentDate      := currentDate s;
     time             := 0;
     isRunning        := isRunning s;
     currentHour      := 6;
     currentMinute    := 0;
     cloudCover       := 0;
     windSpeed        := 0;
     heliostats       := heliostats s;
     reactorTemp      := 290;
     saltHotTemp      := 420;
     saltColdTemp     := 290;
     pyrolysisActive  := pyrolysisActive s;
     production       := zeroProduction;
     dailyStats       := zeroDailyStats |}.

(** ** The other controls *)

Definition setSelectedLocation (k : string) (s : State) : State :=
  {| selectedLocation := k;
     selectedPlastic  := selectedPlastic s;
     selectedSpeed    := selectedSpeed s;
     currentDate      := currentDate s;
     time             := time s;
     isRunning        := isRunning s;
     currentHour      := currentHour s;
     currentMinute    := currentMinute s;
     cloudCover       := cloudCover s;
     windSpeed        := windSpeed s;
     heliostats       := heliostats s;
     reactorTemp      := reactorTemp s;
     saltHotTemp      := saltHotTemp s;
     saltColdTemp     := saltColdTemp s;
     pyrolysisActive  := pyrolysisActive s;
     production       := production s;
     dailyStats       := dailyStats s |}.

Definition setSelectedPlastic (k : string) (s : State) : State :=
  {| selectedLocation := selectedLocation s;
     selectedPlastic  := k;
     selectedSpeed    := selectedSpeed s;
     currentDate      := currentDate s;
     time             := time s;
     isRunning        := isRunning s;
     currentHour      := currentHour s;
     currentMinute    := currentMinute s;
     cloudCover       := cloudCover s;
     windSpeed        := windSpeed s;
     heliostats       := heliostats s;
     reactorTemp      := reactorTemp s;
     saltHotTemp      := saltHotTemp s;
     saltColdTemp     := saltColdTemp s;
     pyrolysisActive  := pyrolysisActive s;
     production       := production s;
     dailyStats       := dailyStats s |}.

Definition setSelectedSpeed (k : string) (s : State) : State :=
  {| selectedLocation := selectedLocation s;
     selectedPlastic  := selectedPlastic s;
     selectedSpeed    := k;
     currentDate      := currentDate s;
     time             := time s;
     isRunning        := isRunning s;
     currentHour      := currentHour s;
     currentMinute    := currentMinute s;
     cloudCover       := cloudCover s;
     windSpeed        := windSpeed s;
     heliostats       := heliostats s;
     reactorTemp      := reactorTemp s;
     saltHotTemp      := saltHotTemp s;
     saltColdTemp     := saltColdTemp s;
     pyrolysisActive  := pyrolysisActive s;
     production       := production s;
     dailyStats       := dailyStats s |}.

(** [setIsRunning (!isRunning)]. *)
Definition toggleRunning (s : State) : State :=
  {| selectedLocation := selectedLocation s;
     selectedPlastic  := selectedPlastic s;
     selectedSpeed    := selectedSpeed s;
     currentDate      := currentDate s;
     time             := time s;
     isRunning        := negb (isRunning s);
     currentHour      := currentHour s;
     currentMinute    := currentMinute s;
     cloudCover       := cloudCover s;
     windSpeed        := windSpeed s;
     heliostats       := heliostats s;
     reactorTemp      := reactorTemp s;
     saltHotTemp      := saltHotTemp s;
     saltColdTemp     := saltColdTemp s;
     pyrolysisActive  := pyrolysisActive s;
     production       := production s;
     dailyStats       := dailyStats s |}.

(** ** The effect and its closure

    The interval callback is re-created whenever one of the effect's
    dependencies changes.  [selectedLocation] is not among them, so the
    callback keeps the [locationData] it captured until some dependency
    changes ([time] does on every tick). *)

Record App := mkApp {
  st : State;
  capturedLocation : string   (* [selectedLocation] seen by the live callback *)
}.

Definition eqR (a b : R) : bool := if Req_dec_T a b then true else false.

Definition eqDate (a b : JsDate) : bool :=
  ((year a =? year b) && (yday a =? yday b))%Z.

(** [isRunning, time, currentHour, currentMinute, reactorTemp, saltHotTemp,
    cloudCover, windSpeed, currentDate, selectedPlastic, selectedSpeed]
    compared entry by entry. *)
Definition sameDeps (a b : State) : bool :=
  Bool.eqb (isRunning a) (isRunning b) &&
  (time a =? time b)%Z &&
  (currentHour a =? currentHour b)%Z &&
  (currentMinute a =? currentMinute b)%Z &&
  eqR (reactorTemp a) (reactorTemp b) &&
  eqR (saltHotTemp a) (saltHotTemp b) &&
  eqR (cloudCover a) (cloudCover b) &&
  eqR (windSpeed a) (windSpeed b) &&
  eqDate (currentDate a) (currentDate b) &&
  String.eqb (selectedPlastic a) (selectedPlastic b) &&
  String.eqb (selectedSpeed a) (selectedSpeed b).

(** Commit of a render that moved the state from [st a] to [s']. *)
Definition commit (a : App) (s' : State) : App :=
  if sameDeps (st a) s'
  then mkApp s' (capturedLocation a)
  else mkApp s' (selectedLocation s').

Definition initialApp : App := mkApp initialState (selectedLocation initialState).

Inductive Event :=
| Tick (r : Draws)            (* the interval fires *)
| StartStop                   (* START / STOP button *)
| ResetClick                  (* RESET button *)
| SelectLocation (k : string)
| SelectPlastic (k : string)
| SelectSpeed (k : string).

(** The interval only exists while [isRunning].  The selectors store the
    key they are given without checking it; the render that follows reads
    [locationData.dni] (line 492) and [plasticData.description] (line 529),
    which throws when the entry is [undefined].  An inherited location
    entry has no [dni] and no [lat]: nothing throws and the engine falls
    back as for [None].  An unknown speed key is never dereferenced. *)
Definition step (a : App) (e : Event) : Result App :=
  match e with
  | Tick r =>
      if isRunning (st a)
      then match tick (lookup (capturedLocation a) SOLAR_DATA) (st a) r with
           | Ok s' => Ok (commit a s')
           | Throw err => Throw err
           | NotModelled why => NotModelled why
           end
      else Ok a
  | StartStop => Ok (commit a (toggleRunning (st a)))
  | ResetClick => Ok (commit a (reset (st a)))
  | SelectLocation k =>
      match entryOf k SOLAR_DATA with
      | Missing => Throw (TypeError "locationData.dni")
      | _ => Ok (commit a (setSelectedLocation k (st a)))
      end
  | SelectPlastic k =>
      match entryOf k PLASTIC_TYPES with
      | Own => Ok (commit a (setSelectedPlastic k (st a)))
      | Inherited => NotModelled "plasticData.optimal_temp is undefined"
      | Missing => Throw (TypeError "plasticData.description")
      end
  | SelectSpeed k =>
      match entryOf k SPEED_OPTIONS with
      | Inherited => NotModelled "speedMultiplier is a function"
      | _ => Ok (commit a (setSelectedSpeed k (st a)))
      end
  end.

Fixpoint run (a : App) (evs : list Event) : Result App :=
  match evs with
  | [] => Ok a
  | e :: rest =>
      match step a e with
      | Ok a' => run a' rest
      | Throw err => Throw err
      | NotModelled why => NotModelled why
      end
  end.

Definition reachable (s : State) : Prop :=
  exists evs loc, run initialApp evs = Ok (mkApp s loc).

(** Whether the tick that starts in [s] crosses midnight, and the daily
    statistics its functional updaters start from. *)
Definition isRolloverTick (s : State) : bool :=
  dayRollover (fst (advanceClock (currentHour s) (currentMinute s)
                      (speedOf (selectedSpeed s)))).

Definition dailyBase (s : State) : DailyStats :=
  if isRolloverTick s then zeroDailyStats else dailyStats s.

(** Draws under which no random event fires at any preset speed. *)
Definition calm : Draws := mkDraws 0.5 0.5 0.5 0.5 0.5 0.5 0.5.

(** Draws under which only the heliostat-fault event fires, and draws
    under which only the soiling event fires (at the default speed). *)
Definition faultDraw : Draws := mkDraws 0.5 0.5 0.5 0.5 0.5 0.001 0.5.
Definition soilDraw : Draws := mkDraws 0.5 0.5 0.5 0.5 0.5 0.5 0.001.

(** The clock as a pair, and the clock after a tick at multiplier [k]. *)
Definition clockOf (s : State) : Z * Z := (currentHour s, currentMinute s).

Definition nextClock (k : Z) (hm : Z * Z) : Z * Z :=
  let '(hourBeforeWrap, finalMinute) := advanceClock (fst hm) (snd hm) k in
  (if dayRollover hourBeforeWrap then Z.rem hourBeforeWrap 24 else hourBeforeWrap,
   finalMinute).

(** What holds of the heliostat field in every reachable state. *)
Definition fieldInvariant (h : Heliostats) : Prop :=
  (operational h + faulty h = CONSTANTS.HELIOSTAT_COUNT)%Z /\
  (0 <= faulty h)%Z /\
  maintenance h = 0%Z /\
  cleaning_needed h <= IZR CONSTANTS.HELIOSTAT_COUNT * 0.1 /\
  ((0 <= operational h)%Z -> 0 <= cleaning_needed h).

Definition anyEvent (e : Event) : Prop := True.

(** Events that leave the selected feedstock alone. *)
Definition keepsFeedstock (e : Event) : Prop :=
  match e with
  | SelectPlastic _ => False
  | _ => True
  end.

(** Ticks run with the thermal power and the daytime flag held at given
    values (the sun and the field are overridden, nothing else is). *)
Fixpoint holdPower (plasticData : Plastic) (thermalPower : R) (isDaytime : bool)
    (s : State) (rs : list Draws) : State :=
  match rs with
  | [] => s
  | r :: rest =>
      holdPower plasticData thermalPower isDaytime
        (tickWith plasticData thermalPower isDaytime s r) rest
  end.

Definition PS : Plastic :=
  mkPlastic "Polystyrene" 95 0.48 0.20 0.08 900 "#ec4899" "Foam, packaging".

Definition HDPE : Plastic :=
  mkPlastic "High-Density Polyethylene" 168 0.25 0.15 0.10 850
            "#3b82f6" "Bottles, containers".

(** A running plant on polystyrene at the "Fast" preset (12 simulated
    minutes per tick) with the reactor at 850 degrees. *)
Definition hotPolystyreneState : State :=
  {| selectedLocation := "Riyadh, Saudi Arabia";
     selectedPlastic  := "PS";
     selectedSpeed    := "Fast (1 day = 2 hours)";
     currentDate      := mkDate 2026 15;
     time             := 0;
     isRunning        := true;
     currentHour      := 11;
     currentMinute    := 0;
     cloudCover       := 0;
     windSpeed        := 0;
     heliostats       := mkHeliostats CONSTANTS.HELIOSTAT_COUNT 0 0 0;
     reactorTemp      := 850;
     saltHotTemp      := 420;
     saltColdTemp     := 290;
     pyrolysisActive  := true;
     production       := zeroProduction;
     dailyStats       := zeroDailyStats |}.

(** A running plant at 10:48 on the default settings whose reactor is one
    degree below the HDPE readiness threshold (850 - 200 = 650). *)
Definition almostReadyState : State :=
  {| selectedLocation := "Riyadh, Saudi Arabia";
     selectedPlastic  := "HDPE";
     selectedSpeed    := "Ultra Fast (1 day = 20 min)";
     currentDate      := mkDate 2026 15;
     time             := 4;
     isRunning        := true;
     currentHour      := 10;
     currentMinute    := 48;
     cloudCover       := 0;
     windSpeed        := 0;
     heliostats       := mkHeliostats CONSTANTS.HELIOSTAT_COUNT 0 0 0;
     reactorTemp      := 649;
     saltHotTemp      := 420;
     saltColdTemp     := 290;
     pyrolysisActive  := false;
     production       := zeroProduction;
     dailyStats       := zeroDailyStats |}.

(** A running plant at 22:48 on the default settings: its next tick (72
    simulated minutes) crosses midnight. *)
Definition lateEveningState : State :=
  {| selectedLocation := "Riyadh, Saudi Arabia";
     selectedPlastic  := "HDPE";
     selectedSpeed    := "Ultra Fast (1 day = 20 min)";
     currentDate      := mkDate 2026 15;
     time             := 14;
     isRunning        := true;
     currentHour      := 22;
     currentMinute    := 48;
     cloudCover       := 0;
     windSpeed        := 0;
     heliostats       := mkHeliostats CONSTANTS.HELIOSTAT_COUNT 0 0 0;
     reactorTemp      := 290;
     saltHotTemp      := 420;
     saltColdTemp     := 290;
     pyrolysisActive  := false;
     production       := zeroProduction;
     dailyStats       := zeroDailyStats |}.

(** Date and clock together, and their successors under a tick at
    multiplier [k]. *)
Definition calendarOf (s : State) : JsDate * (Z * Z) := (currentDate s, clockOf s).

Definition nextCalendar (k : Z) (c : JsDate * (Z * Z)) : JsDate * (Z * Z) :=
  (if dayRollover (fst (advanceClock (fst (snd c)) (snd (snd c)) k))
   then addDay (fst c) else fst c,
   nextClock k (snd c)).

(** The location the engine falls back to when the key is unknown. *)
Definition fallbackLocation : Location := mkLocation 6.0 0 0 0.

(** ** Values derived at render time

    Lines 370-376 of the component and the props handed to [ProductTank]. *)

Definition ge (a b : R) : bool := if Rle_dec b a then true else false.

(** [calculateSunParameters(currentHour + currentMinute/60, 0, dayOfYear)],
    with the [locationData] and [cloudCover] of the render. *)
Definition renderSun (s : State) : SunParameters :=
  calculateSunParameters (lookup (selectedLocation s) SOLAR_DATA) (cloudCover s)
    (IZR (currentHour s) + IZR (currentMinute s) / 60) 0
    (IZR (dayOfYear (currentDate s))).

Definition renderThermalPower (s : State) : R :=
  calculateThermalPower (heliostats s) (windSpeed s) (sun_dni (renderSun s)).

(** [Math.min((amount / capacity) * 100, 100)]. *)
Definition tankLevel (amount capacity : R) : R :=
  Rmin ((amount / capacity) * 100) 100.

Definition h2TankLevel (s : State) : R := tankLevel (hydrogen (production s)) 100.
Definition carbonTankLevel (s : State) : R := tankLevel (carbon (production s)) 500.
Definition waxTankLevel (s : State) : R := tankLevel (wax (production s)) 200.
Definition wasteTankLevel (s : State) : R := tankLevel (waste (production s)) 100.

(** [level >= 95] in [ProductTank]: the roll-out warning. *)
Definition rollOutRequired (level : R) : bool := ge level 95.

(** The "kg/h" figure of the reactor panel; the literal '0.0' is [0]. *)
Definition displayedRate (s : State) : R :=
  if pyrolysisActive s
  then (renderThermalPower s * 1000) / (CONSTANTS.PYROLYSIS_ENERGY / 3600)
  else 0.

(** ** Auxiliary notions for the properties *)

(** Events whose draws are possible values of [Math.random ()]. *)
Definition validEvent (e : Event) : Prop :=
  match e with
  | Tick r => validDraws r
  | _ => True
  end.

(** Minutes since midnight of a clock pair. *)
Definition minutesOfDay (hm : Z * Z) : Z := (60 * fst hm + snd hm)%Z.

Definition productionLe (a b : Production) : Prop :=
  hydrogen a <= hydrogen b /\ carbon a <= carbon b /\ wax a <= wax b /\
  waste a <= waste b /\ totalPlasticProcessed a <= totalPlasticProcessed b.

Definition dailyLe (a b : DailyStats) : Prop :=
  energyCollected a <= energyCollected b /\
  plasticProcessed a <= plasticProcessed b /\
  hydrogenProduced a <= hydrogenProduced b /\
  carbonProduced a <= carbonProduced b /\
  heatLoss a <= heatLoss b.

(** The app after START, and the state after START and one calm tick. *)
Definition startedApp : App := commit initialApp (toggleRunning initialState).

Definition firstTickState : State :=
  tickWith HDPE
    (tickThermalPower (lookup "Riyadh, Saudi Arabia" SOLAR_DATA)
       (toggleRunning initialState))
    (isDaytime (tickSun (lookup "Riyadh, Saudi Arabia" SOLAR_DATA)
       (toggleRunning initialState)))
    (toggleRunning initialState) calm.

(** Events the dashboard can deliver: its three selectors only offer the
    keys of the catalogs. *)
Definition uiEvent (e : Event) : Prop :=
  match e with
  | SelectLocation k => entryOf k SOLAR_DATA = Own
  | SelectPlastic k => entryOf k PLASTIC_TYPES = Own
  | SelectSpeed k => entryOf k SPEED_OPTIONS = Own
  | _ => True
  end.

(** A long polystyrene run at the "Fast" preset (12 simulated minutes per
    tick) under calm draws, and the same run followed by a switch to HDPE
    and one more tick. *)
Definition polystyreneRun (n : nat) : list Event :=
  [SelectPlastic "PS"; SelectSpeed "Fast (1 day = 2 hours)"; StartStop]
  ++ repeat (Tick calm) n.

Definition switchToHdpeRun (n : nat) : list Event :=
  polystyreneRun n ++ [SelectPlastic "HDPE"; Tick calm].

(** Clock times from 08:30 to 15:30. *)
Definition middayClock (hm : Z * Z) : bool :=
  ((510 <=? minutesOfDay hm) && (minutesOfDay hm <=? 930))%Z.

(** A lower bound, in hundredths of a degree, of the reactor temperature
    along [polystyreneRun]: a tick landing at midday heats by 2.4 degrees
    (up to 900), any other tick cools by at most 0.6 (down to 290). *)
Fixpoint reactorFloor (n : nat) (hm : Z * Z) (t : Z) : Z :=
  match n with
  | O => t
  | S n' =>
      let hm' := nextClock 12 hm in
      reactorFloor n' hm'
        (if middayClock hm' then Z.min (t + 240) 90000 else Z.max (t - 60) 29000)
  end.

(** What [polystyreneRun] keeps fixed. *)
Definition polystyreneRunning (a : App) : Prop :=
  isRunning (st a) = true /\
  selectedPlastic (st a) = "PS" /\
  selectedSpeed (st a) = "Fast (1 day = 2 hours)" /\
  selectedLocation (st a) = "Riyadh, Saudi Arabia" /\
  capturedLocation a = "Riyadh, Saudi Arabia" /\
  cloudCover (st a) = 0 /\
  windSpeed (st a) = 0 /\
  heliostats (st a) = mkHeliostats 2127 0 0 0.

(** A running plant on HDPE at the "Extreme" preset (144 simulated minutes
    per tick), at 13:00 on 1 February 2026, with the reactor one degree
    below the readiness threshold: its next tick lands at 15:24 and the
    one after at 17:48. *)
Definition beforeSunsetState : State :=
  {| selectedLocation := "Riyadh, Saudi Arabia";
     selectedPlastic  := "HDPE";
     selectedSpeed    := "Extreme (1 day = 10 min)";
     currentDate      := mkDate 2026 32;
     time             := 175;
     isRunning        := true;
     currentHour      := 13;
     currentMinute    := 0;
     cloudCover       := 0;
     windSpeed        := 0;
     heliostats       := mkHeliostats CONSTANTS.HELIOSTAT_COUNT 0 0 0;
     reactorTemp      := 649;
     saltHotTemp      := 420;
     saltColdTemp     := 290;
     pyrolysisActive  := false;
     production       := zeroProduction;
     dailyStats       := zeroDailyStats |}.

(** * Properties *)

(** ** Comparisons and fallbacks *)

Lemma gt_true (a b : R) : gt a b = true <-> b < a.
Proof. unfold gt; destruct (Rlt_dec b a); split; intros; try easy; lra. Qed.

Lemma gt_false (a b : R) : gt a b = false <-> a <= b.
Proof. unfold gt; destruct (Rlt_dec b a); split; intros; try easy; lra. Qed.

Lemma lt_true (a b : R) : lt a b = true <-> a < b.
Proof. unfold lt; destruct (Rlt_dec a b); split; intros; try easy; lra. Qed.

Lemma lt_false (a b : R) : lt a b = false <-> b <= a.
Proof. unfold lt; destruct (Rlt_dec a b); split; intros; try easy; lra. Qed.

Lemma orElse_zero (x : R) : orElse x 0 = x.
Proof. unfold orElse; destruct (Req_dec_T x 0); congruence. Qed.

Lemma orElse_nonzero (x d : R) : x <> 0 -> orElse x d = x.
Proof. unfold orElse; destruct (Req_dec_T x 0); congruence. Qed.

Lemma orElseZ_zero (x : Z) : orElseZ x 0 = x.
Proof. unfold orElseZ; destruct (Z.eqb_spec x 0); congruence. Qed.

(** The draws used in the examples below are possible values of
    [Math.random ()]. *)
Lemma example_draws_valid :
  validDraws calm /\ validDraws faultDraw /\ validDraws soilDraw.
Proof.
  unfold validDraws, unitDraw, calm, faultDraw, soilDraw; cbn.
  repeat split; lra.
Qed.

(** ** Catalog facts *)

Ltac catalog H :=
  simpl in H;
  repeat match type of H with
         | (if ?c then _ else _) = _ => destruct c
         end;
  try discriminate; try (injection H as <-).

Lemma plastic_optimal_range (k : string) (p : Plastic) :
  lookup k PLASTIC_TYPES = Some p -> 850 <= optimal_temp p <= 900.
Proof. intros H; catalog H; simpl; lra. Qed.

Lemma speedOf_preset (k : string) :
  In (speedOf k) [1; 12; 48; 72; 144]%Z.
Proof.
  unfold speedOf.
  destruct (lookup k SPEED_OPTIONS) as [m|] eqn:H; [|simpl; tauto].
  catalog H; simpl; tauto.
Qed.

Lemma speedOf_range (k : string) : (1 <= speedOf k <= 144)%Z.
Proof. pose proof (speedOf_preset k) as H; simpl in H; lia. Qed.

Lemma speedOf_IZR_range (k : string) : 1 <= IZR (speedOf k) <= 144.
Proof.
  pose proof (speedOf_range k) as [H1 H2].
  apply IZR_le in H1, H2; lra.
Qed.

Lemma latitudeFactor_range (k : string) :
  0 <= latitudeFactor (lookup k SOLAR_DATA) <= 1.
Proof.
  unfold latitudeFactor, latOr.
  destruct (lookup k SOLAR_DATA) as [l|] eqn:H.
  - catalog H; simpl; unfold orElse;
      destruct (Req_dec_T _ 0); unfold Rabs; destruct (Rcase_abs _); lra.
  - unfold Rabs; destruct (Rcase_abs 0); lra.
Qed.

Lemma dniOr_pos (k : string) : 0 < dniOr (lookup k SOLAR_DATA) 6.0.
Proof.
  unfold dniOr.
  destruct (lookup k SOLAR_DATA) as [l|] eqn:H; [|lra].
  catalog H; simpl; unfold orElse; destruct (Req_dec_T _ 0); lra.
Qed.

(** ** Bounds of the solar model *)

Lemma seasonalOffset_range (d : R) : -1.5 <= seasonalOffset d <= 1.5.
Proof.
  unfold seasonalOffset.
  pose proof (SIN_bound ((orElse d 1 - 81) / 365 * 2 * PI)); lra.
Qed.

Lemma sunrise_range (k : string) (d : R) :
  4.5 <= sunriseAt (lookup k SOLAR_DATA) d <= 7.5.
Proof.
  unfold sunriseAt.
  pose proof (seasonalOffset_range d).
  pose proof (latitudeFactor_range k).
  nra.
Qed.

Lemma sunset_range (k : string) (d : R) :
  16.5 <= sunsetAt (lookup k SOLAR_DATA) d <= 19.5.
Proof.
  unfold sunsetAt.
  pose proof (seasonalOffset_range d).
  pose proof (latitudeFactor_range k).
  nra.
Qed.

(** Outside [sunrise, sunset] the model returns the no-sun record. *)
Lemma night_before_sunrise (loc : option Location) (c h m d : R) :
  h + m / 60 < sunriseAt loc d ->
  calculateSunParameters loc c h m d = mkSun 0 0 false None None.
Proof.
  intros H. unfold calculateSunParameters.
  rewrite !orElse_zero.
  apply lt_true in H. rewrite H. reflexivity.
Qed.

Lemma night_after_sunset (loc : option Location) (c h m d : R) :
  sunsetAt loc d < h + m / 60 ->
  calculateSunParameters loc c h m d = mkSun 0 0 false None None.
Proof.
  intros H. unfold calculateSunParameters.
  rewrite !orElse_zero.
  apply gt_true in H. rewrite H. rewrite orb_true_r. reflexivity.
Qed.

Lemma daytime_flag (loc : option Location) (c h m d : R) :
  sunriseAt loc d <= h + m / 60 <= sunsetAt loc d ->
  isDaytime (calculateSunParameters loc c h m d) = true.
Proof.
  intros [H1 H2]. unfold calculateSunParameters.
  rewrite !orElse_zero.
  apply lt_false in H1. apply gt_false in H2. rewrite H1, H2. reflexivity.
Qed.

(** The DNI of a daylight instant, as the clamped product of the source. *)
Lemma daytime_dni (loc : option Location) (c h m d : R) :
  sunriseAt loc d <= h + m / 60 <= sunsetAt loc d ->
  sun_dni (calculateSunParameters loc c h m d) =
  Rmax 0 (dniOr loc 6.0 * 1000 / 8
          * sin ((h + m / 60 - sunriseAt loc d)
                 / (sunsetAt loc d - sunriseAt loc d) * PI)
          * (1 + sin ((d - 81) / 365 * 2 * PI) * 0.3)
          * (1 - (c / 100) * 0.7) * 1.4).
Proof.
  intros [H1 H2]. unfold calculateSunParameters.
  rewrite !orElse_zero.
  apply lt_false in H1. apply gt_false in H2. rewrite H1, H2. reflexivity.
Qed.

Lemma sun_dni_nonneg (loc : option Location) (c h m d : R) :
  0 <= sun_dni (calculateSunParameters loc c h m d).
Proof.
  unfold calculateSunParameters.
  destruct (_ || _); simpl; [lra | apply Rmax_l].
Qed.

(** Noon is the middle of every day: the half-sine factor is [1] there. *)
Lemma noon_dni (k : string) (c d : R) :
  sun_dni (calculateSunParameters (lookup k SOLAR_DATA) c 12 0 d) =
  Rmax 0 (dniOr (lookup k SOLAR_DATA) 6.0 * 1000 / 8
          * (1 + sin ((d - 81) / 365 * 2 * PI) * 0.3)
          * (1 - (c / 100) * 0.7) * 1.4).
Proof.
  pose proof (sunrise_range k d) as Hr.
  pose proof (sunset_range k d) as Hs.
  rewrite daytime_dni by lra.
  set (loc := lookup k SOLAR_DATA) in *.
  replace ((12 + 0 / 60 - sunriseAt loc d)
           / (sunsetAt loc d - sunriseAt loc d) * PI) with (PI / 2).
  - rewrite sin_PI2. f_equal. ring.
  - unfold sunriseAt, sunsetAt in *. field. lra.
Qed.

(** ** Cloud cover and DNI *)

(** The clamped product is antitone in the cloud factor, whatever the sign
    of the cloud-free product [K]. *)
Lemma clamped_product_antitone (K c1 c2 : R) :
  0 <= c1 -> c1 <= c2 -> c2 <= 100 ->
  Rmax 0 (K * (1 - (c2 / 100) * 0.7) * 1.4) <=
  Rmax 0 (K * (1 - (c1 / 100) * 0.7) * 1.4).
Proof.
  intros H0 H12 H100.
  destruct (Rle_dec 0 K) as [HK|HK].
  - apply Rle_max_compat_l. nra.
  - rewrite (Rmax_left 0 (K * (1 - c2 / 100 * 0.7) * 1.4)) by nra.
    apply Rmax_l.
Qed.

(** C8.  For a fixed location, hour, minute and day of year, the DNI
    returned by [calculateSunParameters] does not increase when the cloud
    cover grows within [0, 100]; in particular it is at most the DNI of a
    clear sky. *)
Theorem dni_antitone_in_cloud_cover
    (locationData : option Location) (hour minute dayOfYear c1 c2 : R) :
  0 <= c1 -> c1 <= c2 -> c2 <= 100 ->
  sun_dni (calculateSunParameters locationData c2 hour minute dayOfYear) <=
  sun_dni (calculateSunParameters locationData c1 hour minute dayOfYear)
  /\
  sun_dni (calculateSunParameters locationData c2 hour minute dayOfYear) <=
  sun_dni (calculateSunParameters locationData 0 hour minute dayOfYear).
Proof.
  intros H0 H12 H100.
  unfold calculateSunParameters.
  destruct (_ || _); simpl; [lra|].
  split.
  - apply clamped_product_antitone; assumption.
  - apply clamped_product_antitone; lra.
Qed.

Lemma dni_antitone_in_cloud_cover_witness :
  (0 <= 25 /\ 25 <= 80 /\ 80 <= 100) /\
  sun_dni (calculateSunParameters (lookup "Seville, Spain" SOLAR_DATA) 80 12 0 172) <=
  sun_dni (calculateSunParameters (lookup "Seville, Spain" SOLAR_DATA) 25 12 0 172).
Proof.
  split; [lra|].
  apply (dni_antitone_in_cloud_cover
           (lookup "Seville, Spain" SOLAR_DATA) 12 0 172 25 80); lra.
Defined.

(** At noon under a clear sky the DNI of every catalog location (and of the
    fallback location) is at least 525 W/m2. *)
Lemma noon_clear_sky_dni_lower_bound (k : string) (d : R) :
  525 <= sun_dni (calculateSunParameters (lookup k SOLAR_DATA) 0 12 0 d).
Proof.
  rewrite noon_dni.
  pose proof (SIN_bound ((d - 81) / 365 * 2 * PI)) as Hs.
  assert (Hd : 5.9 <= dniOr (lookup k SOLAR_DATA) 6.0).
  { unfold dniOr. destruct (lookup k SOLAR_DATA) as [l|] eqn:H; [|lra].
    catalog H; simpl; unfold orElse; destruct (Req_dec_T _ 0); lra. }
  eapply Rle_trans; [|apply Rmax_r]. nra.
Qed.



Lemma thermalPower_zero_dni (h : Heliostats) (w : R) :
  calculateThermalPower h w 0 = 0.
Proof. unfold calculateThermalPower. destruct (gt w 10); field. Qed.

(** ** The tick, field by field *)

Lemma tick_ok (loc : option Location) (s : State) (r : Draws) (p : Plastic) :
  lookup (selectedPlastic s) PLASTIC_TYPES = Some p ->
  tick loc s r =
  Ok (tickWith p (tickThermalPower loc s) (isDaytime (tickSun loc s)) s r).
Proof. intros H. unfold tick. rewrite H. reflexivity. Qed.

Lemma tick_throws (loc : option Location) (s : State) (r : Draws) :
  entryOf (selectedPlastic s) PLASTIC_TYPES = Missing ->
  tick loc s r = Throw (TypeError "plasticData.optimal_temp").
Proof.
  unfold entryOf, tick. destruct (lookup _ _); [discriminate|].
  destruct (inherited _); [discriminate|reflexivity].
Qed.

Ltac open_tick :=
  unfold tickWith;
  match goal with
  | |- context [advanceClock ?h ?m ?k] => destruct (advanceClock h m k) eqn:?
  end;
  match goal with
  | |- context [Z.rem ?t 6 =? 0] => destruct (Z.rem t 6 =? 0)%Z
  end;
  try match goal with
  | |- context [updateWeather ?r ?c ?w] => destruct (updateWeather r c w)
  end.

Section TickFields.
Variables (p : Plastic) (th : R) (day : bool) (s : State) (r : Draws).

Lemma tickWith_heliostats :
  heliostats (tickWith p th day s r) =
  equipmentUpdate r (speedOf (selectedSpeed s)) (heliostats s).
Proof. open_tick; reflexivity. Qed.

Lemma tickWith_reactorTemp :
  reactorTemp (tickWith p th day s r) =
  reactorUpdate p (speedOf (selectedSpeed s)) th day (reactorTemp s).
Proof. open_tick; reflexivity. Qed.

Lemma tickWith_saltHotTemp :
  saltHotTemp (tickWith p th day s r) =
  saltHotUpdate (speedOf (selectedSpeed s)) th day (saltHotTemp s).
Proof. open_tick; reflexivity. Qed.

Lemma tickWith_pyrolysisActive :
  pyrolysisActive (tickWith p th day s r) = pyrolysisReady p (reactorTemp s).
Proof. open_tick; reflexivity. Qed.

Lemma tickWith_production :
  production (tickWith p th day s r) =
  if pyrolysisRuns p (reactorTemp s) th
  then addProducts
         (processPyrolysis p th (60 * IZR (speedOf (selectedSpeed s))))
         (production s)
  else production s.
Proof. open_tick; reflexivity. Qed.

Lemma tickWith_dailyStats :
  dailyStats (tickWith p th day s r) =
  addHeatLoss (speedOf (selectedSpeed s)) (saltHotTemp s)
    (if pyrolysisRuns p (reactorTemp s) th
     then addDailyProducts
            (processPyrolysis p th (60 * IZR (speedOf (selectedSpeed s))))
            (speedOf (selectedSpeed s)) th (dailyBase s)
     else dailyBase s).
Proof.
  unfold dailyBase, isRolloverTick. open_tick; reflexivity.
Qed.

Lemma tickWith_currentDate :
  currentDate (tickWith p th day s r) =
  if isRolloverTick s then addDay (currentDate s) else currentDate s.
Proof. unfold isRolloverTick. open_tick; reflexivity. Qed.

Lemma tickWith_selection :
  selectedLocation (tickWith p th day s r) = selectedLocation s /\
  selectedPlastic (tickWith p th day s r) = selectedPlastic s /\
  selectedSpeed (tickWith p th day s r) = selectedSpeed s /\
  isRunning (tickWith p th day s r) = isRunning s.
Proof. open_tick; repeat split; reflexivity. Qed.

Lemma tickWith_time :
  time (tickWith p th day s r) = (time s + 1)%Z.
Proof. open_tick; reflexivity. Qed.
End TickFields.

Lemma tickWith_weather (p : Plastic) (th : R) (day : bool) (s : State) (r : Draws) :
  (cloudCover (tickWith p th day s r), windSpeed (tickWith p th day s r)) =
  if (Z.rem (time s) 6 =? 0)%Z
  then updateWeather r (cloudCover s) (windSpeed s)
  else (cloudCover s, windSpeed s).
Proof.
  unfold tickWith. destruct (advanceClock _ _ _).
  destruct (Z.rem (time s) 6 =? 0)%Z; [|reflexivity].
  destruct (updateWeather r (cloudCover s) (windSpeed s)); reflexivity.
Qed.

(** ** Accumulation into DailyStats *)



Lemma riyadh_latitudeFactor :
  latitudeFactor (lookup "Riyadh, Saudi Arabia" SOLAR_DATA) = 24.7 / 90.
Proof.
  unfold latitudeFactor, latOr; simpl lookup; cbv iota beta; simpl lat.
  rewrite orElse_zero, Rabs_pos_eq by lra. reflexivity.
Qed.




(** ** Runs *)

Lemma st_commit (a : App) (s' : State) : st (commit a s') = s'.
Proof. unfold commit. destruct (sameDeps (st a) s'); reflexivity. Qed.

Lemma run_app (a : App) (evs1 evs2 : list Event) :
  run a (evs1 ++ evs2) =
  match run a evs1 with
  | Ok a' => run a' evs2
  | Throw err => Throw err
  | NotModelled why => NotModelled why
  end.
Proof.
  revert a. induction evs1 as [|e evs1 IH]; intros a; cbn [run app];
    [reflexivity|].
  destruct (step a e); [apply IH | reflexivity | reflexivity].
Qed.

(** What a step does to the simulation state, whatever the closure holds. *)
Lemma step_state (a a' : App) (e : Event) :
  step a e = Ok a' ->
  match e with
  | Tick r =>
      if isRunning (st a)
      then exists p,
             lookup (selectedPlastic (st a)) PLASTIC_TYPES = Some p /\
             st a' = tickWith p
                       (tickThermalPower (lookup (capturedLocation a) SOLAR_DATA) (st a))
                       (isDaytime (tickSun (lookup (capturedLocation a) SOLAR_DATA) (st a)))
                       (st a) r
      else a' = a
  | StartStop => st a' = toggleRunning (st a)
  | ResetClick => st a' = reset (st a)
  | SelectLocation k => st a' = setSelectedLocation k (st a)
  | SelectPlastic k => st a' = setSelectedPlastic k (st a)
  | SelectSpeed k => st a' = setSelectedSpeed k (st a)
  end.
Proof.
  destruct e; unfold step; intros H;
    try (injection H as <-; apply st_commit);
    try (destruct (entryOf k _); try discriminate;
         injection H as <-; apply st_commit).
  destruct (isRunning (st a)); [|congruence].
  unfold tick in H.
  destruct (lookup (selectedPlastic (st a)) PLASTIC_TYPES) as [p|] eqn:Hp;
    [|destruct (inherited _); discriminate].
  injection H as <-. exists p. split; [reflexivity | apply st_commit].
Qed.

Section Invariants.
Variable allowed : Event -> Prop.
Variable P : State -> Prop.

Hypothesis P_tick : forall p th day s r,
  lookup (selectedPlastic s) PLASTIC_TYPES = Some p ->
  allowed (Tick r) -> P s -> P (tickWith p th day s r).
Hypothesis P_toggle : forall s, allowed StartStop -> P s -> P (toggleRunning s).
Hypothesis P_reset : forall s, allowed ResetClick -> P s -> P (reset s).
Hypothesis P_location : forall k s,
  allowed (SelectLocation k) -> P s -> P (setSelectedLocation k s).
Hypothesis P_plastic : forall k s,
  allowed (SelectPlastic k) -> P s -> P (setSelectedPlastic k s).
Hypothesis P_speed : forall k s,
  allowed (SelectSpeed k) -> P s -> P (setSelectedSpeed k s).

Lemma step_preserves (a a' : App) (e : Event) :
  allowed e -> P (st a) -> step a e = Ok a' -> P (st a').
Proof.
  intros He HP Hs. apply step_state in Hs.
  destruct e.
  - destruct (isRunning (st a)).
    + destruct Hs as (p & Hp & ->). apply P_tick; assumption.
    + subst a'. assumption.
  - rewrite Hs. apply P_toggle; assumption.
  - rewrite Hs. apply P_reset; assumption.
  - rewrite Hs. apply P_location; assumption.
  - rewrite Hs. apply P_plastic; assumption.
  - rewrite Hs. apply P_speed; assumption.
Qed.

Lemma run_preserves (evs : list Event) : forall a a',
  Forall allowed evs -> P (st a) -> run a evs = Ok a' -> P (st a').
Proof.
  induction evs as [|e evs IH]; intros a a' Hall HP Hrun; simpl in Hrun.
  - injection Hrun as <-. assumption.
  - inversion Hall as [|? ? He Hrest]; subst.
    destruct (step a e) as [a1| |] eqn:Hs; [|discriminate|discriminate].
    apply (IH a1); [assumption | | assumption].
    apply (step_preserves a a1 e); assumption.
Qed.
End Invariants.

Lemma Forall_anyEvent (evs : list Event) : Forall anyEvent evs.
Proof. apply Forall_forall. intros; exact I. Qed.

(** An invariant of all controls and ticks holds in every reachable state. *)
Lemma reachable_ind (P : State -> Prop) :
  P initialState ->
  (forall p th day s r,
     lookup (selectedPlastic s) PLASTIC_TYPES = Some p -> P s ->
     P (tickWith p th day s r)) ->
  (forall s, P s -> P (toggleRunning s)) ->
  (forall s, P s -> P (reset s)) ->
  (forall k s, P s -> P (setSelectedLocation k s)) ->
  (forall k s, P s -> P (setSelectedPlastic k s)) ->
  (forall k s, P s -> P (setSelectedSpeed k s)) ->
  forall s, reachable s -> P s.
Proof.
  intros H0 Ht Hg Hr Hl Hp Hs s (evs & loc & Hrun).
  change s with (st (mkApp s loc)).
  apply (run_preserves anyEvent P) with (evs := evs) (a := initialApp);
    auto using Forall_anyEvent.
Qed.

(** ** The heliostat field *)

Lemma equipmentUpdate_maintenance (r : Draws) (m : Z) (h : Heliostats) :
  maintenance (equipmentUpdate r m h) = maintenance h.
Proof.
  unfold equipmentUpdate.
  destruct (lt (faultEvent r) _), (lt (cleanEvent r) _); reflexivity.
Qed.

(** C10.  The maintenance count of the heliostat field is 0 in every
    reachable state: it starts at 0 and neither a tick (fault or soiling
    update), nor RESET, nor any other control changes it. *)
Theorem maintenance_always_zero (s : State) :
  reachable s -> maintenance (heliostats s) = 0%Z.
Proof.
  revert s. apply reachable_ind; try (intros; assumption).
  - reflexivity.
  - intros p th day s r _ H.
    rewrite tickWith_heliostats, equipmentUpdate_maintenance. exact H.
Qed.

Lemma reachable_after (evs : list Event) (a : App) :
  run initialApp evs = Ok a -> reachable (st a).
Proof. intros H. exists evs, (capturedLocation a). destruct a; exact H. Qed.

Lemma maintenance_always_zero_witness :
  reachable (reset (toggleRunning initialState)) /\
  maintenance (heliostats (reset (toggleRunning initialState))) = 0%Z.
Proof.
  assert (Hr : reachable (reset (toggleRunning initialState))).
  { pose proof (reachable_after [StartStop; ResetClick]
                  (commit (commit initialApp (toggleRunning initialState))
                          (reset (toggleRunning initialState)))) as H.
    rewrite st_commit in H. apply H.
    unfold run, step. rewrite st_commit. reflexivity. }
  split; [exact Hr|].
  apply (maintenance_always_zero (reset (toggleRunning initialState)) Hr).
Defined.

Lemma tickWith_clock (p : Plastic) (th : R) (day : bool) (s : State) (r : Draws) :
  clockOf (tickWith p th day s r) =
  nextClock (speedOf (selectedSpeed s)) (clockOf s).
Proof. unfold clockOf, nextClock; simpl fst; simpl snd. open_tick; reflexivity. Qed.

(** A burst of ticks with the same draws, seen on the fields that do not
    depend on the weather or the sun. *)
Lemma run_ticks (r : Draws) (n : nat) : forall (a : App) (p : Plastic),
  isRunning (st a) = true ->
  lookup (selectedPlastic (st a)) PLASTIC_TYPES = Some p ->
  exists a',
    run a (repeat (Tick r) n) = Ok a' /\
    isRunning (st a') = true /\
    selectedPlastic (st a') = selectedPlastic (st a) /\
    selectedSpeed (st a') = selectedSpeed (st a) /\
    heliostats (st a') =
      Nat.iter n (equipmentUpdate r (speedOf (selectedSpeed (st a)))) (heliostats (st a)) /\
    clockOf (st a') =
      Nat.iter n (nextClock (speedOf (selectedSpeed (st a)))) (clockOf (st a)).
Proof.
  induction n as [|n IH]; intros a p Hrun Hp.
  - exists a. repeat split; assumption || reflexivity.
  - set (a1 := commit a (tickWith p
                 (tickThermalPower (lookup (capturedLocation a) SOLAR_DATA) (st a))
                 (isDaytime (tickSun (lookup (capturedLocation a) SOLAR_DATA) (st a)))
                 (st a) r)).
    assert (Hstep : step a (Tick r) = Ok a1).
    { unfold step. rewrite Hrun, (tick_ok _ _ _ p Hp). reflexivity. }
    assert (Hst : st a1 = tickWith p
                 (tickThermalPower (lookup (capturedLocation a) SOLAR_DATA) (st a))
                 (isDaytime (tickSun (lookup (capturedLocation a) SOLAR_DATA) (st a)))
                 (st a) r) by apply st_commit.
    destruct (tickWith_selection p
                 (tickThermalPower (lookup (capturedLocation a) SOLAR_DATA) (st a))
                 (isDaytime (tickSun (lookup (capturedLocation a) SOLAR_DATA) (st a)))
                 (st a) r) as (_ & Hsp & Hss & Hsr).
    rewrite <- Hst in Hsp, Hss, Hsr.
    destruct (IH a1 p) as (a' & Hr' & Hi & Hpl & Hsd & Hh & Hc).
    { congruence. }
    { congruence. }
    exists a'. simpl repeat. cbn [run]. rewrite Hstep.
    split; [exact Hr'|]. split; [exact Hi|].
    split; [congruence|]. split; [congruence|].
    rewrite !Nat.iter_succ_r. rewrite Hh, Hc, Hss, Hst.
    rewrite tickWith_heliostats, tickWith_clock. split; reflexivity.
Qed.

Lemma lt_faultDraw : lt 0.001 (0.0001 * IZR 72) = true.
Proof. apply lt_true. lra. Qed.

Lemma lt_soilDraw : lt 0.001 (0.001 * IZR 72) = true.
Proof. apply lt_true. lra. Qed.

Lemma lt_half_fault : lt 0.5 (0.0001 * IZR 72) = false.
Proof. apply lt_false. lra. Qed.

Lemma lt_half_soil : lt 0.5 (0.001 * IZR 72) = false.
Proof. apply lt_false. lra. Qed.

Lemma faultDraw_step (h : Heliostats) :
  equipmentUpdate faultDraw 72 h = heliostatFault h.
Proof.
  unfold equipmentUpdate, faultDraw; simpl faultEvent; simpl cleanEvent.
  rewrite lt_faultDraw, lt_half_soil. reflexivity.
Qed.

Lemma soilDraw_step (h : Heliostats) :
  equipmentUpdate soilDraw 72 h = heliostatSoil h.
Proof.
  unfold equipmentUpdate, soilDraw; simpl faultEvent; simpl cleanEvent.
  rewrite lt_half_fault, lt_soilDraw. reflexivity.
Qed.

Lemma iter_faults (n : nat) (h : Heliostats) :
  operational (Nat.iter n (equipmentUpdate faultDraw 72) h)
    = (operational h - Z.of_nat n)%Z /\
  cleaning_needed (Nat.iter n (equipmentUpdate faultDraw 72) h)
    = cleaning_needed h.
Proof.
  induction n as [|n [IHo IHc]].
  - simpl. split; [lia | reflexivity].
  - rewrite Nat.iter_succ, faultDraw_step. unfold heliostatFault.
    cbn [operational cleaning_needed]. rewrite IHo, IHc. split; [lia | reflexivity].
Qed.

Lemma iter_soil (n : nat) (h : Heliostats) :
  cleaning_needed h = 0 -> 0 <= IZR (operational h) * 0.1 ->
  operational (Nat.iter n (equipmentUpdate soilDraw 72) h) = operational h /\
  cleaning_needed (Nat.iter n (equipmentUpdate soilDraw 72) h)
    = Rmin (INR n) (IZR (operational h) * 0.1).
Proof.
  intros Hc Hcap.
  induction n as [|n [IHo IHc]].
  - simpl. rewrite Hc. split; [reflexivity|]. symmetry. apply Rmin_left. assumption.
  - rewrite Nat.iter_succ, soilDraw_step. unfold heliostatSoil.
    cbn [operational cleaning_needed]. rewrite IHo, IHc. split; [reflexivity|].
    rewrite S_INR. unfold Rmin.
    repeat destruct (Rle_dec _ _); lra.
Qed.

Lemma started_app :
  step initialApp StartStop = Ok (commit initialApp (toggleRunning initialState)).
Proof. reflexivity. Qed.

Lemma fieldInvariant_fault (h : Heliostats) :
  fieldInvariant h -> fieldInvariant (heliostatFault h).
Proof.
  unfold fieldInvariant, heliostatFault; cbn [operational faulty maintenance cleaning_needed].
  intros (H1 & H2 & H3 & H4 & H5).
  repeat split; try lia; try assumption.
  intros Hop. apply H5. lia.
Qed.

Lemma fieldInvariant_soil (h : Heliostats) :
  fieldInvariant h -> fieldInvariant (heliostatSoil h).
Proof.
  unfold fieldInvariant, heliostatSoil; cbn [operational faulty maintenance cleaning_needed].
  intros (H1 & H2 & H3 & H4 & H5).
  repeat split; try lia; try assumption.
  - eapply Rle_trans; [apply Rmin_r|].
    assert (Hle : (operational h <= CONSTANTS.HELIOSTAT_COUNT)%Z) by lia.
    apply IZR_le in Hle. lra.
  - intros Hop. specialize (H5 Hop). apply IZR_le in Hop.
    apply Rmin_glb; lra.
Qed.

Lemma fieldInvariant_update (r : Draws) (m : Z) (h : Heliostats) :
  fieldInvariant h -> fieldInvariant (equipmentUpdate r m h).
Proof.
  intros H. unfold equipmentUpdate.
  destruct (lt (faultEvent r) _), (lt (cleanEvent r) _);
    auto using fieldInvariant_fault, fieldInvariant_soil.
Qed.

(** A soiling increment leaves the count capped at 10% of the operational
    count of that moment. *)
Lemma soil_capped (r : Draws) (m : Z) (h : Heliostats) :
  lt (cleanEvent r) (0.001 * IZR m) = true ->
  cleaning_needed (equipmentUpdate r m h)
    <= IZR (operational (equipmentUpdate r m h)) * 0.1.
Proof.
  intros Hc. unfold equipmentUpdate. rewrite Hc.
  unfold heliostatSoil; cbn [operational cleaning_needed]. apply Rmin_r.
Qed.

(** C4 (as amended).  In every reachable state the operational and faulty
    counts add up to the installed count 2127 (so their sum never exceeds
    it), the faulty count is non-negative, the maintenance count is 0, the
    cleaning-needed count is at most 10% of the installed count and is
    non-negative whenever the operational count is; and on every tick that
    increments the cleaning-needed count it ends at most at 10% of the
    operational count of that tick. *)
Theorem heliostat_field_invariant (s : State) :
  reachable s ->
  fieldInvariant (heliostats s) /\
  (operational (heliostats s) + faulty (heliostats s) <= CONSTANTS.HELIOSTAT_COUNT)%Z /\
  forall (r : Draws) (m : Z),
    lt (cleanEvent r) (0.001 * IZR m) = true ->
    cleaning_needed (equipmentUpdate r m (heliostats s))
      <= IZR (operational (equipmentUpdate r m (heliostats s))) * 0.1.
Proof.
  intros Hr.
  assert (Hinv : fieldInvariant (heliostats s)).
  { revert s Hr. apply reachable_ind; try (intros; assumption).
    - unfold fieldInvariant, initialState, CONSTANTS.HELIOSTAT_COUNT;
        cbn [heliostats operational faulty maintenance cleaning_needed].
      repeat split; try lia; lra.
    - intros p th day s r _ H.
      rewrite tickWith_heliostats. apply fieldInvariant_update. exact H. }
  split; [exact Hinv|]. split.
  - destruct Hinv as (H1 & _). lia.
  - intros r m Hc. apply soil_capped. exact Hc.
Qed.

Lemma heliostat_field_invariant_witness :
  reachable (reset (toggleRunning initialState)) /\
  fieldInvariant (heliostats (reset (toggleRunning initialState))) /\
  (operational (heliostats (reset (toggleRunning initialState)))
   + faulty (heliostats (reset (toggleRunning initialState)))
   <= CONSTANTS.HELIOSTAT_COUNT)%Z /\
  forall (r : Draws) (m : Z),
    lt (cleanEvent r) (0.001 * IZR m) = true ->
    cleaning_needed (equipmentUpdate r m (heliostats (reset (toggleRunning initialState))))
      <= IZR (operational
                (equipmentUpdate r m (heliostats (reset (toggleRunning initialState))))) * 0.1.
Proof.
  assert (Hr : reachable (reset (toggleRunning initialState))).
  { pose proof (reachable_after [StartStop; ResetClick]
                  (commit (commit initialApp (toggleRunning initialState))
                          (reset (toggleRunning initialState)))) as H.
    rewrite st_commit in H. apply H.
    unfold run, step. rewrite st_commit. reflexivity. }
  split; [exact Hr|].
  apply (heliostat_field_invariant (reset (toggleRunning initialState)) Hr).
Defined.

(** C4, counterexample.  After START, 2128 ticks that each draw a fault
    leave the operational count at -1; and 213 ticks that each draw a
    soiling event followed by one tick that draws a fault leave 212.7
    heliostats needing cleaning while 10% of the operational count is
    212.6. *)
Lemma heliostat_counts_leave_claimed_bounds :
  (exists a,
     run initialApp (StartStop :: repeat (Tick faultDraw) 2128) = Ok a /\
     (operational (heliostats (st a)) < 0)%Z) /\
  (exists a,
     run initialApp (StartStop :: repeat (Tick soilDraw) 213 ++ [Tick faultDraw]) = Ok a /\
     (0 < operational (heliostats (st a)))%Z /\
     IZR (operational (heliostats (st a))) * 0.1 < cleaning_needed (heliostats (st a))).
Proof.
  set (a1 := commit initialApp (toggleRunning initialState)).
  assert (Hst : st a1 = toggleRunning initialState) by apply st_commit.
  assert (Hrun1 : isRunning (st a1) = true) by (rewrite Hst; reflexivity).
  assert (Hp1 : lookup (selectedPlastic (st a1)) PLASTIC_TYPES
                = lookup "HDPE" PLASTIC_TYPES) by (rewrite Hst; reflexivity).
  assert (Hs1 : speedOf (selectedSpeed (st a1)) = 72%Z) by (rewrite Hst; reflexivity).
  assert (Hh1 : heliostats (st a1) = mkHeliostats 2127 0 0 0) by (rewrite Hst; reflexivity).
  split.
  - destruct (run_ticks faultDraw 2128 a1 _ Hrun1 Hp1)
      as (a & Ha & _ & _ & _ & Hh & _).
    exists a. cbn [run]. rewrite started_app. fold a1. split; [exact Ha|].
    rewrite Hh, Hs1. destruct (iter_faults 2128 (heliostats (st a1))) as [Ho _].
    rewrite Ho, Hh1. cbn [operational]. lia.
  - destruct (run_ticks soilDraw 213 a1 _ Hrun1 Hp1)
      as (a2 & Ha2 & Hrun2 & Hp2 & Hsp2 & Hh2 & _).
    assert (Hp2' : lookup (selectedPlastic (st a2)) PLASTIC_TYPES
                   = lookup "HDPE" PLASTIC_TYPES) by (rewrite Hp2; exact Hp1).
    destruct (run_ticks faultDraw 1 a2 _ Hrun2 Hp2')
      as (a3 & Ha3 & _ & _ & _ & Hh3 & _).
    exists a3. cbn [run]. rewrite started_app. fold a1.
    rewrite run_app, Ha2. split; [exact Ha3|].
    rewrite Hh3, Hsp2, Hs1, Hh2, Hs1, Hh1.
    destruct (iter_soil 213 (mkHeliostats 2127 0 0 0)) as [Ho Hc];
      [reflexivity | cbn [operational]; lra |].
    destruct (iter_faults 1
                (Nat.iter 213 (equipmentUpdate soilDraw 72) (mkHeliostats 2127 0 0 0)))
      as [Ho' Hc'].
    rewrite Ho', Hc', Ho, Hc. cbn [operational].
    split; [lia|].
    replace (INR 213) with 213 by (rewrite INR_IZR_INZ; reflexivity).
    rewrite Rmin_right by lra.
    replace (2127 - Z.of_nat 1)%Z with 2126%Z by reflexivity. lra.
Qed.

(** ** Reactor temperature *)

Lemma reactorUpdate_bounds (p : Plastic) (m : Z) (th : R) (day : bool) (prev : R) :
  CONSTANTS.SALT_TEMP_COLD <= optimal_temp p ->
  0 <= IZR m ->
  CONSTANTS.SALT_TEMP_COLD <= prev <= optimal_temp p ->
  CONSTANTS.SALT_TEMP_COLD <= reactorUpdate p m th day prev <= optimal_temp p.
Proof.
  unfold reactorUpdate, CONSTANTS.SALT_TEMP_COLD. intros Hopt Hm [Hlo Hhi].
  destruct (gt th 5) eqn:Hth; [destruct day|]; cbn [andb].
  - apply gt_true in Hth.
    assert (0 <= Rmin (2 * IZR m / 10) (th / 10)) by (apply Rmin_glb; lra).
    split; [apply Rmin_glb; lra | apply Rmin_r].
  - split; [apply Rmax_r | apply Rmax_lub; lra].
  - split; [apply Rmax_r | apply Rmax_lub; lra].
Qed.

(** Whatever the feedstock of the catalog, a temperature in [290, 900]
    stays there. *)
Lemma reactorUpdate_catalog_bounds (p : Plastic) (m : Z) (th : R) (day : bool)
    (prev : R) :
  850 <= optimal_temp p <= 900 -> 0 <= IZR m ->
  290 <= prev <= 900 ->
  290 <= reactorUpdate p m th day prev <= 900.
Proof.
  unfold reactorUpdate, CONSTANTS.SALT_TEMP_COLD. intros Hopt Hm [Hlo Hhi].
  destruct (gt th 5) eqn:Hth; [destruct day|]; cbn [andb].
  - apply gt_true in Hth.
    assert (0 <= Rmin (2 * IZR m / 10) (th / 10)) by (apply Rmin_glb; lra).
    split; [apply Rmin_glb; lra|].
    eapply Rle_trans; [apply Rmin_r | lra].
  - split; [apply Rmax_r | apply Rmax_lub; lra].
  - split; [apply Rmax_r | apply Rmax_lub; lra].
Qed.

(** A tick never cools the reactor by more than 0.05 degrees per simulated
    minute, nor below 290. *)
Lemma reactorUpdate_lower (p : Plastic) (m : Z) (th : R) (day : bool) (prev : R) :
  0 <= IZR m -> 290 <= prev <= optimal_temp p ->
  Rmax (prev - 0.5 * IZR m / 10) 290 <= reactorUpdate p m th day prev.
Proof.
  unfold reactorUpdate, CONSTANTS.SALT_TEMP_COLD. intros Hm [Hlo Hhi].
  destruct (gt th 5) eqn:Hth; [destruct day|]; cbn [andb]; try apply Rle_refl.
  apply gt_true in Hth.
  assert (0 <= Rmin (2 * IZR m / 10) (th / 10)) by (apply Rmin_glb; lra).
  apply Rmax_lub; apply Rmin_glb; lra.
Qed.

Lemma entryOf_own {A : Type} (k : string) (obj : list (string * A)) :
  entryOf k obj = Own <-> lookup k obj <> None.
Proof.
  unfold entryOf. destruct (lookup k obj); [split; congruence|].
  destruct (inherited k); split; congruence.
Qed.

Lemma step_total (a : App) (e : Event) :
  uiEvent e ->
  lookup (selectedPlastic (st a)) PLASTIC_TYPES <> None ->
  exists a', step a e = Ok a'.
Proof.
  intros He Hp. destruct e; unfold step; cbn [uiEvent] in He;
    try rewrite He; try (eexists; reflexivity).
  destruct (isRunning (st a)); [|eexists; reflexivity].
  unfold tick.
  destruct (lookup (selectedPlastic (st a)) PLASTIC_TYPES); [|congruence].
  eexists; reflexivity.
Qed.

Lemma feedstock_known_after (a a' : App) (e : Event) :
  uiEvent e -> step a e = Ok a' ->
  lookup (selectedPlastic (st a)) PLASTIC_TYPES <> None ->
  lookup (selectedPlastic (st a')) PLASTIC_TYPES <> None.
Proof.
  intros He Hs Hp. apply step_state in Hs. destruct e; try (rewrite Hs; exact Hp).
  - destruct (isRunning (st a)).
    + destruct Hs as (p & _ & ->).
      destruct (tickWith_selection p
        (tickThermalPower (lookup (capturedLocation a) SOLAR_DATA) (st a))
        (isDaytime (tickSun (lookup (capturedLocation a) SOLAR_DATA) (st a)))
        (st a) r) as (_ & -> & _). exact Hp.
    + subst; exact Hp.
  - rewrite Hs. cbn [setSelectedPlastic selectedPlastic].
    apply entryOf_own. exact He.
Qed.

Lemma feedstock_kept (a a' : App) (e : Event) :
  keepsFeedstock e -> step a e = Ok a' ->
  selectedPlastic (st a') = selectedPlastic (st a).
Proof.
  intros He Hs. apply step_state in Hs. destruct e; try (rewrite Hs; reflexivity).
  - destruct (isRunning (st a)).
    + destruct Hs as (p & _ & ->). apply tickWith_selection.
    + subst; reflexivity.
  - destruct He.
Qed.

Lemma catalog_bounds_step (a a' : App) (e : Event) :
  step a e = Ok a' ->
  290 <= reactorTemp (st a) <= 900 ->
  290 <= reactorTemp (st a') <= 900.
Proof.
  intros Hs Hb. apply step_state in Hs.
  destruct e; try (rewrite Hs; cbn [reactorTemp toggleRunning setSelectedLocation
                                     setSelectedPlastic setSelectedSpeed reset]; lra).
  destruct (isRunning (st a)).
  - destruct Hs as (p & Hp & ->). rewrite tickWith_reactorTemp.
    apply reactorUpdate_catalog_bounds;
      [exact (plastic_optimal_range _ _ Hp) | | exact Hb].
    pose proof (speedOf_IZR_range (selectedSpeed (st a))). lra.
  - subst; assumption.
Qed.

Lemma reactor_bounds_step (p : Plastic) (a a' : App) (e : Event) :
  lookup (selectedPlastic (st a)) PLASTIC_TYPES = Some p ->
  keepsFeedstock e -> step a e = Ok a' ->
  CONSTANTS.SALT_TEMP_COLD <= reactorTemp (st a) <= optimal_temp p ->
  CONSTANTS.SALT_TEMP_COLD <= reactorTemp (st a') <= optimal_temp p.
Proof.
  intros Hp He Hs Hb.
  pose proof (plastic_optimal_range _ _ Hp) as Hopt.
  apply step_state in Hs. unfold CONSTANTS.SALT_TEMP_COLD in *.
  destruct e; try (rewrite Hs; cbn [reactorTemp toggleRunning setSelectedLocation
                                     setSelectedSpeed reset]; lra).
  - destruct (isRunning (st a)).
    + destruct Hs as (q & Hq & ->). assert (q = p) by congruence. subst q.
      rewrite tickWith_reactorTemp.
      apply reactorUpdate_bounds; unfold CONSTANTS.SALT_TEMP_COLD; try lra.
      pose proof (speedOf_IZR_range (selectedSpeed (st a))). lra.
    + subst; assumption.
  - destruct He.
Qed.

Lemma reactor_bounds_run (evs : list Event) : forall a,
  Forall uiEvent evs ->
  lookup (selectedPlastic (st a)) PLASTIC_TYPES <> None ->
  290 <= reactorTemp (st a) <= 900 ->
  exists a', run a evs = Ok a' /\
    290 <= reactorTemp (st a') <= 900 /\
    forall p, lookup (selectedPlastic (st a)) PLASTIC_TYPES = Some p ->
              reactorTemp (st a) <= optimal_temp p ->
              Forall keepsFeedstock evs ->
              reactorTemp (st a') <= optimal_temp p.
Proof.
  induction evs as [|e evs IH]; intros a Hui Hknown Hb.
  - exists a. split; [reflexivity|]. split; [exact Hb|]. intros; assumption.
  - inversion Hui as [|? ? He Hrest]; subst.
    destruct (step_total a e He Hknown) as [a1 Hs].
    destruct (IH a1 Hrest (feedstock_known_after a a1 e He Hs Hknown)
                (catalog_bounds_step a a1 e Hs Hb)) as (a' & Hrun & Hb' & Hkept).
    exists a'. cbn [run]. rewrite Hs. split; [exact Hrun|]. split; [exact Hb'|].
    intros p Hp Hle Hkeep. inversion Hkeep as [|? ? Hke Hkrest]; subst.
    apply Hkept; [| |exact Hkrest].
    + rewrite (feedstock_kept a a1 e Hke Hs). exact Hp.
    + apply (reactor_bounds_step p a a1 e Hp Hke Hs).
      unfold CONSTANTS.SALT_TEMP_COLD. lra.
Qed.

(** C5 (as amended).  With any feedstock [k] of the catalog selected at
    the start, and whatever ticks (any draws), catalog selections,
    START/STOP and RESET clicks follow, the run executes to the end and the
    reactor temperature after it (hence after every tick of it) is at
    least 290 and at most 900, the highest optimal temperature of the
    catalog; if the feedstock is not selected anew during the run, it is
    at most the optimal temperature of [k]. *)
Theorem reactor_temperature_bounded_while_feedstock_kept
    (k : string) (p : Plastic) (evs : list Event) :
  lookup k PLASTIC_TYPES = Some p ->
  Forall uiEvent evs ->
  exists a, run initialApp (SelectPlastic k :: evs) = Ok a /\
    290 <= reactorTemp (st a) <= 900 /\
    (Forall keepsFeedstock evs -> reactorTemp (st a) <= optimal_temp p).
Proof.
  intros Hp Hui.
  pose proof (plastic_optimal_range _ _ Hp) as Hopt.
  assert (Hown : entryOf k PLASTIC_TYPES = Own)
    by (apply entryOf_own; congruence).
  destruct (reactor_bounds_run evs
              (commit initialApp (setSelectedPlastic k initialState)) Hui)
    as (a & Hrun & Hb & Hkept).
  - rewrite st_commit. cbn [setSelectedPlastic selectedPlastic]. congruence.
  - rewrite st_commit. cbn [reactorTemp setSelectedPlastic initialState]. lra.
  - exists a. split; [|split; [exact Hb|]].
    + cbn [run]. unfold step. rewrite Hown. exact Hrun.
    + intros Hkeep. apply Hkept; [| |exact Hkeep].
      * rewrite st_commit. exact Hp.
      * rewrite st_commit. cbn [reactorTemp setSelectedPlastic initialState]. lra.
Qed.

Lemma reactor_temperature_bounded_while_feedstock_kept_witness :
  (lookup "PS" PLASTIC_TYPES = Some PS /\
   Forall uiEvent
     [StartStop; Tick calm; SelectSpeed "Extreme (1 day = 10 min)"; Tick faultDraw;
      ResetClick; Tick soilDraw]) /\
  exists a,
    run initialApp
      (SelectPlastic "PS" ::
       [StartStop; Tick calm; SelectSpeed "Extreme (1 day = 10 min)"; Tick faultDraw;
        ResetClick; Tick soilDraw]) = Ok a /\
    290 <= reactorTemp (st a) <= 900 /\
    (Forall keepsFeedstock
       [StartStop; Tick calm; SelectSpeed "Extreme (1 day = 10 min)"; Tick faultDraw;
        ResetClick; Tick soilDraw] ->
     reactorTemp (st a) <= optimal_temp PS).
Proof.
  assert (Hall : Forall uiEvent
     [StartStop; Tick calm; SelectSpeed "Extreme (1 day = 10 min)"; Tick faultDraw;
      ResetClick; Tick soilDraw]).
  { repeat (constructor; [first [exact I | reflexivity]|]). constructor. }
  split; [split; [reflexivity | exact Hall]|].
  apply (reactor_temperature_bounded_while_feedstock_kept "PS" PS _ eq_refl Hall).
Defined.

(** *** A switch of feedstock on a hot reactor *)

Lemma half_sine_at_least_half (u : R) :
  1 / 6 <= u <= 5 / 6 -> 1 / 2 <= sin (u * PI).
Proof.
  intros [Hlo Hhi]. pose proof PI_RGT_0 as Hpi.
  destruct (Rle_dec u (1 / 2)) as [Hu|Hu].
  - rewrite <- sin_PI6. apply sin_incr_1; nra.
  - rewrite <- sin_PI6, <- (sin_PI_x (u * PI)). apply sin_incr_1; nra.
Qed.

Lemma riyadh_dniOr : dniOr (lookup "Riyadh, Saudi Arabia" SOLAR_DATA) 6.0 = 6.8.
Proof.
  unfold dniOr; simpl lookup; cbv iota beta; simpl dni.
  apply orElse_nonzero. lra.
Qed.

(** From 08:30 to 15:30 the clear-sky DNI at Riyadh is at least 416 W/m2
    on every day of the year. *)
Lemma riyadh_midday_dni (h m d : R) :
  8.5 <= h + m / 60 <= 15.5 ->
  isDaytime (calculateSunParameters (lookup "Riyadh, Saudi Arabia" SOLAR_DATA) 0 h m d)
    = true /\
  416 <= sun_dni (calculateSunParameters
                    (lookup "Riyadh, Saudi Arabia" SOLAR_DATA) 0 h m d).
Proof.
  intros Hx.
  pose proof (seasonalOffset_range d) as Ho.
  set (loc := lookup "Riyadh, Saudi Arabia" SOLAR_DATA).
  assert (Hrise : sunriseAt loc d = 6 - seasonalOffset d * (24.7 / 90))
    by (unfold sunriseAt, loc; rewrite riyadh_latitudeFactor; reflexivity).
  assert (Hset : sunsetAt loc d = 18 + seasonalOffset d * (24.7 / 90))
    by (unfold sunsetAt, loc; rewrite riyadh_latitudeFactor; reflexivity).
  set (s := seasonalOffset d * (24.7 / 90)) in *.
  assert (Hs : -0.42 <= s <= 0.42) by (unfold s; lra).
  split; [apply daytime_flag; fold loc; lra|].
  rewrite daytime_dni by (fold loc; lra).
  fold loc. rewrite Hrise, Hset. unfold loc. rewrite riyadh_dniOr.
  set (x := h + m / 60) in *.
  set (nh := (x - (6 - s)) / (18 + s - (6 - s))).
  assert (Heq : nh * (18 + s - (6 - s)) = x - (6 - s)) by (unfold nh; field; lra).
  assert (Hnh : 1 / 6 <= nh <= 5 / 6).
  { split; apply Rmult_le_reg_r with (18 + s - (6 - s)); try lra; rewrite Heq; lra. }
  pose proof (half_sine_at_least_half nh Hnh) as Hsin.
  pose proof (SIN_bound ((d - 81) / 365 * 2 * PI)) as Hss.
  set (sn := sin (nh * PI)) in *. set (ss := sin ((d - 81) / 365 * 2 * PI)) in *.
  eapply Rle_trans; [|apply Rmax_r].
  assert (H1 : 425 <= 6.8 * 1000 / 8 * sn) by lra.
  assert (H2 : 0.7 <= 1 + ss * 0.3) by lra.
  assert (H3 : 297.5 <= 6.8 * 1000 / 8 * sn * (1 + ss * 0.3)) by nra.
  lra.
Qed.

Lemma tickSun_at_clock (loc : option Location) (s : State) :
  tickSun loc s =
  calculateSunParameters loc (cloudCover s)
    (IZR (fst (nextClock (speedOf (selectedSpeed s)) (clockOf s))))
    (IZR (snd (nextClock (speedOf (selectedSpeed s)) (clockOf s))))
    (IZR (dayOfYear (currentDate s))).
Proof.
  unfold tickSun, nextClock, clockOf. cbn [fst snd].
  destruct (advanceClock _ _ _). reflexivity.
Qed.

Lemma decimal_hour_of_minutes (hm : Z * Z) :
  IZR (fst hm) + IZR (snd hm) / 60 = IZR (minutesOfDay hm) / 60.
Proof.
  unfold minutesOfDay. rewrite plus_IZR, mult_IZR. lra.
Qed.

Lemma calm_weather : updateWeather calm 0 0 = (0, 0).
Proof.
  unfold updateWeather, calm; cbn [cloudEvent windEvent cloudDecay windGust cloudGain].
  replace (lt 0.5 0.05) with false by (symmetry; apply lt_false; lra).
  replace (lt 0.5 0.1) with false by (symmetry; apply lt_false; lra).
  replace (gt 0 0) with false by (symmetry; apply gt_false; lra).
  rewrite Rmax_left by lra. reflexivity.
Qed.

Lemma calm_equipment (m : Z) (h : Heliostats) :
  IZR m <= 144 -> equipmentUpdate calm m h = h.
Proof.
  intros Hm. unfold equipmentUpdate, calm; cbn [faultEvent cleanEvent].
  replace (lt 0.5 (0.0001 * IZR m)) with false by (symmetry; apply lt_false; lra).
  replace (lt 0.5 (0.001 * IZR m)) with false by (symmetry; apply lt_false; lra).
  reflexivity.
Qed.

Lemma commit_captured (a : App) (s' : State) (k : string) :
  capturedLocation a = k -> selectedLocation s' = k ->
  capturedLocation (commit a s') = k.
Proof.
  intros Ha Hs. unfold commit. destruct (sameDeps (st a) s'); assumption.
Qed.

Lemma full_field_power (dni : R) :
  416 <= dni -> 24 <= calculateThermalPower (mkHeliostats 2127 0 0 0) 0 dni.
Proof.
  intros Hd. unfold calculateThermalPower, CONSTANTS.HELIOSTAT_AREA,
    CONSTANTS.HELIOSTAT_EFFICIENCY, CONSTANTS.RECEIVER_EFFICIENCY.
  cbn [operational].
  replace (gt 0 10) with false by (symmetry; apply gt_false; lra).
  lra.
Qed.

(** One calm tick of the polystyrene run. *)
Lemma polystyrene_tick (a : App) (t : Z) :
  polystyreneRunning a ->
  290 <= reactorTemp (st a) <= 900 ->
  IZR t / 100 <= reactorTemp (st a) ->
  exists a1,
    step a (Tick calm) = Ok a1 /\
    polystyreneRunning a1 /\
    clockOf (st a1) = nextClock 12 (clockOf (st a)) /\
    290 <= reactorTemp (st a1) <= 900 /\
    IZR (if middayClock (nextClock 12 (clockOf (st a)))
         then Z.min (t + 240) 90000 else Z.max (t - 60) 29000) / 100
      <= reactorTemp (st a1).
Proof.
  intros (Hrun & Hpl & Hsp & Hloc & Hcap & Hcloud & Hwind & Hfield) Hb Ht.
  assert (Hp : lookup (selectedPlastic (st a)) PLASTIC_TYPES = Some PS)
    by (rewrite Hpl; reflexivity).
  assert (Hm : speedOf (selectedSpeed (st a)) = 12%Z) by (rewrite Hsp; reflexivity).
  set (loc := lookup "Riyadh, Saudi Arabia" SOLAR_DATA).
  set (th := tickThermalPower loc (st a)).
  set (day := isDaytime (tickSun loc (st a))).
  set (s1 := tickWith PS th day (st a) calm).
  exists (commit a s1).
  destruct (tickWith_selection PS th day (st a) calm) as (Hl1 & Hp1 & Hs1 & Hr1).
  assert (Hupd : reactorTemp s1 = reactorUpdate PS 12 th day (reactorTemp (st a)))
    by (unfold s1; rewrite tickWith_reactorTemp, Hm; reflexivity).
  split; [|split; [|split; [|split]]].
  - unfold step. rewrite Hrun, Hcap. fold loc.
    rewrite (tick_ok loc (st a) calm PS Hp). reflexivity.
  - unfold polystyreneRunning. rewrite st_commit. fold s1 in Hl1, Hp1, Hs1, Hr1.
    repeat split; try congruence.
    + apply commit_captured; congruence.
    + pose proof (tickWith_weather PS th day (st a) calm) as Hw. fold s1 in Hw.
      rewrite Hcloud, Hwind, calm_weather in Hw.
      destruct (Z.rem (time (st a)) 6 =? 0)%Z; injection Hw as -> _; reflexivity.
    + pose proof (tickWith_weather PS th day (st a) calm) as Hw. fold s1 in Hw.
      rewrite Hcloud, Hwind, calm_weather in Hw.
      destruct (Z.rem (time (st a)) 6 =? 0)%Z; injection Hw as _ ->; reflexivity.
    + unfold s1. rewrite tickWith_heliostats, Hm, calm_equipment by lra. exact Hfield.
  - rewrite st_commit. unfold s1. rewrite tickWith_clock, Hm. reflexivity.
  - rewrite st_commit, Hupd.
    apply reactorUpdate_catalog_bounds; cbn [optimal_temp PS]; lra.
  - rewrite st_commit, Hupd.
    destruct (middayClock (nextClock 12 (clockOf (st a)))) eqn:Hmid.
    + unfold middayClock in Hmid. apply andb_prop in Hmid as [H1 H2].
      apply Z.leb_le in H1, H2. apply IZR_le in H1, H2.
      assert (Hsun : day = true /\ 24 <= th).
      { unfold day, th, tickThermalPower. rewrite tickSun_at_clock, Hm, Hcloud.
        destruct (riyadh_midday_dni
                    (IZR (fst (nextClock 12 (clockOf (st a)))))
                    (IZR (snd (nextClock 12 (clockOf (st a)))))
                    (IZR (dayOfYear (currentDate (st a))))) as [Hd Hdni].
        { rewrite decimal_hour_of_minutes. lra. }
        fold loc in Hd, Hdni. split; [exact Hd|].
        rewrite Hfield, Hwind. apply full_field_power. exact Hdni. }
      destruct Hsun as [-> Hth].
      unfold reactorUpdate.
      replace (gt th 5) with true by (symmetry; apply gt_true; lra).
      cbn [andb optimal_temp PS].
      rewrite (Rmin_left (2 * 12 / 10) (th / 10)) by lra.
      pose proof (Z.le_min_l (t + 240) 90000) as Hz1.
      pose proof (Z.le_min_r (t + 240) 90000) as Hz2.
      apply IZR_le in Hz1, Hz2. rewrite plus_IZR in Hz1.
      apply Rmin_glb; lra.
    + eapply Rle_trans;
        [|apply (reactorUpdate_lower PS 12 th day); cbn [optimal_temp PS]; lra].
      destruct (Z.max_spec (t - 60) 29000) as [[_ ->]|[_ ->]].
      * eapply Rle_trans; [|apply Rmax_r]. lra.
      * eapply Rle_trans; [|apply Rmax_l]. rewrite minus_IZR. lra.
Qed.

Lemma polystyrene_ticks (n : nat) : forall (a : App) (t : Z),
  polystyreneRunning a ->
  290 <= reactorTemp (st a) <= 900 ->
  IZR t / 100 <= reactorTemp (st a) ->
  exists a',
    run a (repeat (Tick calm) n) = Ok a' /\
    polystyreneRunning a' /\
    clockOf (st a') = Nat.iter n (nextClock 12) (clockOf (st a)) /\
    290 <= reactorTemp (st a') <= 900 /\
    IZR (reactorFloor n (clockOf (st a)) t) / 100 <= reactorTemp (st a').
Proof.
  induction n as [|n IH]; intros a t Hinv Hb Ht.
  - exists a. split; [reflexivity|]. split; [exact Hinv|].
    split; [reflexivity|]. split; [exact Hb | exact Ht].
  - destruct (polystyrene_tick a t Hinv Hb Ht) as (a1 & Hs & Hinv1 & Hc1 & Hb1 & Ht1).
    rewrite <- Hc1 in Ht1.
    destruct (IH a1 _ Hinv1 Hb1 Ht1) as (a' & Hrun & Hinv' & Hc' & Hb' & Ht').
    exists a'. cbn [repeat run reactorFloor]. rewrite Hs.
    split; [exact Hrun|]. split; [exact Hinv'|].
    rewrite Nat.iter_succ_r, <- Hc1.
    split; [exact Hc'|]. split; [exact Hb'|].
    exact Ht'.
Qed.

(** C5, counterexample.  Polystyrene is selected, the "Fast" preset, START,
    and 1870 calm ticks follow (15 days and 14 hours, ending at 20:00): the
    reactor is then above 855 degrees.  HDPE (optimal temperature 850) is
    selected and the next tick, at 20:12, only cools by 0.6 degrees: the
    reactor temperature after that tick exceeds the optimal temperature of
    the selected feedstock. *)
Lemma reactor_above_optimum_after_feedstock_switch :
  exists a,
    run initialApp (switchToHdpeRun 1870) = Ok a /\
    lookup (selectedPlastic (st a)) PLASTIC_TYPES = Some HDPE /\
    clockOf (st a) = (20, 12)%Z /\
    854 <= reactorTemp (st a) /\
    optimal_temp HDPE < reactorTemp (st a).
Proof.
  set (s1 := setSelectedPlastic "PS" initialState).
  set (s2 := setSelectedSpeed "Fast (1 day = 2 hours)" s1).
  set (s3 := toggleRunning s2).
  set (a3 := commit (commit (commit initialApp s1) s2) s3).
  assert (Hstart : run initialApp
            [SelectPlastic "PS"; SelectSpeed "Fast (1 day = 2 hours)"; StartStop]
          = Ok a3).
  { cbn [run]. unfold step.
    replace (entryOf "PS" PLASTIC_TYPES) with Own by reflexivity.
    replace (entryOf "Fast (1 day = 2 hours)" SPEED_OPTIONS) with Own by reflexivity.
    cbn [st initialApp]. fold s1. rewrite st_commit. fold s2.
    rewrite st_commit. fold s3. reflexivity. }
  assert (Hst3 : st a3 = s3) by apply st_commit.
  assert (Hinv : polystyreneRunning a3).
  { unfold polystyreneRunning. rewrite Hst3.
    repeat split; try reflexivity.
    unfold a3. repeat apply commit_captured; reflexivity. }
  assert (Hb : 290 <= reactorTemp (st a3) <= 900)
    by (rewrite Hst3; cbn; lra).
  assert (Ht : IZR 29000 / 100 <= reactorTemp (st a3))
    by (rewrite Hst3; cbn; lra).
  destruct (polystyrene_ticks 1870 a3 29000 Hinv Hb Ht)
    as (a4 & Hrun4 & Hinv4 & Hclock4 & Hb4 & Hfloor4).
  rewrite Hst3 in Hclock4, Hfloor4.
  replace (Nat.iter 1870 (nextClock 12) (clockOf s3)) with (20, 0)%Z in Hclock4
    by (vm_compute; reflexivity).
  replace (reactorFloor 1870 (clockOf s3) 29000) with 85520%Z in Hfloor4
    by (vm_compute; reflexivity).
  destruct Hinv4 as (Hrun & Hpl & Hsp & Hloc & Hcap & Hcloud & Hwind & Hfield).
  set (s5 := setSelectedPlastic "HDPE" (st a4)).
  set (a5 := commit a4 s5).
  assert (Hst5 : st a5 = s5) by apply st_commit.
  assert (Hcap5 : capturedLocation a5 = "Riyadh, Saudi Arabia")
    by (apply commit_captured; [exact Hcap | exact Hloc]).
  assert (Hp5 : lookup (selectedPlastic s5) PLASTIC_TYPES = Some HDPE) by reflexivity.
  assert (Hm5 : speedOf (selectedSpeed s5) = 12%Z)
    by (unfold s5; cbn [setSelectedPlastic selectedSpeed]; rewrite Hsp; reflexivity).
  set (loc := lookup "Riyadh, Saudi Arabia" SOLAR_DATA).
  assert (Hnight : tickSun loc s5 = mkSun 0 0 false None None).
  { rewrite tickSun_at_clock, Hm5.
    replace (clockOf s5) with (20, 0)%Z by (symmetry; exact Hclock4).
    replace (nextClock 12 (20, 0)%Z) with (20, 12)%Z by reflexivity.
    cbn [fst snd].
    pose proof (sunset_range "Riyadh, Saudi Arabia"
                  (IZR (dayOfYear (currentDate s5)))) as Hs.
    apply night_after_sunset. fold loc in Hs |- *. lra. }
  set (s6 := tickWith HDPE (tickThermalPower loc s5) (isDaytime (tickSun loc s5))
               s5 calm).
  exists (commit a5 s6).
  assert (Htemp : reactorTemp s6 = Rmax (reactorTemp (st a4) - 0.5 * 12 / 10) 290).
  { unfold s6. rewrite tickWith_reactorTemp, Hm5.
    unfold tickThermalPower. rewrite Hnight. cbn [sun_dni isDaytime].
    rewrite thermalPower_zero_dni. unfold reactorUpdate.
    rewrite andb_false_r. reflexivity. }
  assert (Hhot : 854 <= reactorTemp s6).
  { rewrite Htemp. eapply Rle_trans; [|apply Rmax_l]. lra. }
  split; [|split; [|split; [|split]]].
  - unfold switchToHdpeRun, polystyreneRun.
    rewrite run_app. rewrite run_app, Hstart, Hrun4.
    cbn [run]. unfold step.
    replace (entryOf "HDPE" PLASTIC_TYPES) with Own by reflexivity.
    fold s5. fold a5. rewrite Hst5, Hcap5.
    replace (isRunning s5) with true by (symmetry; exact Hrun).
    fold loc. rewrite (tick_ok loc s5 calm HDPE Hp5). reflexivity.
  - rewrite st_commit. unfold s6.
    destruct (tickWith_selection HDPE (tickThermalPower loc s5)
                (isDaytime (tickSun loc s5)) s5 calm) as (_ & -> & _).
    exact Hp5.
  - rewrite st_commit. unfold s6. rewrite tickWith_clock, Hm5.
    replace (clockOf s5) with (20, 0)%Z by (symmetry; exact Hclock4).
    reflexivity.
  - rewrite st_commit. exact Hhot.
  - rewrite st_commit. cbn [optimal_temp HDPE]. lra.
Qed.

(** ** Pyrolysis throughput *)

Lemma PS_in_catalog : lookup "PS" PLASTIC_TYPES = Some PS.
Proof. reflexivity. Qed.

(** One call at 10 MW: the rate is capped by the reactor capacity. *)
Lemma processPyrolysis_PS_10MW (deltaTime : R) :
  p_rate (processPyrolysis PS 10 deltaTime) = 500 /\
  p_plastic (processPyrolysis PS 10 deltaTime) = 500 * (deltaTime / 3600) /\
  p_hydrogen (processPyrolysis PS 10 deltaTime)
    = 500 * (deltaTime / 3600) * 1000 * 95 * 2.016 / 1e6.
Proof.
  unfold processPyrolysis, CONSTANTS.PYROLYSIS_ENERGY, CONSTANTS.REACTOR_CAPACITY.
  cbn [p_rate p_plastic p_hydrogen h2_yield PS].
  rewrite Rmin_right by lra. repeat split; lra.
Qed.

Lemma capped_rate_10MW : Rmin (10000 / (450 / 3600)) 500 = 500.
Proof. apply Rmin_right. lra. Qed.

Lemma holdPower_PS_10MW (rs : list Draws) : forall s,
  700 < reactorTemp s ->
  let s' := holdPower PS 10 true s rs in
  selectedSpeed s' = selectedSpeed s /\
  700 < reactorTemp s' /\
  totalPlasticProcessed (production s') =
    totalPlasticProcessed (production s)
    + INR (length rs) * (500 * (60 * IZR (speedOf (selectedSpeed s)) / 3600)) /\
  hydrogen (production s') =
    hydrogen (production s)
    + INR (length rs) * (500 * (60 * IZR (speedOf (selectedSpeed s)) / 3600)
                         * 1000 * 95 * 2.016 / 1e6).
Proof.
  induction rs as [|r rs IH]; intros s Hhot.
  - cbn [holdPower length INR]. repeat split; try assumption; lra.
  - cbn [holdPower]. cbv zeta in IH |- *.
    set (s1 := tickWith PS 10 true s r).
    assert (Hspeed : selectedSpeed s1 = selectedSpeed s) by apply tickWith_selection.
    pose proof (speedOf_IZR_range (selectedSpeed s)) as Hm.
    assert (Hhot1 : 700 < reactorTemp s1).
    { unfold s1. rewrite tickWith_reactorTemp. unfold reactorUpdate.
      replace (gt 10 5) with true by (symmetry; apply gt_true; lra).
      cbn [andb PS optimal_temp].
      apply Rmin_glb_lt; [|lra].
      assert (0 < Rmin (2 * IZR (speedOf (selectedSpeed s)) / 10) (10 / 10))
        by (apply Rmin_glb_lt; lra).
      lra. }
    assert (Hprod : production s1 =
              addProducts (processPyrolysis PS 10 (60 * IZR (speedOf (selectedSpeed s))))
                          (production s)).
    { unfold s1. rewrite tickWith_production. unfold pyrolysisRuns, pyrolysisReady.
      replace (gt (reactorTemp s) (optimal_temp PS - 200)) with true
        by (symmetry; apply gt_true; cbn [PS optimal_temp]; lra).
      replace (gt 10 2) with true by (symmetry; apply gt_true; lra).
      reflexivity. }
    destruct (IH s1 Hhot1) as (IHs & IHt & IHp & IHh).
    destruct (processPyrolysis_PS_10MW (60 * IZR (speedOf (selectedSpeed s))))
      as (_ & Hpl & Hh2).
    rewrite IHs, IHp, IHh, Hspeed, Hprod.
    cbn [addProducts totalPlasticProcessed hydrogen]. rewrite Hpl, Hh2.
    change (length (r :: rs)) with (S (length rs)). rewrite S_INR.
    repeat split; try assumption; lra.
Qed.

(** C6.  Feedstock PS, reactor ready (above 900 - 200 = 700 degrees),
    thermal power held at 10 MW (the sun is then up), over ticks that add
    up to one simulated hour: the plastic processed is
    min (10000 / (450 / 3600), 500) * 1 kg and the hydrogen produced is
    that mass * 1000 * 95 * 2.016 / 1e6 kg. *)
Theorem polystyrene_hour_at_10MW (s : State) (rs : list Draws) :
  700 < reactorTemp s ->
  (Z.of_nat (length rs) * speedOf (selectedSpeed s) = 60)%Z ->
  totalPlasticProcessed (production (holdPower PS 10 true s rs))
    - totalPlasticProcessed (production s)
    = Rmin (10000 / (450 / 3600)) 500 * 1 /\
  hydrogen (production (holdPower PS 10 true s rs)) - hydrogen (production s)
    = (Rmin (10000 / (450 / 3600)) 500 * 1) * 1000 * 95 * 2.016 / 1e6 /\
  p_plastic (processPyrolysis PS 10 3600) = Rmin (10000 / (450 / 3600)) 500 * 1.
Proof.
  intros Hhot Hhour.
  destruct (holdPower_PS_10MW rs s Hhot) as (_ & _ & Hp & Hh).
  destruct (processPyrolysis_PS_10MW 3600) as (_ & Hone & _).
  assert (Hn : INR (length rs) * IZR (speedOf (selectedSpeed s)) = 60).
  { rewrite INR_IZR_INZ, <- mult_IZR, Hhour. reflexivity. }
  rewrite Hp, Hh, Hone, capped_rate_10MW.
  repeat split; nra.
Qed.

Lemma polystyrene_hour_at_10MW_witness :
  (700 < reactorTemp hotPolystyreneState /\
   (Z.of_nat (length (repeat calm 5)) * speedOf (selectedSpeed hotPolystyreneState)
    = 60)%Z) /\
  totalPlasticProcessed
    (production (holdPower PS 10 true hotPolystyreneState (repeat calm 5)))
    - totalPlasticProcessed (production hotPolystyreneState)
    = Rmin (10000 / (450 / 3600)) 500 * 1 /\
  hydrogen (production (holdPower PS 10 true hotPolystyreneState (repeat calm 5)))
    - hydrogen (production hotPolystyreneState)
    = (Rmin (10000 / (450 / 3600)) 500 * 1) * 1000 * 95 * 2.016 / 1e6 /\
  p_plastic (processPyrolysis PS 10 3600) = Rmin (10000 / (450 / 3600)) 500 * 1.
Proof.
  assert (H1 : 700 < reactorTemp hotPolystyreneState)
    by (cbn [reactorTemp hotPolystyreneState]; lra).
  assert (H2 : (Z.of_nat (length (repeat calm 5))
                * speedOf (selectedSpeed hotPolystyreneState) = 60)%Z)
    by reflexivity.
  split; [split; assumption|].
  apply (polystyrene_hour_at_10MW hotPolystyreneState (repeat calm 5) H1 H2).
Defined.

(** [holdPower] over one tick is the callback itself whenever the solar
    model yields that power and flag. *)
Lemma tick_is_holdPower (loc : option Location) (s : State) (r : Draws)
    (p : Plastic) (th : R) (day : bool) :
  lookup (selectedPlastic s) PLASTIC_TYPES = Some p ->
  tickThermalPower loc s = th -> isDaytime (tickSun loc s) = day ->
  tick loc s r = Ok (holdPower p th day s [r]).
Proof. intros Hp <- <-. apply tick_ok. exact Hp. Qed.

(** ** Readiness is read before the temperature update *)

Lemma production_when_not_running (p : Plastic) (th : R) (day : bool)
    (s : State) (r : Draws) :
  reactorTemp s <= optimal_temp p - 200 \/ th <= 2 ->
  production (tickWith p th day s r) = production s.
Proof.
  intros H. rewrite tickWith_production. unfold pyrolysisRuns, pyrolysisReady.
  destruct H as [H|H]; apply gt_false in H; rewrite H;
    [reflexivity | rewrite andb_false_r; reflexivity].
Qed.

Lemma flag_after_tick (p : Plastic) (th : R) (day : bool) (s : State) (r : Draws) :
  pyrolysisActive (tickWith p th day s r) = true
  <-> optimal_temp p - 200 < reactorTemp s.
Proof.
  rewrite tickWith_pyrolysisActive. unfold pyrolysisReady. apply gt_true.
Qed.

(** The products a tick adds when it runs pyrolysis, written out. *)
Lemma production_when_running (p : Plastic) (th : R) (day : bool)
    (s : State) (r : Draws) :
  optimal_temp p - 200 < reactorTemp s -> 2 < th ->
  totalPlasticProcessed (production (tickWith p th day s r))
    = totalPlasticProcessed (production s)
      + 500 * IZR (speedOf (selectedSpeed s)) / 60 /\
  hydrogen (production (tickWith p th day s r))
    = hydrogen (production s)
      + 500 * IZR (speedOf (selectedSpeed s)) / 60 * 1000 * h2_yield p * 2.016 / 1e6 /\
  carbon (production (tickWith p th day s r))
    = carbon (production s)
      + 500 * IZR (speedOf (selectedSpeed s)) / 60 * carbon_yield p /\
  wax (production (tickWith p th day s r))
    = wax (production s) + 500 * IZR (speedOf (selectedSpeed s)) / 60 * oil_yield p /\
  waste (production (tickWith p th day s r))
    = waste (production s)
      + 500 * IZR (speedOf (selectedSpeed s)) / 60 * gas_yield p.
Proof.
  intros Hhot Hth. rewrite tickWith_production.
  unfold pyrolysisRuns, pyrolysisReady.
  apply gt_true in Hhot. rewrite Hhot.
  replace (gt th 2) with true by (symmetry; apply gt_true; exact Hth).
  cbn [andb]. unfold processPyrolysis, CONSTANTS.PYROLYSIS_ENERGY,
    CONSTANTS.REACTOR_CAPACITY.
  cbn [addProducts totalPlasticProcessed hydrogen carbon wax waste
       p_plastic p_hydrogen p_carbon p_wax p_waste].
  rewrite Rmin_right by lra.
  repeat split; lra.
Qed.

(** C9 (as amended).  A tick sets [pyrolysisActive] and decides whether to
    produce from the reactor temperature as it was before the tick's own
    temperature update.  So a tick that starts at or below the threshold
    (optimal - 200) and heats the reactor past it adds nothing to the
    production totals and leaves the flag off.  The following tick turns
    the flag on; it adds 500 * multiplier / 60 kg of plastic, and the
    hydrogen, carbon, wax and waste of that mass, when its own thermal
    power exceeds 2 MW, and adds nothing otherwise. *)
Theorem crossing_tick_idle_next_tick_needs_power
    (loc : option Location) (s s' : State) (r : Draws) (p : Plastic) :
  lookup (selectedPlastic s) PLASTIC_TYPES = Some p ->
  tick loc s r = Ok s' ->
  reactorTemp s <= optimal_temp p - 200 ->
  optimal_temp p - 200 < reactorTemp s' ->
  pyrolysisActive s' = false /\
  production s' = production s /\
  forall (loc' : option Location) (r' : Draws),
    exists s'', tick loc' s' r' = Ok s'' /\
      pyrolysisActive s'' = true /\
      (2 < tickThermalPower loc' s' ->
       totalPlasticProcessed (production s'')
         = totalPlasticProcessed (production s')
           + 500 * IZR (speedOf (selectedSpeed s')) / 60 /\
       hydrogen (production s'')
         = hydrogen (production s')
           + 500 * IZR (speedOf (selectedSpeed s')) / 60
             * 1000 * h2_yield p * 2.016 / 1e6 /\
       carbon (production s'')
         = carbon (production s')
           + 500 * IZR (speedOf (selectedSpeed s')) / 60 * carbon_yield p /\
       wax (production s'')
         = wax (production s')
           + 500 * IZR (speedOf (selectedSpeed s')) / 60 * oil_yield p /\
       waste (production s'')
         = waste (production s')
           + 500 * IZR (speedOf (selectedSpeed s')) / 60 * gas_yield p) /\
      (tickThermalPower loc' s' <= 2 -> production s'' = production s').
Proof.
  intros Hp Htick Hcold Hhot.
  rewrite (tick_ok loc s r p Hp) in Htick. injection Htick as <-.
  set (s1 := tickWith p (tickThermalPower loc s) (isDaytime (tickSun loc s)) s r) in *.
  split.
  { destruct (pyrolysisActive s1) eqn:Hflag; [|reflexivity].
    apply flag_after_tick in Hflag. lra. }
  split; [apply production_when_not_running; left; exact Hcold|].
  intros loc' r'.
  assert (Hp1 : lookup (selectedPlastic s1) PLASTIC_TYPES = Some p).
  { unfold s1.
    destruct (tickWith_selection p (tickThermalPower loc s)
                (isDaytime (tickSun loc s)) s r) as (_ & -> & _).
    exact Hp. }
  eexists. split; [apply (tick_ok loc' s1 r' p Hp1)|].
  split; [apply flag_after_tick; exact Hhot|].
  split.
  - intros Hth. apply production_when_running; assumption.
  - intros Hth. apply production_when_not_running. right. exact Hth.
Qed.

Lemma almostReady_tick_sun :
  tickSun (lookup "Riyadh, Saudi Arabia" SOLAR_DATA) almostReadyState =
  calculateSunParameters (lookup "Riyadh, Saudi Arabia" SOLAR_DATA) 0 12 0 15.
Proof. reflexivity. Qed.

(** At noon the default field delivers more than 50 MW. *)
Lemma almostReady_thermalPower :
  50 < tickThermalPower (lookup "Riyadh, Saudi Arabia" SOLAR_DATA) almostReadyState.
Proof.
  unfold tickThermalPower. rewrite almostReady_tick_sun.
  pose proof (noon_clear_sky_dni_lower_bound "Riyadh, Saudi Arabia" 15) as Hd.
  unfold calculateThermalPower, CONSTANTS.HELIOSTAT_AREA,
    CONSTANTS.HELIOSTAT_EFFICIENCY, CONSTANTS.RECEIVER_EFFICIENCY.
  cbn [heliostats windSpeed almostReadyState operational].
  replace (gt 0 10) with false by (symmetry; apply gt_false; lra).
  unfold CONSTANTS.HELIOSTAT_COUNT. lra.
Qed.

Lemma almostReady_crosses :
  850 - 200 <
  reactorTemp (tickWith HDPE
    (tickThermalPower (lookup "Riyadh, Saudi Arabia" SOLAR_DATA) almostReadyState)
    (isDaytime (tickSun (lookup "Riyadh, Saudi Arabia" SOLAR_DATA) almostReadyState))
    almostReadyState calm).
Proof.
  pose proof almostReady_thermalPower as Hth.
  rewrite tickWith_reactorTemp, almostReady_tick_sun.
  pose proof (sunrise_range "Riyadh, Saudi Arabia" 15) as Hr.
  pose proof (sunset_range "Riyadh, Saudi Arabia" 15) as Hs.
  rewrite daytime_flag by lra.
  unfold reactorUpdate.
  replace (gt _ 5) with true by (symmetry; apply gt_true; lra).
  cbn [andb HDPE optimal_temp reactorTemp almostReadyState].
  replace (speedOf (selectedSpeed almostReadyState)) with 72%Z by reflexivity.
  apply Rmin_glb_lt; [|lra].
  assert (5 < Rmin (2 * 72 / 10)
                (tickThermalPower (lookup "Riyadh, Saudi Arabia" SOLAR_DATA)
                   almostReadyState / 10))
    by (apply Rmin_glb_lt; lra).
  lra.
Qed.

(** After the crossing tick the plant is at 12:00 with clear sky, no wind
    and the full field; the following tick lands at 13:12 with more than
    2 MW. *)
Lemma almostReady_next_power :
  2 < tickThermalPower (lookup "Riyadh, Saudi Arabia" SOLAR_DATA)
        (tickWith HDPE
           (tickThermalPower (lookup "Riyadh, Saudi Arabia" SOLAR_DATA) almostReadyState)
           (isDaytime (tickSun (lookup "Riyadh, Saudi Arabia" SOLAR_DATA)
                         almostReadyState))
           almostReadyState calm).
Proof.
  set (loc := lookup "Riyadh, Saudi Arabia" SOLAR_DATA).
  set (s1 := tickWith HDPE (tickThermalPower loc almostReadyState)
               (isDaytime (tickSun loc almostReadyState)) almostReadyState calm).
  destruct (tickWith_selection HDPE (tickThermalPower loc almostReadyState)
              (isDaytime (tickSun loc almostReadyState)) almostReadyState calm)
    as (_ & _ & Hs & _). fold s1 in Hs.
  pose proof (tickWith_weather HDPE (tickThermalPower loc almostReadyState)
                (isDaytime (tickSun loc almostReadyState)) almostReadyState calm)
    as Hw. fold s1 in Hw.
  replace (Z.rem (time almostReadyState) 6 =? 0)%Z with false in Hw by reflexivity.
  cbv iota in Hw.
  pose proof (f_equal fst Hw) as Hcloud. pose proof (f_equal snd Hw) as Hwind.
  cbn [fst snd] in Hcloud, Hwind.
  assert (Hfield : heliostats s1 = mkHeliostats 2127 0 0 0).
  { unfold s1. rewrite tickWith_heliostats.
    rewrite calm_equipment; [reflexivity|].
    pose proof (speedOf_IZR_range (selectedSpeed almostReadyState)). lra. }
  assert (Hclock : nextClock (speedOf (selectedSpeed s1)) (clockOf s1) = (13, 12)%Z).
  { rewrite Hs. unfold s1. rewrite tickWith_clock. reflexivity. }
  unfold tickThermalPower. rewrite tickSun_at_clock, Hclock, Hcloud, Hfield, Hwind.
  cbn [fst snd cloudCover windSpeed almostReadyState].
  destruct (riyadh_midday_dni 13 12 (IZR (dayOfYear (currentDate s1)))) as [_ Hd];
    [lra|].
  fold loc in Hd. pose proof (full_field_power _ Hd). lra.
Qed.

Lemma crossing_tick_idle_next_tick_needs_power_witness :
  exists s' s'',
    (lookup (selectedPlastic almostReadyState) PLASTIC_TYPES = Some HDPE /\
     tick (lookup "Riyadh, Saudi Arabia" SOLAR_DATA) almostReadyState calm = Ok s' /\
     reactorTemp almostReadyState <= optimal_temp HDPE - 200 /\
     optimal_temp HDPE - 200 < reactorTemp s') /\
    pyrolysisActive s' = false /\
    production s' = production almostReadyState /\
    tick (lookup "Riyadh, Saudi Arabia" SOLAR_DATA) s' calm = Ok s'' /\
    pyrolysisActive s'' = true /\
    totalPlasticProcessed (production s'') = 600 /\
    hydrogen (production s'') = 600 * 1000 * 168 * 2.016 / 1e6.
Proof.
  assert (H1 : lookup (selectedPlastic almostReadyState) PLASTIC_TYPES = Some HDPE)
    by reflexivity.
  assert (H3 : reactorTemp almostReadyState <= optimal_temp HDPE - 200)
    by (cbn [reactorTemp almostReadyState optimal_temp HDPE]; lra).
  assert (H2 := tick_ok (lookup "Riyadh, Saudi Arabia" SOLAR_DATA)
                  almostReadyState calm HDPE H1).
  assert (H4 := almostReady_crosses).
  destruct (crossing_tick_idle_next_tick_needs_power
              (lookup "Riyadh, Saudi Arabia" SOLAR_DATA) almostReadyState _ calm HDPE
              H1 H2 H3 H4) as (Hflag & Hprod & Hnext).
  destruct (Hnext (lookup "Riyadh, Saudi Arabia" SOLAR_DATA) calm)
    as (s'' & Ht & Hflag' & Hrun & _).
  destruct (Hrun almostReady_next_power) as (Hpl & Hh & _).
  eexists. exists s''.
  split; [split; [exact H1 | split; [exact H2 | split; [exact H3 | exact H4]]]|].
  split; [exact Hflag|]. split; [exact Hprod|]. split; [exact Ht|].
  split; [exact Hflag'|].
  rewrite Hpl, Hh, Hprod.
  destruct (tickWith_selection HDPE
              (tickThermalPower (lookup "Riyadh, Saudi Arabia" SOLAR_DATA)
                 almostReadyState)
              (isDaytime (tickSun (lookup "Riyadh, Saudi Arabia" SOLAR_DATA)
                 almostReadyState))
              almostReadyState calm) as (_ & _ & -> & _).
  replace (speedOf (selectedSpeed almostReadyState)) with 72%Z by reflexivity.
  cbn [production almostReadyState zeroProduction totalPlasticProcessed hydrogen
       h2_yield HDPE].
  split; lra.
Defined.

(** *** A crossing tick followed by a tick after sunset *)

Lemma riyadh_sunset_february :
  sunsetAt (lookup "Riyadh, Saudi Arabia" SOLAR_DATA) 32 < 17.8.
Proof.
  unfold sunsetAt. rewrite riyadh_latitudeFactor. unfold seasonalOffset.
  rewrite orElse_nonzero by lra.
  replace ((32 - 81) / 365 * 2 * PI) with (- (98 / 365 * PI)) by lra.
  rewrite sin_neg.
  pose proof (half_sine_at_least_half (98 / 365) ltac:(lra)). lra.
Qed.

(** C9, counterexample.  HDPE at the "Extreme" preset, 1 February, 13:00,
    reactor at 649 degrees (threshold 650).  The tick that lands at 15:24
    heats the reactor past the threshold and produces nothing.  The
    following tick lands at 17:48, after sunset: the flag is on, the
    thermal power is 0 and still nothing is produced. *)
Lemma no_production_on_tick_after_crossing :
  exists s' s'',
    tick (lookup "Riyadh, Saudi Arabia" SOLAR_DATA) beforeSunsetState calm = Ok s' /\
    reactorTemp beforeSunsetState <= optimal_temp HDPE - 200 /\
    optimal_temp HDPE - 200 < reactorTemp s' /\
    clockOf s' = (15, 24)%Z /\
    production s' = production beforeSunsetState /\
    tick (lookup "Riyadh, Saudi Arabia" SOLAR_DATA) s' calm = Ok s'' /\
    clockOf s'' = (17, 48)%Z /\
    pyrolysisActive s'' = true /\
    production s'' = production beforeSunsetState.
Proof.
  set (loc := lookup "Riyadh, Saudi Arabia" SOLAR_DATA).
  set (s0 := beforeSunsetState).
  set (s1 := tickWith HDPE (tickThermalPower loc s0) (isDaytime (tickSun loc s0))
               s0 calm).
  set (s2 := tickWith HDPE (tickThermalPower loc s1) (isDaytime (tickSun loc s1))
               s1 calm).
  assert (Hp0 : lookup (selectedPlastic s0) PLASTIC_TYPES = Some HDPE) by reflexivity.
  destruct (tickWith_selection HDPE (tickThermalPower loc s0)
              (isDaytime (tickSun loc s0)) s0 calm) as (_ & Hpl1 & Hsp1 & _).
  fold s1 in Hpl1, Hsp1.
  assert (Hp1 : lookup (selectedPlastic s1) PLASTIC_TYPES = Some HDPE)
    by (rewrite Hpl1; exact Hp0).
  assert (Hm1 : speedOf (selectedSpeed s1) = 144%Z) by (rewrite Hsp1; reflexivity).
  assert (Hclock1 : clockOf s1 = (15, 24)%Z)
    by (unfold s1; rewrite tickWith_clock; reflexivity).
  (* the first tick: daylight, more than 24 MW *)
  assert (Hsun0 : isDaytime (tickSun loc s0) = true /\ 24 <= tickThermalPower loc s0).
  { unfold tickThermalPower. rewrite tickSun_at_clock.
    replace (nextClock (speedOf (selectedSpeed s0)) (clockOf s0)) with (15, 24)%Z
      by reflexivity.
    cbn [fst snd cloudCover windSpeed heliostats s0 beforeSunsetState].
    destruct (riyadh_midday_dni 15 24
                (IZR (dayOfYear (currentDate beforeSunsetState)))) as [Hd Hdni];
      [lra|].
    fold loc in Hd, Hdni. split; [exact Hd|].
    apply full_field_power. exact Hdni. }
  destruct Hsun0 as [Hday0 Hth0].
  assert (Hhot : optimal_temp HDPE - 200 < reactorTemp s1).
  { unfold s1. rewrite tickWith_reactorTemp, Hday0. unfold reactorUpdate.
    replace (gt (tickThermalPower loc s0) 5) with true
      by (symmetry; apply gt_true; lra).
    cbn [andb optimal_temp HDPE reactorTemp s0 beforeSunsetState].
    replace (speedOf (selectedSpeed s0)) with 144%Z by reflexivity.
    apply Rmin_glb_lt; [|lra].
    assert (2 < Rmin (2 * 144 / 10) (tickThermalPower loc s0 / 10))
      by (apply Rmin_glb_lt; lra).
    lra. }
  (* the second tick: after sunset *)
  assert (Hdate1 : currentDate s1 = mkDate 2026 32).
  { unfold s1. rewrite tickWith_currentDate.
    replace (isRolloverTick s0) with false by reflexivity. reflexivity. }
  assert (Hnight : tickSun loc s1 = mkSun 0 0 false None None).
  { rewrite tickSun_at_clock, Hm1, Hclock1, Hdate1.
    replace (nextClock 144 (15, 24)%Z) with (17, 48)%Z by reflexivity.
    cbn [fst snd dayOfYear yday].
    apply night_after_sunset. pose proof riyadh_sunset_february as Hs.
    fold loc in Hs. lra. }
  assert (Hth1 : tickThermalPower loc s1 = 0).
  { unfold tickThermalPower. rewrite Hnight. cbn [sun_dni].
    apply thermalPower_zero_dni. }
  assert (Hprod1 : production s1 = production s0).
  { unfold s1. apply production_when_not_running. left.
    cbn [reactorTemp s0 beforeSunsetState optimal_temp HDPE]. lra. }
  exists s1, s2.
  split; [apply (tick_ok loc s0 calm HDPE Hp0)|].
  split; [unfold s0; cbn [reactorTemp beforeSunsetState optimal_temp HDPE]; lra|].
  split; [exact Hhot|]. split; [exact Hclock1|]. split; [exact Hprod1|].
  split; [apply (tick_ok loc s1 calm HDPE Hp1)|].
  split; [unfold s2; rewrite tickWith_clock, Hm1, Hclock1; reflexivity|].
  split; [unfold s2; apply flag_after_tick; exact Hhot|].
  rewrite <- Hprod1. unfold s2. apply production_when_not_running. right.
  rewrite Hth1. lra.
Qed.

(** ** Day rollover *)

(** A tick that crosses midnight lands between 00:00 and 02:59. *)
Lemma rollover_clock (h m k hb fm : Z) :
  (0 <= h < 24)%Z -> (0 <= m < 60)%Z -> (1 <= k <= 144)%Z ->
  advanceClock h m k = (hb, fm) -> dayRollover hb = true ->
  (0 <= Z.rem hb 24 <= 2)%Z /\ (0 <= fm < 60)%Z.
Proof.
  intros Hh Hm Hk Hadv Hroll. unfold advanceClock in Hadv.
  rewrite orElseZ_zero in Hadv. unfold dayRollover in Hroll.
  apply Z.geb_le in Hroll.
  destruct (m + k >=? 60)%Z eqn:Hge.
  - injection Hadv as <- <-.
    assert (Hq : (1 <= (m + k) / 60 < 4)%Z).
    { split.
      - apply Z.div_le_lower_bound; lia.
      - apply Z.div_lt_upper_bound; lia. }
    rewrite !Z.rem_mod_nonneg by lia.
    pose proof (Z.mod_pos_bound (m + k) 60 ltac:(lia)).
    split; [|lia].
    replace ((h + (m + k) / 60) mod 24)%Z with (h + (m + k) / 60 - 24)%Z; [lia|].
    apply Z.mod_unique with (q := 1%Z); lia.
  - injection Hadv as <- <-. lia.
Qed.

(** Hence it runs at night: no sun, no thermal power. *)
Lemma rollover_tick_is_dark (k : string) (s : State) :
  (0 <= currentHour s < 24)%Z -> (0 <= currentMinute s < 60)%Z ->
  isRolloverTick s = true ->
  tickThermalPower (lookup k SOLAR_DATA) s = 0 /\
  isDaytime (tickSun (lookup k SOLAR_DATA) s) = false.
Proof.
  intros Hh Hm Hroll.
  unfold tickThermalPower, tickSun. unfold isRolloverTick in Hroll.
  destruct (advanceClock (currentHour s) (currentMinute s)
              (speedOf (selectedSpeed s))) as [hb fm] eqn:Hadv.
  cbn [fst] in Hroll. rewrite Hroll.
  destruct (rollover_clock _ _ _ _ _ Hh Hm (speedOf_range _) Hadv Hroll)
    as [[Hh0 Hh2] [Hm0 Hm60]].
  apply IZR_le in Hh0, Hh2, Hm0. apply IZR_lt in Hm60.
  pose proof (sunrise_range k (IZR (dayOfYear (currentDate s)))) as Hr.
  rewrite night_before_sunrise by lra.
  cbn [sun_dni isDaytime]. split; [apply thermalPower_zero_dni | reflexivity].
Qed.

(** The state after a tick that crosses midnight. *)
Lemma rollover_tick (k : string) (s : State) (r : Draws) (p : Plastic) :
  lookup (selectedPlastic s) PLASTIC_TYPES = Some p ->
  (0 <= currentHour s < 24)%Z -> (0 <= currentMinute s < 60)%Z ->
  isRolloverTick s = true ->
  exists s', tick (lookup k SOLAR_DATA) s r = Ok s' /\
    energyCollected (dailyStats s') = 0 /\
    plasticProcessed (dailyStats s') = 0 /\
    hydrogenProduced (dailyStats s') = 0 /\
    carbonProduced (dailyStats s') = 0 /\
    heatLoss (dailyStats s') =
      heatLossIncrement (speedOf (selectedSpeed s)) (saltHotTemp s) /\
    production s' = production s /\
    currentDate s' = addDay (currentDate s).
Proof.
  intros Hp Hh Hm Hroll.
  destruct (rollover_tick_is_dark k s Hh Hm Hroll) as [Hth Hday].
  eexists. split; [apply tick_ok; exact Hp|].
  rewrite tickWith_dailyStats, tickWith_production, tickWith_currentDate, Hth.
  unfold pyrolysisRuns.
  replace (gt 0 2) with false by (symmetry; apply gt_false; lra).
  rewrite andb_false_r. unfold dailyBase. rewrite Hroll.
  cbn [addHeatLoss zeroDailyStats energyCollected plasticProcessed hydrogenProduced
       carbonProduced heatLoss].
  repeat split; try reflexivity. lra.
Qed.

Lemma heatLossIncrement_pos (m : Z) (hot : R) :
  (1 <= m)%Z -> 20 < hot -> 0 < heatLossIncrement m hot.
Proof.
  intros Hm Hhot. apply IZR_le in Hm.
  unfold heatLossIncrement, CONSTANTS.HEAT_LOSS_PER_HOUR. nra.
Qed.

(** C7 (as amended).  On a tick that crosses midnight (clock in range,
    feedstock and location from the catalogs or the location fallback) the
    daily statistics restart from zero and then receive that tick's own
    heat loss: energy collected, plastic processed, hydrogen and carbon
    produced are 0 and the heat loss equals the tick's increment, which is
    positive when the hot salt is above 20 degrees.  The production totals
    are exactly those before the tick and the date moves on by one day. *)
Theorem day_rollover_restarts_daily_stats
    (k : string) (s : State) (r : Draws) (p : Plastic) :
  lookup (selectedPlastic s) PLASTIC_TYPES = Some p ->
  (0 <= currentHour s < 24)%Z -> (0 <= currentMinute s < 60)%Z ->
  isRolloverTick s = true ->
  exists s', tick (lookup k SOLAR_DATA) s r = Ok s' /\
    energyCollected (dailyStats s') = 0 /\
    plasticProcessed (dailyStats s') = 0 /\
    hydrogenProduced (dailyStats s') = 0 /\
    carbonProduced (dailyStats s') = 0 /\
    heatLoss (dailyStats s') =
      heatLossIncrement (speedOf (selectedSpeed s)) (saltHotTemp s) /\
    (20 < saltHotTemp s -> 0 < heatLoss (dailyStats s')) /\
    production s' = production s /\
    currentDate s' = addDay (currentDate s).
Proof.
  intros Hp Hh Hm Hroll.
  destruct (rollover_tick k s r p Hp Hh Hm Hroll)
    as (s' & Ht & He & Hpl & Hhy & Hc & Hl & Hprod & Hd).
  exists s'. repeat split; try assumption.
  intros Hhot. rewrite Hl. apply heatLossIncrement_pos; [|exact Hhot].
  apply speedOf_range.
Qed.

Lemma day_rollover_restarts_daily_stats_witness :
  (lookup (selectedPlastic lateEveningState) PLASTIC_TYPES = Some HDPE /\
   (0 <= currentHour lateEveningState < 24)%Z /\
   (0 <= currentMinute lateEveningState < 60)%Z /\
   isRolloverTick lateEveningState = true) /\
  exists s',
    tick (lookup "Riyadh, Saudi Arabia" SOLAR_DATA) lateEveningState calm = Ok s' /\
    energyCollected (dailyStats s') = 0 /\
    plasticProcessed (dailyStats s') = 0 /\
    hydrogenProduced (dailyStats s') = 0 /\
    carbonProduced (dailyStats s') = 0 /\
    heatLoss (dailyStats s') =
      heatLossIncrement (speedOf (selectedSpeed lateEveningState))
        (saltHotTemp lateEveningState) /\
    (20 < saltHotTemp lateEveningState -> 0 < heatLoss (dailyStats s')) /\
    production s' = production lateEveningState /\
    currentDate s' = addDay (currentDate lateEveningState).
Proof.
  assert (H1 : lookup (selectedPlastic lateEveningState) PLASTIC_TYPES = Some HDPE)
    by reflexivity.
  assert (H2 : (0 <= currentHour lateEveningState < 24)%Z)
    by (cbn [currentHour lateEveningState]; lia).
  assert (H3 : (0 <= currentMinute lateEveningState < 60)%Z)
    by (cbn [currentMinute lateEveningState]; lia).
  assert (H4 : isRolloverTick lateEveningState = true) by reflexivity.
  split; [repeat split; assumption || apply H2 || apply H3|].
  apply (day_rollover_restarts_daily_stats
           "Riyadh, Saudi Arabia" lateEveningState calm HDPE H1 H2 H3 H4).
Defined.

(** The clock of every reachable state is normalised. *)
Lemma nextClock_in_range (k h m : Z) :
  (1 <= k <= 144)%Z -> (0 <= h < 24)%Z -> (0 <= m < 60)%Z ->
  (0 <= fst (nextClock k (h, m)) < 24)%Z /\ (0 <= snd (nextClock k (h, m)) < 60)%Z.
Proof.
  intros Hk Hh Hm. unfold nextClock. cbn [fst snd].
  destruct (advanceClock h m k) as [hb fm] eqn:Hadv.
  destruct (dayRollover hb) eqn:Hroll.
  - destruct (rollover_clock h m k hb fm Hh Hm Hk Hadv Hroll). cbn [fst snd]. lia.
  - unfold dayRollover in Hroll. rewrite Z.geb_leb in Hroll. apply Z.leb_gt in Hroll.
    unfold advanceClock in Hadv. rewrite orElseZ_zero in Hadv.
    destruct (m + k >=? 60)%Z eqn:Hge.
    + injection Hadv as <- <-. cbn [fst snd].
      rewrite Z.rem_mod_nonneg by lia.
      pose proof (Z.mod_pos_bound (m + k) 60 ltac:(lia)).
      assert (0 <= (m + k) / 60)%Z by (apply Z.div_pos; lia). lia.
    + injection Hadv as <- <-. cbn [fst snd].
      rewrite Z.geb_leb in Hge. apply Z.leb_gt in Hge. lia.
Qed.

Lemma clock_in_range (s : State) :
  reachable s ->
  (0 <= currentHour s < 24)%Z /\ (0 <= currentMinute s < 60)%Z.
Proof.
  revert s. apply reachable_ind; try (intros; assumption).
  - cbn [initialState currentHour currentMinute]. lia.
  - intros p th day s r _ [Hh Hm].
    pose proof (tickWith_clock p th day s r) as Hc.
    pose proof (nextClock_in_range (speedOf (selectedSpeed s))
                  (currentHour s) (currentMinute s)
                  (speedOf_range _) Hh Hm) as Hn.
    unfold clockOf in Hc. rewrite <- Hc in Hn. exact Hn.
  - intros s _. cbn [reset currentHour currentMinute]. lia.
Qed.

Lemma saltHotUpdate_floor (m : Z) (th : R) (day : bool) (prev : R) :
  0 <= IZR m -> 290 <= prev -> 290 <= saltHotUpdate m th day prev.
Proof.
  intros Hm Hprev. unfold saltHotUpdate, CONSTANTS.SALT_TEMP_HOT,
    CONSTANTS.SALT_TEMP_COLD.
  destruct (gt th 3 && day); [apply Rmin_glb; lra | apply Rmax_r].
Qed.

Lemma saltHot_floor (s : State) : reachable s -> 290 <= saltHotTemp s.
Proof.
  revert s. apply reachable_ind; try (intros; assumption).
  - cbn [initialState saltHotTemp]. lra.
  - intros p th day s r _ H. rewrite tickWith_saltHotTemp.
    apply saltHotUpdate_floor; [|exact H].
    pose proof (speedOf_IZR_range (selectedSpeed s)). lra.
  - intros s _. cbn [reset saltHotTemp]. lra.
Qed.

(** C7, counterexample.  From the initial state, START and fourteen ticks
    at the default speed reach 22:48; the fifteenth tick crosses midnight
    and ends with a positive daily heat loss, not 0. *)
Lemma heat_loss_positive_after_rollover_tick :
  exists a14 a15,
    run initialApp (StartStop :: repeat (Tick calm) 14) = Ok a14 /\
    clockOf (st a14) = (22, 48)%Z /\
    isRolloverTick (st a14) = true /\
    step a14 (Tick calm) = Ok a15 /\
    clockOf (st a15) = (0, 0)%Z /\
    0 < heatLoss (dailyStats (st a15)) /\
    heatLoss (dailyStats (st a15)) <> 0.
Proof.
  set (a1 := commit initialApp (toggleRunning initialState)).
  assert (Hst : st a1 = toggleRunning initialState) by apply st_commit.
  assert (Hrun1 : isRunning (st a1) = true) by (rewrite Hst; reflexivity).
  assert (Hp1 : lookup (selectedPlastic (st a1)) PLASTIC_TYPES = Some HDPE)
    by (rewrite Hst; reflexivity).
  destruct (run_ticks calm 14 a1 HDPE Hrun1 Hp1)
    as (a14 & Hrun & Hrun14 & Hpl14 & Hsp14 & _ & Hclock).
  assert (Hall : run initialApp (StartStop :: repeat (Tick calm) 14) = Ok a14).
  { cbn [run]. rewrite started_app. exact Hrun. }
  assert (Hc14 : clockOf (st a14) = (22, 48)%Z).
  { rewrite Hclock, Hst. reflexivity. }
  assert (Hspeed : speedOf (selectedSpeed (st a14)) = 72%Z).
  { rewrite Hsp14, Hst. reflexivity. }
  assert (Hh : currentHour (st a14) = 22%Z) by (injection Hc14; auto).
  assert (Hm : currentMinute (st a14) = 48%Z) by (injection Hc14; auto).
  assert (Hroll : isRolloverTick (st a14) = true).
  { unfold isRolloverTick. rewrite Hh, Hm, Hspeed. reflexivity. }
  assert (Hp14 : lookup (selectedPlastic (st a14)) PLASTIC_TYPES = Some HDPE)
    by (rewrite Hpl14; exact Hp1).
  pose proof (saltHot_floor (st a14) (reachable_after _ _ Hall)) as Hhot.
  destruct (rollover_tick (capturedLocation a14) (st a14) calm HDPE Hp14)
    as (s15 & Ht & _ & _ & _ & _ & Hloss & _); [lia | lia | exact Hroll |].
  exists a14, (commit a14 s15).
  split; [exact Hall|]. split; [exact Hc14|]. split; [exact Hroll|].
  split; [unfold step; rewrite Hrun14, Ht; reflexivity|].
  rewrite st_commit.
  assert (Hpos : 0 < heatLoss (dailyStats s15)).
  { rewrite Hloss. apply heatLossIncrement_pos; [rewrite Hspeed; lia | lra]. }
  split; [|split; [exact Hpos | lra]].
  rewrite (tick_ok _ _ _ HDPE Hp14) in Ht. injection Ht as <-.
  rewrite tickWith_clock. unfold clockOf. rewrite Hh, Hm, Hspeed. reflexivity.
Qed.

(** ** RESET *)

Lemma tickWith_calendar (p : Plastic) (th : R) (day : bool) (s : State) (r : Draws) :
  calendarOf (tickWith p th day s r) =
  nextCalendar (speedOf (selectedSpeed s)) (calendarOf s).
Proof.
  unfold calendarOf, nextCalendar. cbn [fst snd].
  rewrite tickWith_clock, tickWith_currentDate. reflexivity.
Qed.

Lemma run_ticks_calendar (r : Draws) (n : nat) : forall (a a' : App),
  isRunning (st a) = true ->
  run a (repeat (Tick r) n) = Ok a' ->
  calendarOf (st a') =
  Nat.iter n (nextCalendar (speedOf (selectedSpeed (st a)))) (calendarOf (st a)).
Proof.
  induction n as [|n IH]; intros a a' Hrun Hok.
  - injection Hok as <-. reflexivity.
  - cbn [repeat run] in Hok.
    destruct (step a (Tick r)) as [a1| |] eqn:Hs; [|discriminate|discriminate].
    pose proof (step_state a a1 (Tick r) Hs) as Hst. cbv beta iota in Hst.
    rewrite Hrun in Hst. destruct Hst as (p & Hp & Hst).
    pose proof (tickWith_selection p
                  (tickThermalPower (lookup (capturedLocation a) SOLAR_DATA) (st a))
                  (isDaytime (tickSun (lookup (capturedLocation a) SOLAR_DATA) (st a)))
                  (st a) r) as (_ & _ & Hss & Hsr).
    rewrite <- Hst in Hss, Hsr.
    rewrite (IH a1 a') by congruence.
    rewrite Nat.iter_succ_r, Hss, Hst, tickWith_calendar. reflexivity.
Qed.

Lemma reset_fields (s : State) :
  (time (reset s) = 0%Z /\ currentHour (reset s) = 6%Z /\ currentMinute (reset s) = 0%Z /\
   reactorTemp (reset s) = 290 /\ saltHotTemp (reset s) = 420 /\
   saltColdTemp (reset s) = 290 /\ cloudCover (reset s) = 0 /\ windSpeed (reset s) = 0 /\
   production (reset s) = zeroProduction /\ dailyStats (reset s) = zeroDailyStats) /\
  (heliostats (reset s) = heliostats s /\
   pyrolysisActive (reset s) = pyrolysisActive s /\
   currentDate (reset s) = currentDate s /\
   isRunning (reset s) = isRunning s).
Proof. repeat split. Qed.

(** C2, the code at a failing input.  RESET restores the clock, the
    temperatures, the weather, the production totals and the daily
    statistics, but keeps the heliostat field, the [pyrolysisActive] flag
    and the date of the state it is applied to.  After START, fifteen ticks
    that each draw a heliostat fault, and RESET, the field still shows 2112
    operational and 15 faulty heliostats and the date is 16 January 2026,
    while the clock is back at 06:00. *)
Theorem reset_keeps_field_flag_and_date :
  (forall s : State,
     heliostats (reset s) = heliostats s /\
     pyrolysisActive (reset s) = pyrolysisActive s /\
     currentDate (reset s) = currentDate s) /\
  exists a,
    run initialApp (StartStop :: repeat (Tick faultDraw) 15 ++ [ResetClick]) = Ok a /\
    clockOf (st a) = (6, 0)%Z /\
    operational (heliostats (st a)) = 2112%Z /\
    faulty (heliostats (st a)) = 15%Z /\
    heliostats (st a) <> heliostats initialState /\
    currentDate (st a) = mkDate 2026 16 /\
    currentDate (st a) <> currentDate initialState.
Proof.
  split; [intros s; repeat split|].
  set (a1 := commit initialApp (toggleRunning initialState)).
  assert (Hst : st a1 = toggleRunning initialState) by apply st_commit.
  assert (Hrun1 : isRunning (st a1) = true) by (rewrite Hst; reflexivity).
  assert (Hp1 : lookup (selectedPlastic (st a1)) PLASTIC_TYPES = Some HDPE)
    by (rewrite Hst; reflexivity).
  destruct (run_ticks faultDraw 15 a1 HDPE Hrun1 Hp1)
    as (a15 & Hrun & _ & _ & _ & Hh & _).
  pose proof (run_ticks_calendar faultDraw 15 a1 a15 Hrun1 Hrun) as Hcal.
  assert (Hdate : currentDate (st a15) = mkDate 2026 16).
  { change (currentDate (st a15)) with (fst (calendarOf (st a15))).
    rewrite Hcal, Hst. reflexivity. }
  assert (Hfield : heliostats (st a15) = mkHeliostats 2112 0 0 15).
  { rewrite Hh, Hst.
    replace (speedOf (selectedSpeed (toggleRunning initialState))) with 72%Z
      by reflexivity.
    assert (Hiter : forall n h,
              Nat.iter n (equipmentUpdate faultDraw 72) h = Nat.iter n heliostatFault h).
    { induction n as [|n IHn]; intros h; [reflexivity|].
      rewrite !Nat.iter_succ, faultDraw_step, IHn. reflexivity. }
    rewrite Hiter. reflexivity. }
  exists (commit a15 (reset (st a15))).
  split.
  - cbn [run]. rewrite started_app. fold a1. rewrite run_app, Hrun. reflexivity.
  - rewrite st_commit.
    destruct (reset_fields (st a15)) as [_ (Hkeep & _ & Hd & _)].
    rewrite Hkeep, Hd, Hfield, Hdate.
    repeat split; try reflexivity; discriminate.
Qed.

(** ** Unknown catalog keys *)

Lemma fallback_sun (c h m d : R) :
  calculateSunParameters None c h m d =
  calculateSunParameters (Some fallbackLocation) c h m d.
Proof.
  assert (Hlat : latOr (Some fallbackLocation) 0 = latOr None 0)
    by (cbn [latOr fallbackLocation lat]; apply orElse_zero).
  assert (Hdni : dniOr (Some fallbackLocation) 6.0 = dniOr None 6.0).
  { cbn [dniOr fallbackLocation dni]. unfold orElse.
    destruct (Req_dec_T 6.0 0); reflexivity. }
  unfold calculateSunParameters, sunriseAt, sunsetAt, latitudeFactor.
  rewrite Hlat, Hdni. reflexivity.
Qed.

Lemma entryOf_missing {A : Type} (k : string) (obj : list (string * A)) :
  entryOf k obj = Missing -> lookup k obj = None.
Proof.
  unfold entryOf. destruct (lookup k obj); [discriminate | reflexivity].
Qed.

Lemma fallback_speed (ks : string) :
  lookup ks SPEED_OPTIONS = None -> speedOf ks = 72%Z.
Proof. intros H. unfold speedOf. rewrite H. reflexivity. Qed.

(** C3 (as amended).  Nothing validates a selected key and no
    configuration error exists.  A location or feedstock key that resolves
    to [undefined] makes the render that follows the selection throw a
    TypeError (on [locationData.dni], on [plasticData.description]), so no
    tick runs with it.  A speed key that resolves to [undefined] raises
    nothing: the selection is stored and every following tick silently
    advances the clock by the default multiplier 72.  The solar model
    itself does not fail on an [undefined] location either: it computes
    with DNI 6.0 and latitude 0. *)
Theorem unknown_keys_throw_at_render_or_default
    (a : App) (kl ks kp : string) (p : Plastic) :
  entryOf kl SOLAR_DATA = Missing ->
  entryOf ks SPEED_OPTIONS = Missing ->
  entryOf kp PLASTIC_TYPES = Missing ->
  isRunning (st a) = true ->
  lookup (selectedPlastic (st a)) PLASTIC_TYPES = Some p ->
  step a (SelectLocation kl) = Throw (TypeError "locationData.dni") /\
  step a (SelectPlastic kp) = Throw (TypeError "plasticData.description") /\
  (exists a1,
     step a (SelectSpeed ks) = Ok a1 /\
     selectedSpeed (st a1) = ks /\
     speedOf ks = 72%Z /\
     forall r, exists a2,
       step a1 (Tick r) = Ok a2 /\
       clockOf (st a2) = nextClock 72 (clockOf (st a))) /\
  (forall c h m d,
     calculateSunParameters None c h m d =
     calculateSunParameters (Some fallbackLocation) c h m d).
Proof.
  intros Hl Hs Hp Hrun Hplastic.
  split; [unfold step; rewrite Hl; reflexivity|].
  split; [unfold step; rewrite Hp; reflexivity|].
  split; [|apply fallback_sun].
  pose proof (fallback_speed ks (entryOf_missing _ _ Hs)) as H72.
  set (s1 := setSelectedSpeed ks (st a)).
  exists (commit a s1).
  split; [unfold step; rewrite Hs; reflexivity|].
  rewrite st_commit. split; [reflexivity|]. split; [exact H72|].
  intros r. unfold step. rewrite st_commit.
  replace (isRunning s1) with true by (symmetry; exact Hrun).
  assert (Hp1 : lookup (selectedPlastic s1) PLASTIC_TYPES = Some p) by exact Hplastic.
  rewrite (tick_ok _ s1 r p Hp1).
  eexists. split; [reflexivity|].
  rewrite st_commit, tickWith_clock.
  replace (speedOf (selectedSpeed s1)) with 72%Z by (symmetry; exact H72).
  reflexivity.
Qed.

Lemma unknown_keys_throw_at_render_or_default_witness :
  (entryOf "Atlantis" SOLAR_DATA = Missing /\
   entryOf "Warp" SPEED_OPTIONS = Missing /\
   entryOf "PVC" PLASTIC_TYPES = Missing /\
   isRunning (st startedApp) = true /\
   lookup (selectedPlastic (st startedApp)) PLASTIC_TYPES = Some HDPE) /\
  step startedApp (SelectLocation "Atlantis") = Throw (TypeError "locationData.dni") /\
  step startedApp (SelectPlastic "PVC") = Throw (TypeError "plasticData.description") /\
  (exists a1,
     step startedApp (SelectSpeed "Warp") = Ok a1 /\
     selectedSpeed (st a1) = "Warp" /\
     speedOf "Warp" = 72%Z /\
     forall r, exists a2,
       step a1 (Tick r) = Ok a2 /\
       clockOf (st a2) = nextClock 72 (clockOf (st startedApp))) /\
  (forall c h m d,
     calculateSunParameters None c h m d =
     calculateSunParameters (Some fallbackLocation) c h m d).
Proof.
  assert (H4 : isRunning (st startedApp) = true)
    by (unfold startedApp; rewrite st_commit; reflexivity).
  assert (H5 : lookup (selectedPlastic (st startedApp)) PLASTIC_TYPES = Some HDPE)
    by (unfold startedApp; rewrite st_commit; reflexivity).
  split; [repeat split; assumption || reflexivity|].
  exact (unknown_keys_throw_at_render_or_default startedApp
           "Atlantis" "Warp" "PVC" HDPE eq_refl eq_refl eq_refl H4 H5).
Defined.

(** C3, counterexample.  The "Extreme" preset (144) is selected, then the
    speed key "Warp", which is in no catalog; START and one tick follow.
    Nothing throws, "Warp" stays selected, and the tick has advanced the
    clock from 06:00 to 07:12: the engine has put the default multiplier
    72 in the place of the missing entry. *)
Lemma unknown_speed_key_runs_on_default :
  entryOf "Warp" SPEED_OPTIONS = Missing /\
  exists a,
    run initialApp [SelectSpeed "Extreme (1 day = 10 min)"; SelectSpeed "Warp";
                    StartStop; Tick calm] = Ok a /\
    selectedSpeed (st a) = "Warp" /\
    clockOf (st a) = (7, 12)%Z.
Proof.
  split; [reflexivity|].
  set (s1 := setSelectedSpeed "Extreme (1 day = 10 min)" initialState).
  set (s2 := setSelectedSpeed "Warp" s1).
  set (s3 := toggleRunning s2).
  set (a3 := commit (commit (commit initialApp s1) s2) s3).
  assert (Hst3 : st a3 = s3) by apply st_commit.
  set (loc := lookup (capturedLocation a3) SOLAR_DATA).
  set (s4 := tickWith HDPE (tickThermalPower loc s3) (isDaytime (tickSun loc s3))
               s3 calm).
  exists (commit a3 s4).
  split; [|split].
  - cbn [run]. unfold step.
    replace (entryOf "Extreme (1 day = 10 min)" SPEED_OPTIONS) with Own
      by reflexivity.
    replace (entryOf "Warp" SPEED_OPTIONS) with Missing by reflexivity.
    cbn [st initialApp]. fold s1. rewrite !st_commit. fold s2. fold s3. fold a3.
    replace (isRunning s3) with true by reflexivity.
    fold loc. rewrite (tick_ok loc s3 calm HDPE eq_refl). reflexivity.
  - rewrite st_commit. unfold s4.
    destruct (tickWith_selection HDPE (tickThermalPower loc s3)
                (isDaytime (tickSun loc s3)) s3 calm) as (_ & _ & -> & _).
    reflexivity.
  - rewrite st_commit. unfold s4. rewrite tickWith_clock. reflexivity.
Qed.

(** * Further properties of the engine *)

Lemma reachable_reset_started : reachable (reset (toggleRunning initialState)).
Proof.
  pose proof (reachable_after [StartStop; ResetClick]
                (commit (commit initialApp (toggleRunning initialState))
                        (reset (toggleRunning initialState)))) as H.
  rewrite st_commit in H. apply H.
  unfold run, step. rewrite st_commit. reflexivity.
Qed.

(** ** The clock *)

(** X1.  In every reachable state the hour lies in [0, 24) and the minute
    in [0, 60): the carry of minutes into hours and of hours into days
    keeps the clock normalised at every preset speed. *)
Theorem clock_always_normalised (s : State) :
  reachable s ->
  (0 <= currentHour s < 24)%Z /\ (0 <= currentMinute s < 60)%Z.
Proof. apply clock_in_range. Qed.

Lemma clock_always_normalised_witness :
  reachable (reset (toggleRunning initialState)) /\
  (0 <= currentHour (reset (toggleRunning initialState)) < 24)%Z /\
  (0 <= currentMinute (reset (toggleRunning initialState)) < 60)%Z.
Proof.
  split; [exact reachable_reset_started|].
  apply (clock_always_normalised _ reachable_reset_started).
Defined.

Lemma advanceClock_minutes (h m k : Z) :
  (0 <= m)%Z -> (0 <= k)%Z ->
  (60 * fst (advanceClock h m k) + snd (advanceClock h m k) = 60 * h + m + k)%Z.
Proof.
  intros Hm Hk. unfold advanceClock. rewrite orElseZ_zero.
  destruct (m + k >=? 60)%Z; cbn [fst snd]; [|lia].
  rewrite Z.rem_mod_nonneg by lia.
  pose proof (Z.div_mod (m + k) 60 ltac:(lia)). lia.
Qed.

Lemma nextClock_minutes (k h m : Z) :
  (0 <= k < 1440)%Z -> (0 <= h < 24)%Z -> (0 <= m < 60)%Z ->
  minutesOfDay (nextClock k (h, m)) = ((minutesOfDay (h, m) + k) mod 1440)%Z /\
  (dayRollover (fst (advanceClock h m k)) = true <->
   (1440 <= minutesOfDay (h, m) + k)%Z).
Proof.
  intros Hk Hh Hm. unfold minutesOfDay, nextClock. cbn [fst snd].
  pose proof (advanceClock_minutes h m k ltac:(lia) ltac:(lia)) as Hadv.
  assert (Hfm : (0 <= snd (advanceClock h m k) < 60)%Z).
  { unfold advanceClock. rewrite orElseZ_zero.
    destruct (m + k >=? 60)%Z eqn:Hge; cbn [snd].
    - rewrite Z.rem_mod_nonneg by lia. apply Z.mod_pos_bound. lia.
    - rewrite Z.geb_leb in Hge. apply Z.leb_gt in Hge. lia. }
  destruct (advanceClock h m k) as [hb fm]. cbn [fst snd] in *.
  unfold dayRollover.
  destruct (hb >=? 24)%Z eqn:Hroll; cbn [fst snd].
  - apply Z.geb_le in Hroll.
    assert (Hhb : (hb < 48)%Z) by lia.
    rewrite Z.rem_mod_nonneg by lia.
    replace (hb mod 24)%Z with (hb - 24)%Z
      by (apply Z.mod_unique with (q := 1%Z); lia).
    split; [|split; [lia | reflexivity]].
    apply Z.mod_unique with (q := 1%Z); lia.
  - rewrite Z.geb_leb in Hroll. apply Z.leb_gt in Hroll.
    split; [|split; [discriminate | lia]].
    rewrite <- Hadv. symmetry. apply Z.mod_small. lia.
Qed.

(** X2.  A tick moves a normalised clock forward by exactly the speed
    multiplier, counted in minutes modulo one day; it resets the daily
    statistics and advances the date by one day exactly when the minutes
    since midnight plus the multiplier reach 1440, and leaves the date
    alone otherwise. *)
Theorem tick_advances_clock_by_multiplier
    (p : Plastic) (th : R) (day : bool) (s : State) (r : Draws) :
  (0 <= currentHour s < 24)%Z -> (0 <= currentMinute s < 60)%Z ->
  minutesOfDay (clockOf (tickWith p th day s r))
    = ((minutesOfDay (clockOf s) + speedOf (selectedSpeed s)) mod 1440)%Z /\
  (isRolloverTick s = true <->
   (1440 <= minutesOfDay (clockOf s) + speedOf (selectedSpeed s))%Z) /\
  currentDate (tickWith p th day s r)
    = if (1440 <=? minutesOfDay (clockOf s) + speedOf (selectedSpeed s))%Z
      then addDay (currentDate s) else currentDate s.
Proof.
  intros Hh Hm.
  pose proof (speedOf_range (selectedSpeed s)) as Hk.
  destruct (nextClock_minutes (speedOf (selectedSpeed s))
              (currentHour s) (currentMinute s)) as [Hmin Hroll]; try lia.
  rewrite tickWith_clock, tickWith_currentDate.
  unfold isRolloverTick. fold (clockOf s) in Hmin, Hroll |- *.
  split; [exact Hmin|]. split; [exact Hroll|].
  destruct (1440 <=? minutesOfDay (clockOf s) + speedOf (selectedSpeed s))%Z eqn:Hc.
  - apply Z.leb_le in Hc. apply Hroll in Hc. rewrite Hc. reflexivity.
  - apply Z.leb_gt in Hc.
    destruct (dayRollover _); [|reflexivity].
    destruct Hroll as [Hr _]. specialize (Hr eq_refl). lia.
Qed.

Lemma tick_advances_clock_by_multiplier_witness :
  ((0 <= currentHour lateEveningState < 24)%Z /\
   (0 <= currentMinute lateEveningState < 60)%Z) /\
  minutesOfDay (clockOf (tickWith HDPE 0 false lateEveningState calm))
    = ((minutesOfDay (clockOf lateEveningState)
        + speedOf (selectedSpeed lateEveningState)) mod 1440)%Z /\
  (isRolloverTick lateEveningState = true <->
   (1440 <= minutesOfDay (clockOf lateEveningState)
            + speedOf (selectedSpeed lateEveningState))%Z) /\
  currentDate (tickWith HDPE 0 false lateEveningState calm)
    = if (1440 <=? minutesOfDay (clockOf lateEveningState)
                   + speedOf (selectedSpeed lateEveningState))%Z
      then addDay (currentDate lateEveningState) else currentDate lateEveningState.
Proof.
  assert (H1 : (0 <= currentHour lateEveningState < 24)%Z)
    by (cbn [currentHour lateEveningState]; lia).
  assert (H2 : (0 <= currentMinute lateEveningState < 60)%Z)
    by (cbn [currentMinute lateEveningState]; lia).
  split; [split; assumption|].
  apply (tick_advances_clock_by_multiplier HDPE 0 false lateEveningState calm H1 H2).
Defined.

(** ** Molten salt *)

Lemma saltHotUpdate_ceiling (m : Z) (th : R) (day : bool) (prev : R) :
  0 <= IZR m -> prev <= 565 -> saltHotUpdate m th day prev <= 565.
Proof.
  intros Hm Hprev. unfold saltHotUpdate, CONSTANTS.SALT_TEMP_HOT,
    CONSTANTS.SALT_TEMP_COLD, CONSTANTS.HEAT_LOSS_PER_HOUR.
  destruct (gt th 3 && day); [apply Rmin_r | apply Rmax_lub; lra].
Qed.

(** X3.  In every reachable state the hot-salt temperature lies between
    the cold-salt floor 290 and the ceiling 565, and the cold-salt
    temperature is 290: no tick or control ever moves the cold tank. *)
Theorem salt_temperatures_within_range (s : State) :
  reachable s ->
  CONSTANTS.SALT_TEMP_COLD <= saltHotTemp s <= CONSTANTS.SALT_TEMP_HOT /\
  saltColdTemp s = 290.
Proof.
  unfold CONSTANTS.SALT_TEMP_COLD, CONSTANTS.SALT_TEMP_HOT.
  revert s. apply reachable_ind; try (intros; assumption).
  - cbn [initialState saltHotTemp saltColdTemp]. split; [lra | reflexivity].
  - intros p th day s r _ [[Hlo Hhi] Hcold].
    pose proof (speedOf_IZR_range (selectedSpeed s)) as Hm.
    rewrite tickWith_saltHotTemp. split; [split|].
    + apply saltHotUpdate_floor; lra.
    + apply saltHotUpdate_ceiling; lra.
    + rewrite <- Hcold. unfold tickWith.
      destruct (advanceClock _ _ _); destruct (if (Z.rem _ 6 =? 0)%Z then _ else _);
        reflexivity.
  - intros s _. cbn [reset saltHotTemp saltColdTemp]. split; [lra | reflexivity].
Qed.

Lemma salt_temperatures_within_range_witness :
  reachable (reset (toggleRunning initialState)) /\
  CONSTANTS.SALT_TEMP_COLD <= saltHotTemp (reset (toggleRunning initialState))
    <= CONSTANTS.SALT_TEMP_HOT /\
  saltColdTemp (reset (toggleRunning initialState)) = 290.
Proof.
  split; [exact reachable_reset_started|].
  apply (salt_temperatures_within_range _ reachable_reset_started).
Defined.

(** ** Weather *)

Lemma updateWeather_bounds (r : Draws) (c w : R) :
  validDraws r -> 0 <= c <= 100 -> 0 <= w < 15 ->
  0 <= fst (updateWeather r c w) <= 100 /\ 0 <= snd (updateWeather r c w) < 15.
Proof.
  unfold validDraws, unitDraw.
  intros (_ & Hg & Hd & _ & Hgust & _) Hc Hw.
  unfold updateWeather. cbn [fst snd]. split.
  - destruct (lt (cloudEvent r) 0.05).
    + split; [apply Rmin_glb; nra | apply Rmin_l].
    + destruct (gt c 0); [|lra].
      split; [apply Rmax_l | apply Rmax_lub; nra].
  - destruct (lt (windEvent r) 0.1); [nra|].
    split; [apply Rmax_l | apply Rmax_lub_lt; lra].
Qed.

(** X4.  Along any run whose random draws lie in [0, 1), the cloud cover
    stays within [0, 100] and the wind speed within [0, 15). *)
Theorem weather_stays_bounded (evs : list Event) (a : App) :
  Forall validEvent evs ->
  run initialApp evs = Ok a ->
  0 <= cloudCover (st a) <= 100 /\ 0 <= windSpeed (st a) < 15.
Proof.
  intros Hall Hrun.
  apply (run_preserves validEvent
           (fun s => 0 <= cloudCover s <= 100 /\ 0 <= windSpeed s < 15))
    with (evs := evs) (a := initialApp); try assumption;
    try (intros; assumption).
  - intros p th day s r _ Hr [Hc Hw]. cbn [validEvent] in Hr.
    pose proof (tickWith_weather p th day s r) as Hwx.
    pose proof (updateWeather_bounds r _ _ Hr Hc Hw) as Hb.
    destruct (Z.rem (time s) 6 =? 0)%Z.
    + rewrite <- Hwx in Hb. exact Hb.
    + injection Hwx as -> ->. split; assumption.
  - intros s _ _. cbn [reset cloudCover windSpeed]. lra.
  - cbn [initialApp st initialState cloudCover windSpeed]. lra.
Qed.

Lemma first_tick_run :
  run initialApp [StartStop; Tick calm] = Ok (commit startedApp firstTickState).
Proof.
  cbn [run]. rewrite started_app. fold startedApp. unfold step, startedApp.
  rewrite st_commit.
  replace (isRunning (toggleRunning initialState)) with true by reflexivity.
  replace (capturedLocation (commit initialApp (toggleRunning initialState)))
    with "Riyadh, Saudi Arabia"
    by (unfold commit; destruct (sameDeps _ _); reflexivity).
  rewrite (tick_ok _ (toggleRunning initialState) calm HDPE eq_refl).
  reflexivity.
Qed.

Lemma reachable_firstTickState : reachable firstTickState.
Proof.
  pose proof (reachable_after _ _ first_tick_run) as H.
  rewrite st_commit in H. exact H.
Qed.

Lemma weather_stays_bounded_witness :
  (Forall validEvent [StartStop; Tick calm] /\
   run initialApp [StartStop; Tick calm] = Ok (commit startedApp firstTickState)) /\
  0 <= cloudCover (st (commit startedApp firstTickState)) <= 100 /\
  0 <= windSpeed (st (commit startedApp firstTickState)) < 15.
Proof.
  assert (Hall : Forall validEvent [StartStop; Tick calm]).
  { constructor; [exact I|].
    constructor; [exact (proj1 example_draws_valid) | constructor]. }
  split; [split; [exact Hall | exact first_tick_run]|].
  exact (weather_stays_bounded _ _ Hall first_tick_run).
Defined.

(** X5.  The weather is touched only on ticks whose counter is a multiple
    of 6.  On such a tick, without a cloud event the cloud cover does not
    grow and a clear sky stays clear, and without a gust a non-negative
    wind speed drops to nine tenths of its value. *)
Theorem weather_changes_every_sixth_tick
    (p : Plastic) (th : R) (day : bool) (s : State) (r : Draws) :
  0 <= cloudDecay r -> 0 <= windSpeed s ->
  (Z.rem (time s) 6 <> 0%Z ->
   cloudCover (tickWith p th day s r) = cloudCover s /\
   windSpeed (tickWith p th day s r) = windSpeed s) /\
  (Z.rem (time s) 6 = 0%Z ->
   (0.05 <= cloudEvent r ->
    cloudCover (tickWith p th day s r) <= Rmax 0 (cloudCover s) /\
    (cloudCover s = 0 -> cloudCover (tickWith p th day s r) = 0)) /\
   (0.1 <= windEvent r ->
    windSpeed (tickWith p th day s r) = windSpeed s * 0.9)).
Proof.
  intros Hdecay Hwind.
  pose proof (tickWith_weather p th day s r) as Hwx.
  split.
  - intros Hrem. apply Z.eqb_neq in Hrem. rewrite Hrem in Hwx.
    injection Hwx as -> ->. split; reflexivity.
  - intros Hrem. apply Z.eqb_eq in Hrem. rewrite Hrem in Hwx.
    unfold updateWeather in Hwx. injection Hwx as Hc Hw. split.
    + intros Hev. apply lt_false in Hev. rewrite Hev in Hc. rewrite Hc.
      destruct (gt (cloudCover s) 0) eqn:Hpos.
      * split.
        -- apply Rmax_lub; [apply Rmax_l|].
           eapply Rle_trans; [|apply Rmax_r]. lra.
        -- intros Hz. apply gt_true in Hpos. lra.
      * split; [apply Rmax_r | tauto].
    + intros Hev. apply lt_false in Hev. rewrite Hev in Hw. rewrite Hw.
      apply Rmax_right. lra.
Qed.

Lemma weather_changes_every_sixth_tick_witness :
  (0 <= cloudDecay calm /\ 0 <= windSpeed initialState) /\
  (Z.rem (time initialState) 6 <> 0%Z ->
   cloudCover (tickWith HDPE 0 false initialState calm) = cloudCover initialState /\
   windSpeed (tickWith HDPE 0 false initialState calm) = windSpeed initialState) /\
  (Z.rem (time initialState) 6 = 0%Z ->
   (0.05 <= cloudEvent calm ->
    cloudCover (tickWith HDPE 0 false initialState calm)
      <= Rmax 0 (cloudCover initialState) /\
    (cloudCover initialState = 0 ->
     cloudCover (tickWith HDPE 0 false initialState calm) = 0)) /\
   (0.1 <= windEvent calm ->
    windSpeed (tickWith HDPE 0 false initialState calm)
      = windSpeed initialState * 0.9)).
Proof.
  assert (H1 : 0 <= cloudDecay calm) by (cbn [cloudDecay calm]; lra).
  assert (H2 : 0 <= windSpeed initialState) by (cbn [windSpeed initialState]; lra).
  split; [split; assumption|].
  exact (weather_changes_every_sixth_tick HDPE 0 false initialState calm H1 H2).
Defined.

(** ** Daylight windows and bounds of the solar model *)

(** X6.  For every location key (in the catalog or not), every day of the
    year and every cloud cover: before 04:30 and after 19:30 the solar
    model returns the no-sun record (elevation 0, DNI 0, not daytime, no
    sunrise or sunset), and from 07:30 to 16:30 it reports daytime. *)
Theorem daylight_windows (k : string) (c h m d : R) :
  (h + m / 60 < 4.5 \/ 19.5 < h + m / 60 ->
   calculateSunParameters (lookup k SOLAR_DATA) c h m d
     = mkSun 0 0 false None None) /\
  (7.5 <= h + m / 60 <= 16.5 ->
   isDaytime (calculateSunParameters (lookup k SOLAR_DATA) c h m d) = true).
Proof.
  pose proof (sunrise_range k d) as Hr.
  pose proof (sunset_range k d) as Hs.
  split.
  - intros [H|H]; [apply night_before_sunrise | apply night_after_sunset]; lra.
  - intros H. apply daytime_flag. lra.
Qed.

Lemma normalizedHour_range (k : string) (x d : R) :
  sunriseAt (lookup k SOLAR_DATA) d <= x <= sunsetAt (lookup k SOLAR_DATA) d ->
  0 <= (x - sunriseAt (lookup k SOLAR_DATA) d)
       / (sunsetAt (lookup k SOLAR_DATA) d - sunriseAt (lookup k SOLAR_DATA) d) <= 1.
Proof.
  intros [H1 H2].
  pose proof (sunrise_range k d) as Hr.
  pose proof (sunset_range k d) as Hs.
  set (len := sunsetAt (lookup k SOLAR_DATA) d - sunriseAt (lookup k SOLAR_DATA) d).
  assert (Hlen : 0 < len) by (unfold len; lra).
  split.
  - apply Rmult_le_reg_r with len; [exact Hlen|].
    unfold Rdiv. rewrite Rmult_assoc, Rinv_l by lra. unfold len. lra.
  - apply Rmult_le_reg_r with len; [exact Hlen|].
    unfold Rdiv. rewrite Rmult_assoc, Rinv_l by lra. unfold len. lra.
Qed.

Lemma half_sine_range (x : R) : 0 <= x <= 1 -> 0 <= sin (x * PI) <= 1.
Proof.
  intros [H0 H1]. pose proof PI_RGT_0 as Hpi.
  split; [apply sin_ge_0; nra | apply SIN_bound].
Qed.

Lemma dniOr_le (k : string) : dniOr (lookup k SOLAR_DATA) 6.0 <= 8.5.
Proof.
  unfold dniOr.
  destruct (lookup k SOLAR_DATA) as [l|] eqn:H; [|lra].
  catalog H; simpl; unfold orElse; destruct (Req_dec_T _ 0); lra.
Qed.

Lemma latOr_ratio (k : string) :
  Rabs (latOr (lookup k SOLAR_DATA) 0) / 90 = latitudeFactor (lookup k SOLAR_DATA).
Proof. reflexivity. Qed.

(** X7.  For every location key, time, day of the year and non-negative
    cloud cover, the elevation returned by the solar model lies in
    [0, 70] degrees and the DNI in [0, 1933.75] W/m2. *)
Theorem sun_parameters_bounded (k : string) (c h m d : R) :
  0 <= c ->
  0 <= elevation (calculateSunParameters (lookup k SOLAR_DATA) c h m d) <= 70 /\
  0 <= sun_dni (calculateSunParameters (lookup k SOLAR_DATA) c h m d) <= 1933.75.
Proof.
  intros Hc.
  set (loc := lookup k SOLAR_DATA).
  destruct (Rlt_dec (h + m / 60) (sunriseAt loc d)) as [Hearly|Hearly].
  { rewrite night_before_sunrise by assumption. cbn [elevation sun_dni]. lra. }
  destruct (Rlt_dec (sunsetAt loc d) (h + m / 60)) as [Hlate|Hlate].
  { rewrite night_after_sunset by assumption. cbn [elevation sun_dni]. lra. }
  assert (Hday : sunriseAt loc d <= h + m / 60 <= sunsetAt loc d) by lra.
  pose proof (half_sine_range _ (normalizedHour_range k _ d Hday)) as Hsin.
  fold loc in Hsin.
  pose proof (latitudeFactor_range k) as Hlat. fold loc in Hlat.
  split.
  - unfold calculateSunParameters. rewrite !orElse_zero.
    replace (lt (h + m / 60) (sunriseAt loc d)) with false
      by (symmetry; apply lt_false; lra).
    replace (gt (h + m / 60) (sunsetAt loc d)) with false
      by (symmetry; apply gt_false; lra).
    cbn [orb elevation]. fold (latitudeFactor loc).
    set (sn := sin _) in *. nra.
  - rewrite daytime_dni by assumption.
    pose proof (SIN_bound ((d - 81) / 365 * 2 * PI)) as Hs.
    pose proof (dniOr_pos k) as Hd0. pose proof (dniOr_le k) as Hd1.
    fold loc in Hd0, Hd1.
    set (sn := sin ((h + m / 60 - sunriseAt loc d)
                    / (sunsetAt loc d - sunriseAt loc d) * PI)) in *.
    set (ss := sin ((d - 81) / 365 * 2 * PI)) in *.
    split; [apply Rmax_l|].
    apply Rmax_lub; [lra|].
    destruct (Rle_dec 0 (1 - c / 100 * 0.7)) as [Hcf|Hcf].
    + assert (H1 : dniOr loc 6.0 * 1000 / 8 * sn <= 8.5 * 1000 / 8) by nra.
      assert (H1' : 0 <= dniOr loc 6.0 * 1000 / 8 * sn) by nra.
      assert (H2 : (1 + ss * 0.3) * (1 - c / 100 * 0.7) <= 1.3) by nra.
      assert (H2' : 0 <= (1 + ss * 0.3) * (1 - c / 100 * 0.7)) by nra.
      replace (dniOr loc 6.0 * 1000 / 8 * sn * (1 + ss * 0.3)
               * (1 - c / 100 * 0.7) * 1.4)
        with ((dniOr loc 6.0 * 1000 / 8 * sn)
              * ((1 + ss * 0.3) * (1 - c / 100 * 0.7)) * 1.4) by ring.
      nra.
    + assert (H0 : 0 <= dniOr loc 6.0 * 1000 / 8 * sn) by nra.
      assert (H1' : 0 <= dniOr loc 6.0 * 1000 / 8 * sn * (1 + ss * 0.3))
        by (apply Rmult_le_pos; lra).
      assert (H2 : dniOr loc 6.0 * 1000 / 8 * sn * (1 + ss * 0.3)
                   * (1 - c / 100 * 0.7) <= 0) by nra.
      lra.
Qed.

Lemma sun_parameters_bounded_witness :
  0 <= 40 /\
  0 <= elevation (calculateSunParameters
                    (lookup "Atacama, Chile" SOLAR_DATA) 40 9 30 200) <= 70 /\
  0 <= sun_dni (calculateSunParameters
                  (lookup "Atacama, Chile" SOLAR_DATA) 40 9 30 200) <= 1933.75.
Proof.
  split; [lra|].
  apply (sun_parameters_bounded "Atacama, Chile" 40 9 30 200). lra.
Defined.

(** ** Thermal power *)

(** X8.  With between 0 and 2127 operational heliostats and a DNI between
    0 and 1933.75 W/m2 the thermal power lies between 0 and 284 MW; with
    no operational heliostat, or no DNI, it is exactly 0; and wind above
    10 m/s yields exactly 95% of the power obtained in calmer wind. *)
Theorem thermal_power_bounded (h : Heliostats) (w dni : R) :
  (0 <= operational h <= CONSTANTS.HELIOSTAT_COUNT)%Z ->
  0 <= dni <= 1933.75 ->
  0 <= calculateThermalPower h w dni <= 284 /\
  (operational h = 0%Z -> calculateThermalPower h w dni = 0) /\
  calculateThermalPower h w 0 = 0 /\
  (10 < w ->
   calculateThermalPower h w dni = 0.95 * calculateThermalPower h 0 dni).
Proof.
  intros [Hop0 Hop1] Hd. apply IZR_le in Hop0, Hop1.
  unfold CONSTANTS.HELIOSTAT_COUNT in Hop1.
  unfold calculateThermalPower, CONSTANTS.HELIOSTAT_AREA,
    CONSTANTS.HELIOSTAT_EFFICIENCY, CONSTANTS.RECEIVER_EFFICIENCY.
  replace (gt 0 10) with false by (symmetry; apply gt_false; lra).
  assert (Hprod : 0 <= IZR (operational h) * dni <= 2127 * 1933.75) by nra.
  split; [|split; [|split]].
  - destruct (gt w 10); lra.
  - intros ->. destruct (gt w 10); lra.
  - destruct (gt w 10); lra.
  - intros Hw. apply gt_true in Hw. rewrite Hw. lra.
Qed.

Lemma thermal_power_bounded_witness :
  ((0 <= operational (mkHeliostats 2100 0 12 27) <= CONSTANTS.HELIOSTAT_COUNT)%Z /\
   0 <= 900 <= 1933.75) /\
  0 <= calculateThermalPower (mkHeliostats 2100 0 12 27) 11 900 <= 284 /\
  (operational (mkHeliostats 2100 0 12 27) = 0%Z ->
   calculateThermalPower (mkHeliostats 2100 0 12 27) 11 900 = 0) /\
  calculateThermalPower (mkHeliostats 2100 0 12 27) 11 0 = 0 /\
  (10 < 11 ->
   calculateThermalPower (mkHeliostats 2100 0 12 27) 11 900
   = 0.95 * calculateThermalPower (mkHeliostats 2100 0 12 27) 0 900).
Proof.
  assert (H1 : (0 <= operational (mkHeliostats 2100 0 12 27)
                <= CONSTANTS.HELIOSTAT_COUNT)%Z)
    by (cbn [operational]; unfold CONSTANTS.HELIOSTAT_COUNT; lia).
  assert (H2 : 0 <= 900 <= 1933.75) by lra.
  split; [split; assumption|].
  exact (thermal_power_bounded (mkHeliostats 2100 0 12 27) 11 900 H1 H2).
Defined.

(** ** Pyrolysis products *)

Lemma plastic_yields (k : string) (p : Plastic) :
  lookup k PLASTIC_TYPES = Some p ->
  0 < h2_yield p /\ 0 < carbon_yield p /\ 0 < oil_yield p /\ 0 < gas_yield p /\
  h2_yield p * 2.016 / 1000 + carbon_yield p + oil_yield p + gas_yield p <= 0.96.
Proof. intros H; catalog H; simpl; lra. Qed.

Lemma rate_range (th : R) :
  0 <= th ->
  0 <= Rmin (th * 1000 / (CONSTANTS.PYROLYSIS_ENERGY / 3600)) CONSTANTS.REACTOR_CAPACITY
    <= CONSTANTS.REACTOR_CAPACITY.
Proof.
  intros Hth. unfold CONSTANTS.PYROLYSIS_ENERGY, CONSTANTS.REACTOR_CAPACITY.
  split; [apply Rmin_glb; lra | apply Rmin_r].
Qed.

(** X9.  For every feedstock of the catalog, non-negative thermal power
    and non-negative time step, [processPyrolysis] works at a rate between
    0 and the reactor capacity 500 kg/h, processes rate * deltaTime / 3600
    kg of plastic, returns non-negative product masses, and the four
    products together never weigh more than the plastic processed. *)
Theorem pyrolysis_capped_and_mass_balanced
    (k : string) (p : Plastic) (th dt : R) :
  lookup k PLASTIC_TYPES = Some p -> 0 <= th -> 0 <= dt ->
  0 <= p_rate (processPyrolysis p th dt) <= CONSTANTS.REACTOR_CAPACITY /\
  p_plastic (processPyrolysis p th dt)
    = p_rate (processPyrolysis p th dt) * (dt / 3600) /\
  0 <= p_hydrogen (processPyrolysis p th dt) /\
  0 <= p_carbon (processPyrolysis p th dt) /\
  0 <= p_wax (processPyrolysis p th dt) /\
  0 <= p_waste (processPyrolysis p th dt) /\
  p_hydrogen (processPyrolysis p th dt) + p_carbon (processPyrolysis p th dt)
  + p_wax (processPyrolysis p th dt) + p_waste (processPyrolysis p th dt)
    <= p_plastic (processPyrolysis p th dt).
Proof.
  intros Hp Hth Hdt.
  destruct (plastic_yields k p Hp) as (Hh & Hc & Ho & Hg & Hsum).
  pose proof (rate_range th Hth) as Hrate.
  unfold processPyrolysis.
  cbn [p_rate p_plastic p_hydrogen p_carbon p_wax p_waste].
  set (rate := Rmin _ _) in *.
  unfold CONSTANTS.REACTOR_CAPACITY in *.
  assert (Hm : 0 <= rate * (dt / 3600)) by (apply Rmult_le_pos; lra).
  set (mass := rate * (dt / 3600)) in *.
  repeat split; try lra; try (apply Rmult_le_pos; lra).
  - assert (0 <= mass * h2_yield p) by (apply Rmult_le_pos; lra). lra.
  - replace (mass * 1000 * h2_yield p * 2.016 / 1e6 + mass * carbon_yield p
             + mass * oil_yield p + mass * gas_yield p)
      with (mass * (h2_yield p * 2.016 / 1000 + carbon_yield p
                    + oil_yield p + gas_yield p)) by lra.
    nra.
Qed.

Lemma pyrolysis_capped_and_mass_balanced_witness :
  (lookup "Mixed" PLASTIC_TYPES
     = Some (mkPlastic "Mixed Plastics" 150 0.30 0.17 0.10 850
                       "#f59e0b" "Municipal waste") /\
   0 <= 0.04 /\ 0 <= 720) /\
  0 <= p_rate (processPyrolysis
                 (mkPlastic "Mixed Plastics" 150 0.30 0.17 0.10 850
                            "#f59e0b" "Municipal waste") 0.04 720)
    <= CONSTANTS.REACTOR_CAPACITY.
Proof.
  split; [split; [reflexivity | lra]|].
  apply (pyrolysis_capped_and_mass_balanced "Mixed" _ 0.04 720 eq_refl); lra.
Defined.

(** X10.  [processPyrolysis] is additive in the time step: at a given
    thermal power, the plastic and every product of a step of d1 + d2
    seconds are the sums of those of a step of d1 and a step of d2 seconds,
    at the same rate.  One tick at multiplier 12 thus yields what twelve
    ticks at multiplier 1 yield under the same power. *)
Theorem pyrolysis_additive_in_time (p : Plastic) (th d1 d2 : R) :
  p_rate (processPyrolysis p th (d1 + d2)) = p_rate (processPyrolysis p th d1) /\
  p_plastic (processPyrolysis p th (d1 + d2))
    = p_plastic (processPyrolysis p th d1) + p_plastic (processPyrolysis p th d2) /\
  p_hydrogen (processPyrolysis p th (d1 + d2))
    = p_hydrogen (processPyrolysis p th d1) + p_hydrogen (processPyrolysis p th d2) /\
  p_carbon (processPyrolysis p th (d1 + d2))
    = p_carbon (processPyrolysis p th d1) + p_carbon (processPyrolysis p th d2) /\
  p_wax (processPyrolysis p th (d1 + d2))
    = p_wax (processPyrolysis p th d1) + p_wax (processPyrolysis p th d2) /\
  p_waste (processPyrolysis p th (d1 + d2))
    = p_waste (processPyrolysis p th d1) + p_waste (processPyrolysis p th d2) /\
  p_plastic (processPyrolysis p th (60 * 12))
    = 12 * p_plastic (processPyrolysis p th (60 * 1)).
Proof.
  unfold processPyrolysis.
  cbn [p_rate p_plastic p_hydrogen p_carbon p_wax p_waste].
  set (rate := Rmin _ _).
  repeat split; lra.
Qed.

(** X11.  Whenever a tick runs pyrolysis (reactor ready and thermal power
    above 2 MW) the power-limited rate is far above the reactor capacity,
    so the plant works at exactly 500 kg/h: the tick adds
    500 * multiplier / 60 kg to the plastic total, whatever the thermal
    power is. *)
Theorem running_pyrolysis_is_capacity_limited
    (p : Plastic) (th : R) (day : bool) (s : State) (r : Draws) :
  pyrolysisRuns p (reactorTemp s) th = true ->
  p_rate (processPyrolysis p th (60 * IZR (speedOf (selectedSpeed s))))
    = CONSTANTS.REACTOR_CAPACITY /\
  totalPlasticProcessed (production (tickWith p th day s r))
    = totalPlasticProcessed (production s)
      + 500 * IZR (speedOf (selectedSpeed s)) / 60.
Proof.
  intros Hruns. rewrite tickWith_production, Hruns.
  unfold pyrolysisRuns in Hruns. apply andb_prop in Hruns as [_ Hth].
  apply gt_true in Hth.
  unfold processPyrolysis, CONSTANTS.PYROLYSIS_ENERGY, CONSTANTS.REACTOR_CAPACITY.
  cbn [addProducts totalPlasticProcessed p_rate p_plastic].
  rewrite Rmin_right by lra. split; lra.
Qed.

Lemma running_pyrolysis_is_capacity_limited_witness :
  pyrolysisRuns PS (reactorTemp hotPolystyreneState) 3 = true /\
  p_rate (processPyrolysis PS 3
            (60 * IZR (speedOf (selectedSpeed hotPolystyreneState))))
    = CONSTANTS.REACTOR_CAPACITY /\
  totalPlasticProcessed (production (tickWith PS 3 true hotPolystyreneState calm))
    = totalPlasticProcessed (production hotPolystyreneState)
      + 500 * IZR (speedOf (selectedSpeed hotPolystyreneState)) / 60.
Proof.
  assert (H : pyrolysisRuns PS (reactorTemp hotPolystyreneState) 3 = true).
  { unfold pyrolysisRuns, pyrolysisReady.
    cbn [reactorTemp hotPolystyreneState optimal_temp PS].
    replace (gt 850 (900 - 200)) with true by (symmetry; apply gt_true; lra).
    replace (gt 3 2) with true by (symmetry; apply gt_true; lra).
    reflexivity. }
  split; [exact H|].
  exact (running_pyrolysis_is_capacity_limited PS 3 true hotPolystyreneState calm H).
Defined.

(** ** Accumulators *)

Lemma products_nonneg (k : string) (p : Plastic) (th dt : R) :
  lookup k PLASTIC_TYPES = Some p -> 2 < th -> 0 <= dt ->
  0 <= p_plastic (processPyrolysis p th dt) /\
  0 <= p_hydrogen (processPyrolysis p th dt) /\
  0 <= p_carbon (processPyrolysis p th dt) /\
  0 <= p_wax (processPyrolysis p th dt) /\
  0 <= p_waste (processPyrolysis p th dt).
Proof.
  intros Hp Hth Hdt.
  destruct (plastic_yields k p Hp) as (Hh & Hc & Ho & Hg & _).
  unfold processPyrolysis, CONSTANTS.PYROLYSIS_ENERGY, CONSTANTS.REACTOR_CAPACITY.
  cbn [p_plastic p_hydrogen p_carbon p_wax p_waste].
  rewrite Rmin_right by lra.
  assert (Hm : 0 <= 500 * (dt / 3600)) by lra.
  set (mass := 500 * (dt / 3600)) in *.
  repeat split; try lra; try (apply Rmult_le_pos; lra).
  assert (0 <= mass * h2_yield p) by (apply Rmult_le_pos; lra). lra.
Qed.

(** X12.  A tick never lowers a production total: for every feedstock of
    the catalog, each of hydrogen, carbon, wax, waste and total plastic
    processed after the tick is at least its value before. *)
Theorem tick_never_lowers_production
    (k : string) (p : Plastic) (th : R) (day : bool) (s : State) (r : Draws) :
  lookup k PLASTIC_TYPES = Some p ->
  productionLe (production s) (production (tickWith p th day s r)).
Proof.
  intros Hp. rewrite tickWith_production. unfold productionLe.
  destruct (pyrolysisRuns p (reactorTemp s) th) eqn:Hruns; [|lra].
  unfold pyrolysisRuns in Hruns. apply andb_prop in Hruns as [_ Hth].
  apply gt_true in Hth.
  pose proof (speedOf_IZR_range (selectedSpeed s)) as Hm.
  destruct (products_nonneg k p th (60 * IZR (speedOf (selectedSpeed s))) Hp Hth)
    as (H1 & H2 & H3 & H4 & H5); [lra|].
  cbn [addProducts hydrogen carbon wax waste totalPlasticProcessed]. lra.
Qed.

Lemma tick_never_lowers_production_witness :
  lookup "PS" PLASTIC_TYPES = Some PS /\
  productionLe (production hotPolystyreneState)
    (production (tickWith PS 40 true hotPolystyreneState calm)).
Proof.
  split; [reflexivity|].
  exact (tick_never_lowers_production "PS" PS 40 true hotPolystyreneState calm eq_refl).
Defined.

Lemma heatLossIncrement_nonneg (m : Z) (hot : R) :
  (1 <= m)%Z -> 20 <= hot -> 0 <= heatLossIncrement m hot.
Proof.
  intros Hm Hhot. apply IZR_le in Hm.
  unfold heatLossIncrement, CONSTANTS.HEAT_LOSS_PER_HOUR. nra.
Qed.

Lemma tick_daily_from_base (k : string) (p : Plastic) (th : R) (day : bool)
    (s : State) (r : Draws) :
  lookup k PLASTIC_TYPES = Some p -> 20 <= saltHotTemp s ->
  dailyLe (dailyBase s) (dailyStats (tickWith p th day s r)).
Proof.
  intros Hp Hhot. rewrite tickWith_dailyStats. unfold dailyLe.
  pose proof (speedOf_IZR_range (selectedSpeed s)) as Hm.
  pose proof (heatLossIncrement_nonneg _ _ (proj1 (speedOf_range (selectedSpeed s))) Hhot)
    as Hloss.
  destruct (pyrolysisRuns p (reactorTemp s) th) eqn:Hruns.
  - unfold pyrolysisRuns in Hruns. apply andb_prop in Hruns as [_ Hth].
    apply gt_true in Hth.
    destruct (products_nonneg k p th (60 * IZR (speedOf (selectedSpeed s))) Hp Hth)
      as (H1 & H2 & H3 & H4 & H5); [lra|].
    cbn [addHeatLoss addDailyProducts energyCollected plasticProcessed
         hydrogenProduced carbonProduced heatLoss].
    repeat split; try lra. nra.
  - cbn [addHeatLoss energyCollected plasticProcessed hydrogenProduced
         carbonProduced heatLoss]. repeat split; lra.
Qed.

(** X13.  In every reachable state all five production totals and all
    five daily statistics are non-negative. *)
Theorem accumulators_never_negative (s : State) :
  reachable s ->
  productionLe zeroProduction (production s) /\
  dailyLe zeroDailyStats (dailyStats s).
Proof.
  intros Hr.
  enough (H : 290 <= saltHotTemp s /\
              productionLe zeroProduction (production s) /\
              dailyLe zeroDailyStats (dailyStats s)) by tauto.
  revert s Hr. apply reachable_ind; try (intros; assumption).
  - unfold productionLe, dailyLe. cbn. repeat split; lra.
  - intros p th day s r Hp (Hhot & Hprod & Hdaily).
    pose proof (speedOf_IZR_range (selectedSpeed s)) as Hm.
    split; [|split].
    + rewrite tickWith_saltHotTemp. apply saltHotUpdate_floor; lra.
    + pose proof (tick_never_lowers_production _ p th day s r Hp) as Hle.
      unfold productionLe in *. cbn [zeroProduction hydrogen carbon wax waste
        totalPlasticProcessed] in *. lra.
    + pose proof (tick_daily_from_base _ p th day s r Hp ltac:(lra)) as Hle.
      unfold dailyBase in Hle.
      destruct (isRolloverTick s); [exact Hle|].
      unfold dailyLe in *. cbn [zeroDailyStats energyCollected plasticProcessed
        hydrogenProduced carbonProduced heatLoss] in *. lra.
  - intros s _. unfold productionLe, dailyLe. cbn. repeat split; lra.
Qed.

Lemma accumulators_never_negative_witness :
  reachable firstTickState /\
  productionLe zeroProduction (production firstTickState) /\
  dailyLe zeroDailyStats (dailyStats firstTickState).
Proof.
  split; [exact reachable_firstTickState|].
  exact (accumulators_never_negative firstTickState reachable_firstTickState).
Defined.

(** X14.  On a tick that does not cross midnight, starting from a
    reachable state, no daily statistic decreases; on a tick that does,
    each daily statistic ends at least at 0. *)
Theorem daily_stats_grow_within_a_day
    (k : string) (p : Plastic) (th : R) (day : bool) (s : State) (r : Draws) :
  reachable s ->
  lookup k PLASTIC_TYPES = Some p ->
  (isRolloverTick s = false ->
   dailyLe (dailyStats s) (dailyStats (tickWith p th day s r))) /\
  (isRolloverTick s = true ->
   dailyLe zeroDailyStats (dailyStats (tickWith p th day s r))).
Proof.
  intros Hr Hp.
  pose proof (saltHot_floor s Hr) as Hhot.
  pose proof (tick_daily_from_base k p th day s r Hp ltac:(lra)) as Hle.
  unfold dailyBase in Hle.
  split; intros Hroll; rewrite Hroll in Hle; exact Hle.
Qed.

Lemma daily_stats_grow_within_a_day_witness :
  (reachable firstTickState /\ lookup "HDPE" PLASTIC_TYPES = Some HDPE) /\
  (isRolloverTick firstTickState = false ->
   dailyLe (dailyStats firstTickState)
     (dailyStats (tickWith HDPE 30 true firstTickState calm))) /\
  (isRolloverTick firstTickState = true ->
   dailyLe zeroDailyStats (dailyStats (tickWith HDPE 30 true firstTickState calm))).
Proof.
  split; [split; [exact reachable_firstTickState | reflexivity]|].
  exact (daily_stats_grow_within_a_day "HDPE" HDPE 30 true firstTickState calm
           reachable_firstTickState eq_refl).
Defined.

(** ** Night ticks and the pace of the reactor *)




(** X16.  Within one tick the reactor temperature, if it starts between
    290 and the optimal temperature, falls by at most 0.05 degrees and
    rises by at most 0.2 degrees per simulated minute; it rises only when
    the sun is up and the thermal power exceeds 5 MW. *)
Theorem reactor_temperature_pace
    (p : Plastic) (m : Z) (th : R) (day : bool) (prev : R) :
  0 <= IZR m ->
  CONSTANTS.SALT_TEMP_COLD <= prev <= optimal_temp p ->
  prev - 0.05 * IZR m <= reactorUpdate p m th day prev <= prev + 0.2 * IZR m /\
  (prev < reactorUpdate p m th day prev -> 5 < th /\ day = true).
Proof.
  unfold CONSTANTS.SALT_TEMP_COLD. intros Hm [Hlo Hhi]. unfold reactorUpdate.
  destruct (gt th 5) eqn:Hth; [destruct day|]; cbn [andb];
    unfold CONSTANTS.SALT_TEMP_COLD.
  - apply gt_true in Hth.
    assert (Hheat : 0 <= Rmin (2 * IZR m / 10) (th / 10) <= 2 * IZR m / 10)
      by (split; [apply Rmin_glb; lra | apply Rmin_l]).
    split; [split|].
    + apply Rmin_glb; lra.
    + eapply Rle_trans; [apply Rmin_l|]. lra.
    + intros _. split; [exact Hth | reflexivity].
  - split; [split|].
    + eapply Rle_trans; [|apply Rmax_l]. lra.
    + apply Rmax_lub; lra.
    + intros Hup. exfalso.
      assert (Rmax (prev - 0.5 * IZR m / 10) 290 <= prev) by (apply Rmax_lub; lra).
      lra.
  - split; [split|].
    + eapply Rle_trans; [|apply Rmax_l]. lra.
    + apply Rmax_lub; lra.
    + intros Hup. exfalso.
      assert (Rmax (prev - 0.5 * IZR m / 10) 290 <= prev) by (apply Rmax_lub; lra).
      lra.
Qed.

Lemma reactor_temperature_pace_witness :
  (0 <= IZR 72 /\ CONSTANTS.SALT_TEMP_COLD <= 600 <= optimal_temp HDPE) /\
  600 - 0.05 * IZR 72 <= reactorUpdate HDPE 72 120 true 600 <= 600 + 0.2 * IZR 72 /\
  (600 < reactorUpdate HDPE 72 120 true 600 -> 5 < 120 /\ true = true).
Proof.
  assert (H1 : 0 <= IZR 72) by lra.
  assert (H2 : CONSTANTS.SALT_TEMP_COLD <= 600 <= optimal_temp HDPE)
    by (unfold CONSTANTS.SALT_TEMP_COLD; cbn [optimal_temp HDPE]; lra).
  split; [split; assumption|].
  exact (reactor_temperature_pace HDPE 72 120 true 600 H1 H2).
Defined.

(** ** The captured location *)

Lemma eqR_refl (x : R) : eqR x x = true.
Proof. unfold eqR. destruct (Req_dec_T x x); congruence. Qed.

Lemma sameDeps_location (k : string) (s : State) :
  sameDeps s (setSelectedLocation k s) = true.
Proof.
  unfold sameDeps, eqDate.
  cbn [setSelectedLocation isRunning time currentHour currentMinute reactorTemp
       saltHotTemp cloudCover windSpeed currentDate selectedPlastic selectedSpeed].
  rewrite Bool.eqb_reflx, !Z.eqb_refl, !eqR_refl, !String.eqb_refl. reflexivity.
Qed.

Lemma sameDeps_tick (p : Plastic) (th : R) (day : bool) (s : State) (r : Draws) :
  sameDeps s (tickWith p th day s r) = false.
Proof.
  unfold sameDeps. rewrite tickWith_time.
  replace (time s =? time s + 1)%Z with false
    by (symmetry; apply Z.eqb_neq; lia).
  rewrite andb_false_r. reflexivity.
Qed.

(** X17.  [selectedLocation] is not a dependency of the effect: while the
    plant runs, the tick that follows the selection of another catalog
    location still computes the sun with the location captured before the
    change, and only the tick after it uses the newly selected one. *)
Theorem location_change_lags_one_tick
    (a : App) (k : string) (r : Draws) (p : Plastic) :
  entryOf k SOLAR_DATA = Own ->
  isRunning (st a) = true ->
  lookup (selectedPlastic (st a)) PLASTIC_TYPES = Some p ->
  exists a1 a2,
    step a (SelectLocation k) = Ok a1 /\
    selectedLocation (st a1) = k /\
    capturedLocation a1 = capturedLocation a /\
    step a1 (Tick r) = Ok a2 /\
    st a2 = tickWith p
              (tickThermalPower (lookup (capturedLocation a) SOLAR_DATA) (st a1))
              (isDaytime (tickSun (lookup (capturedLocation a) SOLAR_DATA) (st a1)))
              (st a1) r /\
    capturedLocation a2 = k.
Proof.
  intros Hk Hrun Hp.
  set (s1 := setSelectedLocation k (st a)).
  assert (Ha1 : commit a s1 = mkApp s1 (capturedLocation a)).
  { unfold commit, s1. rewrite sameDeps_location. reflexivity. }
  set (s2 := tickWith p
               (tickThermalPower (lookup (capturedLocation a) SOLAR_DATA) s1)
               (isDaytime (tickSun (lookup (capturedLocation a) SOLAR_DATA) s1))
               s1 r).
  assert (Ha2 : commit (mkApp s1 (capturedLocation a)) s2 = mkApp s2 k).
  { unfold commit. cbn [st]. unfold s2. rewrite sameDeps_tick.
    f_equal. destruct (tickWith_selection p
      (tickThermalPower (lookup (capturedLocation a) SOLAR_DATA) s1)
      (isDaytime (tickSun (lookup (capturedLocation a) SOLAR_DATA) s1)) s1 r)
      as (Hl & _). rewrite Hl. reflexivity. }
  exists (mkApp s1 (capturedLocation a)), (mkApp s2 k).
  split; [unfold step; rewrite Hk; fold s1; rewrite Ha1; reflexivity|].
  split; [reflexivity|]. split; [reflexivity|].
  split; [|split; reflexivity].
  unfold step. cbn [st capturedLocation].
  replace (isRunning s1) with true by (symmetry; exact Hrun).
  rewrite (tick_ok _ s1 r p Hp). fold s2. rewrite Ha2. reflexivity.
Qed.

Lemma location_change_lags_one_tick_witness :
  (entryOf "Atacama, Chile" SOLAR_DATA = Own /\
   isRunning (st (mkApp hotPolystyreneState "Riyadh, Saudi Arabia")) = true /\
   lookup (selectedPlastic (st (mkApp hotPolystyreneState "Riyadh, Saudi Arabia")))
     PLASTIC_TYPES = Some PS) /\
  exists a1 a2,
    step (mkApp hotPolystyreneState "Riyadh, Saudi Arabia")
      (SelectLocation "Atacama, Chile") = Ok a1 /\
    selectedLocation (st a1) = "Atacama, Chile" /\
    capturedLocation a1 = "Riyadh, Saudi Arabia" /\
    step a1 (Tick calm) = Ok a2 /\
    st a2 = tickWith PS
              (tickThermalPower (lookup "Riyadh, Saudi Arabia" SOLAR_DATA) (st a1))
              (isDaytime (tickSun (lookup "Riyadh, Saudi Arabia" SOLAR_DATA) (st a1)))
              (st a1) calm /\
    capturedLocation a2 = "Atacama, Chile".
Proof.
  split; [repeat split|].
  exact (location_change_lags_one_tick
           (mkApp hotPolystyreneState "Riyadh, Saudi Arabia")
           "Atacama, Chile" calm PS eq_refl eq_refl eq_refl).
Defined.

(** * Properties of the values derived at render time *)

Lemma decimal_hour_convention (loc : option Location) (c h m d : R) :
  calculateSunParameters loc c (h + m / 60) 0 d = calculateSunParameters loc c h m d.
Proof.
  unfold calculateSunParameters. rewrite !orElse_zero.
  replace (h + m / 60 + 0 / 60) with (h + m / 60) by lra. reflexivity.
Qed.

(** X18.  The sun shown on the dashboard, computed from the decimal hour
    with minute 0, is what the solar model gives for the current hour and
    minute.  After a tick that neither updated the weather nor crossed
    midnight, it is exactly the sun that tick computed with the selected
    location. *)
Theorem rendered_sun_matches_engine
    (p : Plastic) (th : R) (day : bool) (s : State) (r : Draws) :
  renderSun s
    = calculateSunParameters (lookup (selectedLocation s) SOLAR_DATA) (cloudCover s)
        (IZR (currentHour s)) (IZR (currentMinute s))
        (IZR (dayOfYear (currentDate s))) /\
  (Z.rem (time s) 6 <> 0%Z -> isRolloverTick s = false ->
   renderSun (tickWith p th day s r)
     = tickSun (lookup (selectedLocation s) SOLAR_DATA) s).
Proof.
  split; [apply decimal_hour_convention|].
  intros Hrem Hroll. unfold renderSun. rewrite decimal_hour_convention.
  destruct (tickWith_selection p th day s r) as (Hl & _). rewrite Hl.
  pose proof (tickWith_weather p th day s r) as Hwx.
  apply Z.eqb_neq in Hrem. rewrite Hrem in Hwx. injection Hwx as Hc _.
  rewrite Hc, tickWith_currentDate, Hroll.
  pose proof (tickWith_clock p th day s r) as Hclock.
  unfold clockOf, nextClock in Hclock. cbn [fst snd] in Hclock.
  unfold tickSun. unfold isRolloverTick in Hroll.
  destruct (advanceClock (currentHour s) (currentMinute s)
              (speedOf (selectedSpeed s))) as [hb fm].
  cbn [fst] in Hroll. rewrite Hroll in Hclock |- *.
  injection Hclock as -> ->. reflexivity.
Qed.

(** X19.  For a positive capacity and a non-negative amount, the fill
    level of a product tank lies in [0, 100], is the plain percentage up
    to the capacity and exactly 100 from there on, and the roll-out
    warning is raised exactly when the amount reaches 95% of the
    capacity. *)
Theorem tank_level_saturates (amount capacity : R) :
  0 < capacity -> 0 <= amount ->
  0 <= tankLevel amount capacity <= 100 /\
  (amount <= capacity -> tankLevel amount capacity = amount / capacity * 100) /\
  (capacity <= amount -> tankLevel amount capacity = 100) /\
  (rollOutRequired (tankLevel amount capacity) = true <-> 0.95 * capacity <= amount).
Proof.
  intros Hcap Hamt. unfold tankLevel, rollOutRequired, ge.
  assert (Hinv : 0 < / capacity) by (apply Rinv_0_lt_compat; exact Hcap).
  assert (Hratio : amount / capacity * capacity = amount)
    by (field; lra).
  set (q := amount / capacity) in *.
  assert (Hq : 0 <= q) by (unfold q, Rdiv; apply Rmult_le_pos; lra).
  split; [split; [apply Rmin_glb; lra | apply Rmin_r]|].
  split; [|split].
  - intros Hle. apply Rmin_left. nra.
  - intros Hge. apply Rmin_right. nra.
  - destruct (Rle_dec 95 (Rmin (q * 100) 100)) as [H|H]; split; intros H'.
    + assert (95 <= q * 100) by (eapply Rle_trans; [exact H | apply Rmin_l]). nra.
    + reflexivity.
    + discriminate.
    + exfalso. apply H. apply Rmin_glb; nra.
Qed.

Lemma tank_level_saturates_witness :
  (0 < 100 /\ 0 <= 96.5) /\
  0 <= tankLevel 96.5 100 <= 100 /\
  (96.5 <= 100 -> tankLevel 96.5 100 = 96.5 / 100 * 100) /\
  (100 <= 96.5 -> tankLevel 96.5 100 = 100) /\
  (rollOutRequired (tankLevel 96.5 100) = true <-> 0.95 * 100 <= 96.5).
Proof.
  assert (H1 : 0 < 100) by lra.
  assert (H2 : 0 <= 96.5) by lra.
  split; [split; assumption|].
  exact (tank_level_saturates 96.5 100 H1 H2).
Defined.

(** X20.  While the pyrolysis flag is on, the "kg/h" figure of the reactor
    panel is the power-limited rate without the capacity cap: it is never
    below the rate [processPyrolysis] works at under the displayed thermal
    power, and as soon as that power exceeds 0.0625 MW the figure is above
    the reactor capacity of 500 kg/h while the engine's rate is 500.  With
    the flag off the figure is 0. *)
Theorem displayed_rate_is_uncapped (s : State) (p : Plastic) (dt : R) :
  0 <= renderThermalPower s ->
  (pyrolysisActive s = true ->
   p_rate (processPyrolysis p (renderThermalPower s) dt) <= displayedRate s /\
   (0.0625 < renderThermalPower s ->
    CONSTANTS.REACTOR_CAPACITY < displayedRate s /\
    p_rate (processPyrolysis p (renderThermalPower s) dt)
      = CONSTANTS.REACTOR_CAPACITY)) /\
  (pyrolysisActive s = false -> displayedRate s = 0).
Proof.
  intros Hth. unfold displayedRate. split.
  - intros ->. unfold processPyrolysis. cbn [p_rate].
    unfold CONSTANTS.PYROLYSIS_ENERGY, CONSTANTS.REACTOR_CAPACITY.
    split; [apply Rmin_l|].
    intros Hbig. split; [lra|]. apply Rmin_right. lra.
  - intros ->. reflexivity.
Qed.

Lemma renderThermalPower_nonneg (s : State) :
  (0 <= operational (heliostats s))%Z -> 0 <= renderThermalPower s.
Proof.
  intros Hop. apply IZR_le in Hop.
  unfold renderThermalPower, renderSun.
  pose proof (sun_dni_nonneg (lookup (selectedLocation s) SOLAR_DATA) (cloudCover s)
                (IZR (currentHour s) + IZR (currentMinute s) / 60) 0
                (IZR (dayOfYear (currentDate s)))) as Hd.
  set (d := sun_dni _) in *.
  unfold calculateThermalPower, CONSTANTS.HELIOSTAT_AREA,
    CONSTANTS.HELIOSTAT_EFFICIENCY, CONSTANTS.RECEIVER_EFFICIENCY.
  assert (0 <= IZR (operational (heliostats s)) * d) by (apply Rmult_le_pos; lra).
  destruct (gt (windSpeed s) 10); lra.
Qed.

Lemma displayed_rate_is_uncapped_witness :
  0 <= renderThermalPower hotPolystyreneState /\
  (pyrolysisActive hotPolystyreneState = true ->
   p_rate (processPyrolysis PS (renderThermalPower hotPolystyreneState) 720)
     <= displayedRate hotPolystyreneState /\
   (0.0625 < renderThermalPower hotPolystyreneState ->
    CONSTANTS.REACTOR_CAPACITY < displayedRate hotPolystyreneState /\
    p_rate (processPyrolysis PS (renderThermalPower hotPolystyreneState) 720)
      = CONSTANTS.REACTOR_CAPACITY)) /\
  (pyrolysisActive hotPolystyreneState = false ->
   displayedRate hotPolystyreneState = 0).
Proof.
  assert (H : 0 <= renderThermalPower hotPolystyreneState).
  { apply renderThermalPower_nonneg.
    cbn [heliostats hotPolystyreneState operational].
    unfold CONSTANTS.HELIOSTAT_COUNT. lia. }
  split; [exact H|].
  exact (displayed_rate_is_uncapped hotPolystyreneState PS 720 H).
Defined.

(** * Shape of the DNI curve *)

(** X21.  Cloud attenuation is linear: for a cloud cover c in [0, 100] the
    DNI is exactly (1 - 0.7 * c / 100) times the clear-sky DNI of the same
    instant, so a fully overcast sky leaves 30% of it. *)
Theorem cloud_attenuation_is_linear
    (locationData : option Location) (c hour minute dayOfYear : R) :
  0 <= c <= 100 ->
  sun_dni (calculateSunParameters locationData c hour minute dayOfYear)
    = (1 - c / 100 * 0.7)
      * sun_dni (calculateSunParameters locationData 0 hour minute dayOfYear) /\
  sun_dni (calculateSunParameters locationData 100 hour minute dayOfYear)
    = 0.3 * sun_dni (calculateSunParameters locationData 0 hour minute dayOfYear).
Proof.
  intros Hc. unfold calculateSunParameters.
  destruct (_ || _); cbn [sun_dni]; [split; lra|].
  set (K := dniOr locationData 6.0 * 1000 / 8 * _ * _).
  split; unfold Rmax; repeat destruct (Rle_dec _ _); nra.
Qed.

Lemma cloud_attenuation_is_linear_witness :
  0 <= 60 <= 100 /\
  sun_dni (calculateSunParameters (lookup "Cairo, Egypt" SOLAR_DATA) 60 10 15 120)
    = (1 - 60 / 100 * 0.7)
      * sun_dni (calculateSunParameters (lookup "Cairo, Egypt" SOLAR_DATA) 0 10 15 120).
Proof.
  split; [lra|].
  apply (cloud_attenuation_is_linear (lookup "Cairo, Egypt" SOLAR_DATA) 60 10 15 120).
  lra.
Defined.

(** X22.  On any day, at any location key and under any cloud cover, the
    DNI of no instant exceeds the DNI the model gives for 12:00 of that
    day under the same cloud cover. *)
Theorem dni_peaks_at_noon (k : string) (c h m d : R) :
  sun_dni (calculateSunParameters (lookup k SOLAR_DATA) c h m d)
  <= sun_dni (calculateSunParameters (lookup k SOLAR_DATA) c 12 0 d).
Proof.
  set (loc := lookup k SOLAR_DATA).
  destruct (Rlt_dec (h + m / 60) (sunriseAt loc d)) as [Hearly|Hearly].
  { rewrite night_before_sunrise by assumption. apply sun_dni_nonneg. }
  destruct (Rlt_dec (sunsetAt loc d) (h + m / 60)) as [Hlate|Hlate].
  { rewrite night_after_sunset by assumption. apply sun_dni_nonneg. }
  assert (Hday : sunriseAt loc d <= h + m / 60 <= sunsetAt loc d) by lra.
  pose proof (half_sine_range _ (normalizedHour_range k _ d Hday)) as Hsin.
  fold loc in Hsin.
  unfold loc at 2. rewrite noon_dni. fold loc.
  rewrite daytime_dni by assumption.
  pose proof (SIN_bound ((d - 81) / 365 * 2 * PI)) as Hs.
  pose proof (dniOr_pos k) as Hd0. fold loc in Hd0.
  set (sn := sin ((h + m / 60 - sunriseAt loc d)
                  / (sunsetAt loc d - sunriseAt loc d) * PI)) in *.
  set (ss := sin ((d - 81) / 365 * 2 * PI)) in *.
  assert (HB : 0 <= dniOr loc 6.0 * 1000 / 8 * (1 + ss * 0.3))
    by (apply Rmult_le_pos; lra).
  set (B := dniOr loc 6.0 * 1000 / 8 * (1 + ss * 0.3)) in *.
  replace (dniOr loc 6.0 * 1000 / 8 * sn * (1 + ss * 0.3) * (1 - c / 100 * 0.7) * 1.4)
    with (B * sn * (1 - c / 100 * 0.7) * 1.4) by (unfold B; ring).
  destruct (Rle_dec 0 (1 - c / 100 * 0.7)) as [Hcf|Hcf].
  - apply Rle_max_compat_l.
    assert (B * sn <= B) by nra.
    nra.
  - rewrite (Rmax_left 0 (B * sn * (1 - c / 100 * 0.7) * 1.4)).
    + apply Rmax_l.
    + assert (0 <= B * sn) by (apply Rmult_le_pos; lra). nra.
Qed.
